(** * fake-cdn: the synthetic traffic engine

    A shallow embedding of [fake_cdn/core/generator.py] and
    [fake_cdn/core/validator.py].

    Conventions of the embedding.
    - A Python [float] is an exact rational ([Q]); rounding of IEEE doubles is
      not modelled.  A Python [int] is a [Z].
    - [int(x)] truncates toward zero ([py_int]); [//] and [%] are the floor
      division and modulo of [Z].
    - A Python exception is a [Raise] outcome; a function that can raise
      returns an [outcome].
    - The module-level [random] generator is an explicit stream of draws that
      every drawing function consumes from the front ([Rand]).
    - [math.sin((hour - 6) * math.pi / 12)] is the parameter [sin_term]; the
      table of the doubles CPython returns is [sin_term_double]. *)

From Stdlib Require Import String ZArith QArith Qabs Qround Bool List Sorted Lia Lqa.
Import ListNotations.

Local Open Scope Z_scope.

(* ================================================================== *)
(** ** Python primitives *)
(* ================================================================== *)

Inductive exn : Type :=
| ZeroDivisionError
| ValueError
| IndexError
| KeyError
| TypeError.

Inductive outcome (A : Type) : Type :=
| Ok (a : A)
| Raise (e : exn).

Arguments Ok {A} a.
Arguments Raise {A} e.

(** [int(x)] on a float: truncation toward zero. *)
Definition py_int (x : Q) : Z := Z.quot (Qnum x) (Zpos (Qden x)).

(** [a < b] on floats. *)
Definition Qltb (a b : Q) : bool := negb (Qle_bool b a).

(** [max(a, b)]: the first argument unless the second is strictly larger. *)
Definition py_max (a b : Q) : Q := if Qltb a b then b else a.

(** [max(a, b)] on ints. *)
Definition py_maxz (a b : Z) : Z := if a <? b then b else a.

(** [a / b] on floats. *)
Definition py_div (a b : Q) : outcome Q :=
  if Qeq_bool b 0 then Raise ZeroDivisionError else Ok (a / b)%Q.

(** [a // b] on ints. *)
Definition py_floordiv (a b : Z) : outcome Z :=
  if b =? 0 then Raise ZeroDivisionError else Ok (a / b).

(** [sum(l)]: left to right from 0. *)
Definition py_sum (l : list Q) : Q := fold_left Qplus l 0%Q.

(** [max(l)] on a list. *)
Definition py_max_list (l : list Q) : outcome Q :=
  match l with
  | [] => Raise ValueError
  | x :: r => Ok (fold_left (fun m y => if Qltb m y then y else m) r x)
  end.

(** [sorted(l)]: a stable ascending sort. *)
Fixpoint insert_sorted (x : Q) (l : list Q) : list Q :=
  match l with
  | [] => [x]
  | y :: r => if Qle_bool x y then x :: y :: r else y :: insert_sorted x r
  end.

Fixpoint sorted (l : list Q) : list Q :=
  match l with
  | [] => []
  | x :: r => insert_sorted x (sorted r)
  end.

(** [l[i]], with Python's negative indices. *)
Definition py_index {A : Type} (l : list A) (i : Z) : outcome A :=
  let n := Z.of_nat (length l) in
  let j := if i <? 0 then i + n else i in
  if (0 <=? j) && (j <? n)
  then match nth_error l (Z.to_nat j) with
       | Some x => Ok x
       | None => Raise IndexError
       end
  else Raise IndexError.

(** [l[a:b]] for [0 <= a <= b]. *)
Definition py_slice {A : Type} (l : list A) (a b : nat) : list A :=
  firstn (b - a) (skipn a l).

(** [range(0, stop, step)]. *)
Definition py_range_step (stop step : Z) : outcome (list Z) :=
  if step =? 0 then Raise ValueError
  else if (step <? 0) || (stop <=? 0) then Ok []
  else Ok (map (fun k => Z.of_nat k * step)
               (seq 0 (Z.to_nat ((stop + step - 1) / step)))).

(* ================================================================== *)
(** ** The random generator *)
(* ================================================================== *)

(** What the generator yields at one call: the float of [random.random()],
    and the raw integer that [random.choice] reduces to an index. *)
Record draw : Type := mkDraw {
  unit_draw : Q;
  index_draw : nat
}.

Definition rng : Type := nat -> draw.

Definition advance (s : rng) : rng := fun n => s (S n).

Definition Rand (A : Type) : Type := rng -> outcome (A * rng).

Definition ret {A : Type} (a : A) : Rand A := fun s => Ok (a, s).

Definition bind {A B : Type} (m : Rand A) (f : A -> Rand B) : Rand B :=
  fun s => match m s with
           | Ok (a, s') => f a s'
           | Raise e => Raise e
           end.

Definition lift {A : Type} (o : outcome A) : Rand A :=
  fun s => match o with
           | Ok a => Ok (a, s)
           | Raise e => Raise e
           end.

Declare Scope rand_scope.
Delimit Scope rand_scope with rand.
Notation "x <- m ;; k" := (bind m (fun x => k))
  (at level 61, m at next level, right associativity) : rand_scope.
Local Open Scope rand_scope.

(** [random.random()]. *)
Definition random : Rand Q := fun s => Ok (unit_draw (s O), advance s).

(** [random.uniform(a, b)] is [a + (b - a) * random()]. *)
Definition uniform (a b : Q) : Rand Q :=
  u <- random ;; ret (a + (b - a) * u)%Q.

(** [random.choice(seq)]. *)
Definition choice {A : Type} (l : list A) : Rand A :=
  fun s => match nth_error l (index_draw (s O) mod length l)%nat with
           | Some x => Ok (x, advance s)
           | None => Raise IndexError
           end.

(** Every float the generator yields lies in [0, 1). *)
Definition unit_draws (s : rng) : Prop :=
  forall n, (0 <= unit_draw (s n) /\ unit_draw (s n) < 1)%Q.

(** Unfolding of the monad in proofs. *)
Ltac rand_unfold :=
  cbv beta iota zeta delta [bind uniform random ret lift].

Ltac rand_unfold_in H :=
  cbv beta iota zeta delta [bind uniform random ret lift] in H.

(* ================================================================== *)
(** ** Configuration *)
(* ================================================================== *)

Record Region : Type := mkRegion {
  country : string;
  region : string;
  weight : Q
}.

Record Config : Type := mkConfig {
  target_bandwidth_gbps : Q;
  start_day : Z;                    (* time.start_date, as days since the epoch *)
  duration_days : Z;
  interval_seconds : Z;
  tenant_id : string;
  domains : list string;
  regions : list Region;
  burst_probability : Q;
  cache_hit_rate : Q * Q;
  avg_object_size_kb : Q * Q;
  origin_fail_rate : Q * Q;
  anomaly_probability : Q
}.

(* ================================================================== *)
(** ** BandwidthCurveGenerator *)
(* ================================================================== *)

Section Generator.

Variable sin_term : Z -> Q.

Definition daily_factor (hour_of_day : Z) : Q :=
  (0.6 + 0.7 * (0.5 + 0.5 * sin_term hour_of_day))%Q.

Definition weekly_factor (day_of_week : Z) : Q :=
  if (day_of_week =? 5) || (day_of_week =? 6) then 0.85%Q else 1.0%Q.

Definition monthly_factor (duration day_of_month : Z) : Q :=
  if (day_of_month <? 3) || (duration - 3 <=? day_of_month)
  then 1.15%Q else 1.0%Q.

(** The body of the loop of [generate] for index [i]; [step] is
    [interval_seconds // 60]. *)
Definition generate_point (cfg : Config) (duration step i : Z) : Rand Q :=
  let minute_of_month := i * step in
  let hour_of_day := (minute_of_month / 60) mod 24 in
  let day_of_week := (minute_of_month / 1440) mod 7 in
  let day_of_month := minute_of_month / 1440 in
  noise_factor <- uniform 0.92 1.08 ;;
  r <- random ;;
  burst_factor <- (if Qltb r (burst_probability cfg)
                   then uniform 2.0 3.0 else ret 1.0%Q) ;;
  let bw := (target_bandwidth_gbps cfg * daily_factor hour_of_day
             * weekly_factor day_of_week
             * monthly_factor duration day_of_month
             * noise_factor * burst_factor)%Q in
  ret (py_max 0.1 bw).

Fixpoint generate_loop (cfg : Config) (duration step : Z) (i : Z) (n : nat)
  : Rand (list Q) :=
  match n with
  | O => ret []
  | S n' =>
      bw <- generate_point cfg duration step i ;;
      rest <- generate_loop cfg duration step (i + 1) n' ;;
      ret (bw :: rest)
  end.

(** [calc_daily_p95] of [_adjust_to_target]. *)
Definition calibration_index (n : Z) : Z :=
  let idx := py_int (inject_Z n * 0.95) - 1 in
  let idx := if idx <? 0 then 0 else idx in
  if n <=? idx then n - 1 else idx.

Definition calc_daily_p95 (day_curve : list Q) : outcome Q :=
  let sorted_bw := sorted day_curve in
  let n := Z.of_nat (length sorted_bw) in
  py_index sorted_bw (calibration_index n).

(** The loop of [_adjust_to_target] over the day starts. *)
Fixpoint daily_p95_loop (curve : list Q) (points_per_day : Z)
  (starts : list Z) : outcome (list Q) :=
  match starts with
  | [] => Ok []
  | day_start :: more =>
      let day_curve :=
        py_slice curve (Z.to_nat day_start)
                 (Z.to_nat (day_start + points_per_day)) in
      if Qle_bool (inject_Z points_per_day * 0.5)
                  (inject_Z (Z.of_nat (length day_curve)))
      then match calc_daily_p95 day_curve with
           | Ok p =>
               match daily_p95_loop curve points_per_day more with
               | Ok l => Ok (p :: l)
               | Raise e => Raise e
               end
           | Raise e => Raise e
           end
      else daily_p95_loop curve points_per_day more
  end.

Definition daily_p95_list (curve : list Q) (points_per_day : Z)
  : outcome (list Q) :=
  match py_range_step (Z.of_nat (length curve)) points_per_day with
  | Ok starts => daily_p95_loop curve points_per_day starts
  | Raise e => Raise e
  end.

Definition mean (l : list Q) : outcome Q :=
  py_div (py_sum l) (inject_Z (Z.of_nat (length l))).

Definition points_per_day_of (cfg : Config) : outcome Z :=
  match py_floordiv (interval_seconds cfg) 60 with
  | Ok step => py_floordiv (24 * 60) step
  | Raise e => Raise e
  end.

Definition _adjust_to_target (cfg : Config) (curve : list Q)
  : outcome (list Q) :=
  let target := target_bandwidth_gbps cfg in
  match points_per_day_of cfg with
  | Raise e => Raise e
  | Ok points_per_day =>
  match daily_p95_list curve points_per_day with
  | Raise e => Raise e
  | Ok daily =>
  match (match daily with [] => py_max_list curve | _ => mean daily end) with
  | Raise e => Raise e
  | Ok avg_daily_p95 =>
  match py_div (Qabs (avg_daily_p95 - target)) target with
  | Raise e => Raise e
  | Ok deviation =>
      if Qltb 0.02 deviation
      then match py_div target avg_daily_p95 with
           | Raise e => Raise e
           | Ok scale =>
               let curve' := map (fun bw => bw * scale)%Q curve in
               match mean curve' with
               | Raise e => Raise e
               | Ok _ => Ok curve'
               end
           end
      else Ok curve
  end end end end.

Definition generate (cfg : Config) (duration interval : Z)
  : Rand (list Q) :=
  step <- lift (py_floordiv interval 60) ;;
  total_points <- lift (py_floordiv (duration * 24 * 60) step) ;;
  curve <- generate_loop cfg duration step 0 (Z.to_nat total_points) ;;
  lift (_adjust_to_target cfg curve).

End Generator.

(* ================================================================== *)
(** ** MetricsDerivator *)
(* ================================================================== *)

(** The dict [derive] returns, in the order of its keys. *)
Record MetricRecord : Type := mkMetrics {
  bw : Z;
  flux : Z;
  bs_bw : Z;
  bs_flux : Z;
  req_num : Z;
  hit_num : Z;
  bs_num : Z;
  bs_fail_num : Z;
  hit_flux : Z;
  http_code_2xx : Z;
  http_code_3xx : Z;
  http_code_4xx : Z;
  http_code_5xx : Z;
  bs_http_code_2xx : Z;
  bs_http_code_3xx : Z;
  bs_http_code_4xx : Z;
  bs_http_code_5xx : Z
}.

(** The origin-facing status histogram of [derive]. *)
Definition derive_origin_codes (bs_num : Z) : Rand (Z * Z * Z * Z) :=
  if 0 <? bs_num
  then
    r2 <- uniform 0.85 0.95 ;;
    let bs_http_2xx := py_int (inject_Z bs_num * r2) in
    r4 <- uniform 0.02 0.08 ;;
    let bs_http_4xx := py_int (inject_Z bs_num * r4) in
    r3 <- uniform 0.01 0.05 ;;
    let bs_http_3xx := py_int (inject_Z bs_num * r3) in
    let bs_http_5xx :=
      py_maxz 0 (bs_num - bs_http_2xx - bs_http_4xx - bs_http_3xx) in
    ret (bs_http_2xx, bs_http_3xx, bs_http_4xx, bs_http_5xx)
  else ret (0, 0, 0, 0).

Definition derive (cfg : Config) (bandwidth_gbps : Q) (interval : Z)
  : Rand MetricRecord :=
  let flux_bytes :=
    py_int (bandwidth_gbps * 1024 * 1024 * 1024 * inject_Z interval / 8) in
  cache_hit_rate <-
    uniform (fst (cache_hit_rate cfg)) (snd (cache_hit_rate cfg)) ;;
  let bs_flux_bytes := py_int (inject_Z flux_bytes * (1 - cache_hit_rate)) in
  let hit_flux_bytes := flux_bytes - bs_flux_bytes in
  avg_obj_size <-
    uniform (fst (avg_object_size_kb cfg) * 1024)
            (snd (avg_object_size_kb cfg) * 1024) ;;
  per_obj <- lift (py_div (inject_Z flux_bytes) avg_obj_size) ;;
  let req_num := py_maxz 1 (py_int per_obj) in
  let hit_num := py_int (inject_Z req_num * cache_hit_rate) in
  let bs_num := req_num - hit_num in
  bs_fail_rate <-
    uniform (fst (origin_fail_rate cfg)) (snd (origin_fail_rate cfg)) ;;
  let bs_fail_num := py_maxz 0 (py_int (inject_Z bs_num * bs_fail_rate)) in
  c2 <- uniform 0.75 0.90 ;;
  let http_2xx := py_int (inject_Z req_num * c2) in
  c4 <- uniform 0.05 0.15 ;;
  let http_4xx := py_int (inject_Z req_num * c4) in
  c3 <- uniform 0.02 0.08 ;;
  let http_3xx := py_int (inject_Z req_num * c3) in
  let http_5xx := py_maxz 0 (req_num - http_2xx - http_4xx - http_3xx) in
  origin <- derive_origin_codes bs_num ;;
  let '(bs_http_2xx, bs_http_3xx, bs_http_4xx, bs_http_5xx) := origin in
  let bw_mbps := py_int (bandwidth_gbps * 1024) in
  bs_rate <- lift (py_div (inject_Z bs_flux_bytes * 8) (inject_Z interval)) ;;
  let bs_bw_mbps := py_int (bs_rate / 1024 / 1024) in
  ret {| bw := bw_mbps;
         flux := flux_bytes;
         bs_bw := bs_bw_mbps;
         bs_flux := bs_flux_bytes;
         req_num := req_num;
         hit_num := hit_num;
         bs_num := bs_num;
         bs_fail_num := bs_fail_num;
         hit_flux := hit_flux_bytes;
         http_code_2xx := http_2xx;
         http_code_3xx := http_3xx;
         http_code_4xx := http_4xx;
         http_code_5xx := http_5xx;
         bs_http_code_2xx := bs_http_2xx;
         bs_http_code_3xx := bs_http_3xx;
         bs_http_code_4xx := bs_http_4xx;
         bs_http_code_5xx := bs_http_5xx |}.

(* ================================================================== *)
(** ** AnomalyInjector *)
(* ================================================================== *)

(** [metrics[key] = v] for the keys [inject] assigns. *)
Definition set_http_code_2xx (v : Z) (m : MetricRecord) : MetricRecord :=
  mkMetrics (bw m) (flux m) (bs_bw m) (bs_flux m) (req_num m) (hit_num m)
    (bs_num m) (bs_fail_num m) (hit_flux m) v (http_code_3xx m)
    (http_code_4xx m) (http_code_5xx m) (bs_http_code_2xx m)
    (bs_http_code_3xx m) (bs_http_code_4xx m) (bs_http_code_5xx m).

Definition set_http_code_4xx (v : Z) (m : MetricRecord) : MetricRecord :=
  mkMetrics (bw m) (flux m) (bs_bw m) (bs_flux m) (req_num m) (hit_num m)
    (bs_num m) (bs_fail_num m) (hit_flux m) (http_code_2xx m)
    (http_code_3xx m) v (http_code_5xx m) (bs_http_code_2xx m)
    (bs_http_code_3xx m) (bs_http_code_4xx m) (bs_http_code_5xx m).

Definition set_http_code_5xx (v : Z) (m : MetricRecord) : MetricRecord :=
  mkMetrics (bw m) (flux m) (bs_bw m) (bs_flux m) (req_num m) (hit_num m)
    (bs_num m) (bs_fail_num m) (hit_flux m) (http_code_2xx m)
    (http_code_3xx m) (http_code_4xx m) v (bs_http_code_2xx m)
    (bs_http_code_3xx m) (bs_http_code_4xx m) (bs_http_code_5xx m).

Definition set_bs_fail_num (v : Z) (m : MetricRecord) : MetricRecord :=
  mkMetrics (bw m) (flux m) (bs_bw m) (bs_flux m) (req_num m) (hit_num m)
    (bs_num m) v (hit_flux m) (http_code_2xx m)
    (http_code_3xx m) (http_code_4xx m) (http_code_5xx m)
    (bs_http_code_2xx m) (bs_http_code_3xx m) (bs_http_code_4xx m)
    (bs_http_code_5xx m).

Definition set_bs_http_code_2xx (v : Z) (m : MetricRecord) : MetricRecord :=
  mkMetrics (bw m) (flux m) (bs_bw m) (bs_flux m) (req_num m) (hit_num m)
    (bs_num m) (bs_fail_num m) (hit_flux m) (http_code_2xx m)
    (http_code_3xx m) (http_code_4xx m) (http_code_5xx m)
    v (bs_http_code_3xx m) (bs_http_code_4xx m) (bs_http_code_5xx m).

Definition set_bs_http_code_5xx (v : Z) (m : MetricRecord) : MetricRecord :=
  mkMetrics (bw m) (flux m) (bs_bw m) (bs_flux m) (req_num m) (hit_num m)
    (bs_num m) (bs_fail_num m) (hit_flux m) (http_code_2xx m)
    (http_code_3xx m) (http_code_4xx m) (http_code_5xx m)
    (bs_http_code_2xx m) (bs_http_code_3xx m) (bs_http_code_4xx m) v.

Definition set_hit_num (v : Z) (m : MetricRecord) : MetricRecord :=
  mkMetrics (bw m) (flux m) (bs_bw m) (bs_flux m) (req_num m) v
    (bs_num m) (bs_fail_num m) (hit_flux m) (http_code_2xx m)
    (http_code_3xx m) (http_code_4xx m) (http_code_5xx m)
    (bs_http_code_2xx m) (bs_http_code_3xx m) (bs_http_code_4xx m)
    (bs_http_code_5xx m).

Definition set_bs_num (v : Z) (m : MetricRecord) : MetricRecord :=
  mkMetrics (bw m) (flux m) (bs_bw m) (bs_flux m) (req_num m) (hit_num m)
    v (bs_fail_num m) (hit_flux m) (http_code_2xx m)
    (http_code_3xx m) (http_code_4xx m) (http_code_5xx m)
    (bs_http_code_2xx m) (bs_http_code_3xx m) (bs_http_code_4xx m)
    (bs_http_code_5xx m).

Definition set_hit_flux (v : Z) (m : MetricRecord) : MetricRecord :=
  mkMetrics (bw m) (flux m) (bs_bw m) (bs_flux m) (req_num m) (hit_num m)
    (bs_num m) (bs_fail_num m) v (http_code_2xx m)
    (http_code_3xx m) (http_code_4xx m) (http_code_5xx m)
    (bs_http_code_2xx m) (bs_http_code_3xx m) (bs_http_code_4xx m)
    (bs_http_code_5xx m).

Definition set_bs_flux (v : Z) (m : MetricRecord) : MetricRecord :=
  mkMetrics (bw m) (flux m) (bs_bw m) v (req_num m) (hit_num m)
    (bs_num m) (bs_fail_num m) (hit_flux m) (http_code_2xx m)
    (http_code_3xx m) (http_code_4xx m) (http_code_5xx m)
    (bs_http_code_2xx m) (bs_http_code_3xx m) (bs_http_code_4xx m)
    (bs_http_code_5xx m).

Section Injector.

(** The local time zone of the process, in seconds east of UTC. *)
Variable utc_offset : Z.

(** [datetime.fromtimestamp(timestamp_ms / 1000).hour]. *)
Definition local_hour (timestamp_ms : Z) : Z :=
  ((timestamp_ms / 1000 + utc_offset) / 3600) mod 24.

(** 1. the maintenance window; [and] draws only when the hour matches. *)
Definition maintenance_window (hour : Z) (metrics : MetricRecord)
  : Rand MetricRecord :=
  if (hour =? 2) || (hour =? 3) || (hour =? 4)
  then
    r <- random ;;
    if Qltb r 0.05
    then
      u <- uniform 0.05 0.15 ;;
      let spike_5xx := py_int (inject_Z (req_num metrics) * u) in
      let metrics := set_http_code_5xx spike_5xx metrics in
      ret (set_http_code_2xx
             (py_maxz 0 (http_code_2xx metrics - spike_5xx)) metrics)
    else ret metrics
  else ret metrics.

(** 2. the origin outage. *)
Definition origin_outage (cfg : Config) (metrics : MetricRecord)
  : Rand MetricRecord :=
  r <- random ;;
  if Qltb r (anomaly_probability cfg)
  then
    fail_rate <- uniform 0.3 0.8 ;;
    let metrics :=
      set_bs_fail_num (py_int (inject_Z (bs_num metrics) * fail_rate))
                      metrics in
    let metrics := set_bs_http_code_5xx (bs_fail_num metrics) metrics in
    ret (set_bs_http_code_2xx
           (py_maxz 0 (bs_num metrics - bs_fail_num metrics)) metrics)
  else ret metrics.

(** 3. the cache purge. *)
Definition cache_purge (metrics : MetricRecord) : Rand MetricRecord :=
  r <- random ;;
  if Qltb r 0.01
  then
    new_hit_rate <- uniform 0.5 0.7 ;;
    let metrics :=
      set_hit_num (py_int (inject_Z (req_num metrics) * new_hit_rate))
                  metrics in
    let metrics := set_bs_num (req_num metrics - hit_num metrics) metrics in
    let metrics :=
      set_hit_flux (py_int (inject_Z (flux metrics) * new_hit_rate))
                   metrics in
    ret (set_bs_flux (flux metrics - hit_flux metrics) metrics)
  else ret metrics.

(** 4. abuse traffic. *)
Definition abuse_spike (metrics : MetricRecord) : Rand MetricRecord :=
  r <- random ;;
  if Qltb r 0.005
  then
    u <- uniform 0.2 0.4 ;;
    let spike_4xx := py_int (inject_Z (req_num metrics) * u) in
    let metrics := set_http_code_4xx spike_4xx metrics in
    ret (set_http_code_2xx
           (py_maxz 0 (http_code_2xx metrics - spike_4xx)) metrics)
  else ret metrics.

Definition inject (cfg : Config) (metrics : MetricRecord) (timestamp_ms : Z)
  : Rand MetricRecord :=
  let hour := local_hour timestamp_ms in
  metrics <- maintenance_window hour metrics ;;
  metrics <- origin_outage cfg metrics ;;
  metrics <- cache_purge metrics ;;
  abuse_spike metrics.

End Injector.

(* ================================================================== *)
(** ** MultiDimensionDistributor *)
(* ================================================================== *)

(** The values a log dict holds. *)
Inductive value : Type :=
| VInt (z : Z)
| VFloat (q : Q)
| VStr (s : string).

(** A dict with string keys, in insertion order; its keys are distinct. *)
Definition dict : Type := list (string * value).

Fixpoint dict_set (k : string) (v : value) (d : dict) : dict :=
  match d with
  | [] => [(k, v)]
  | (k', v') :: r =>
      if String.eqb k k' then (k, v) :: r else (k', v') :: dict_set k v r
  end.

Fixpoint dict_get (k : string) (d : dict) : outcome value :=
  match d with
  | [] => Raise KeyError
  | (k', v') :: r => if String.eqb k k' then Ok v' else dict_get k r
  end.

(** [{**d, **e}]. *)
Definition dict_update (d e : dict) : dict :=
  fold_left (fun acc kv => dict_set (fst kv) (snd kv) acc) e d.

(** [global_metrics] as [derive] builds it. *)
Definition metrics_dict (m : MetricRecord) : dict :=
  [ ("bw", VInt (bw m));
    ("flux", VInt (flux m));
    ("bs_bw", VInt (bs_bw m));
    ("bs_flux", VInt (bs_flux m));
    ("req_num", VInt (req_num m));
    ("hit_num", VInt (hit_num m));
    ("bs_num", VInt (bs_num m));
    ("bs_fail_num", VInt (bs_fail_num m));
    ("hit_flux", VInt (hit_flux m));
    ("http_code_2xx", VInt (http_code_2xx m));
    ("http_code_3xx", VInt (http_code_3xx m));
    ("http_code_4xx", VInt (http_code_4xx m));
    ("http_code_5xx", VInt (http_code_5xx m));
    ("bs_http_code_2xx", VInt (bs_http_code_2xx m));
    ("bs_http_code_3xx", VInt (bs_http_code_3xx m));
    ("bs_http_code_4xx", VInt (bs_http_code_4xx m));
    ("bs_http_code_5xx", VInt (bs_http_code_5xx m)) ]%string.

(** [int(v * actual_weight) if isinstance(v, int) else v]. *)
Definition scale_value (actual_weight : Q) (v : value) : value :=
  match v with
  | VInt z => VInt (py_int (inject_Z z * actual_weight))
  | _ => v
  end.

Definition region_metrics_of (actual_weight : Q) (global_metrics : dict)
  : dict :=
  map (fun kv => (fst kv, scale_value actual_weight (snd kv))) global_metrics.

Definition log_entry_of (cfg : Config) (timestamp_ms : Z)
  (region_info : Region) (domain : string) (region_metrics : dict) : dict :=
  dict_update
    [ ("tenantId", VStr (tenant_id cfg));
      ("start_time", VInt timestamp_ms);
      ("country", VStr (country region_info));
      ("region", VStr (region region_info));
      ("domain", VStr domain);
      ("interval", VInt (interval_seconds cfg)) ]%string
    region_metrics.

Fixpoint distribute_loop (cfg : Config) (global_metrics : dict)
  (timestamp_ms : Z) (todo : list Region) : Rand (list dict) :=
  match todo with
  | [] => ret []
  | region_info :: more =>
      jitter <- uniform 0.9 1.1 ;;
      let actual_weight := (weight region_info * jitter)%Q in
      let region_metrics := region_metrics_of actual_weight global_metrics in
      domain <- choice (domains cfg) ;;
      let log_entry :=
        log_entry_of cfg timestamp_ms region_info domain region_metrics in
      rest <- distribute_loop cfg global_metrics timestamp_ms more ;;
      ret (log_entry :: rest)
  end.

Definition distribute (cfg : Config) (global_metrics : dict)
  (timestamp_ms : Z) : Rand (list dict) :=
  distribute_loop cfg global_metrics timestamp_ms (regions cfg).

(* ================================================================== *)
(** ** Percentile95Validator *)
(* ================================================================== *)

Record Top5 : Type := mkTop5 {
  top_count : Z;
  top_min : Q;
  top_max : Q;
  top_avg : Q
}.

Record Stats : Type := mkStats {
  total_points : Z;
  stats_min : Q;
  stats_max : Q;
  stats_avg : Q;
  p50 : Q;
  p95 : Q;
  p99 : Q;
  top_5_percent : Top5
}.

(** What [calculate_p95] returns: the one-key dict [{"error": msg}] or the
    statistics dict. *)
Inductive StatsDict : Type :=
| ErrorDict (msg : string)
| StatsOf (s : Stats).

(** The index [int(total * 0.95)] of [calculate_p95]. *)
Definition analyzer_p95_index (total : Z) : Z :=
  py_int (inject_Z total * 0.95).

Definition calculate_p95 (values : list Q) : outcome StatsDict :=
  match values with
  | [] => Ok (ErrorDict "空数据")
  | _ :: _ =>
      let sorted_values := sorted values in
      let total := Z.of_nat (length sorted_values) in
      let p50_index := total / 2 in
      let p95_index := analyzer_p95_index total in
      let p99_index := py_int (inject_Z total * 0.99) in
      match py_index sorted_values 0 with Raise e => Raise e | Ok vmin =>
      match py_index sorted_values (-1) with Raise e => Raise e | Ok vmax =>
      match py_div (py_sum sorted_values) (inject_Z total) with
      | Raise e => Raise e | Ok avg =>
      match py_index sorted_values p50_index with
      | Raise e => Raise e | Ok v50 =>
      match py_index sorted_values p95_index with
      | Raise e => Raise e | Ok v95 =>
      match py_index sorted_values p99_index with
      | Raise e => Raise e | Ok v99 =>
      match py_div (py_sum (skipn (Z.to_nat p95_index) sorted_values))
                   (inject_Z (total - p95_index)) with
      | Raise e => Raise e | Ok tavg =>
        Ok (StatsOf
              {| total_points := total;
                 stats_min := vmin;
                 stats_max := vmax;
                 stats_avg := avg;
                 p50 := v50;
                 p95 := v95;
                 p99 := v99;
                 top_5_percent :=
                   {| top_count := total - p95_index;
                      top_min := v95;
                      top_max := vmax;
                      top_avg := tavg |} |})
      end end end end end end end
  end.

(** [log["bw"] / 1024]. *)
Definition bw_gbps_of (log : dict) : outcome Q :=
  match dict_get "bw" log with
  | Ok (VInt z) => Ok (inject_Z z / 1024)%Q
  | Ok (VFloat q) => Ok (q / 1024)%Q
  | Ok (VStr _) => Raise TypeError
  | Raise e => Raise e
  end.

Fixpoint map_outcome {A B : Type} (f : A -> outcome B) (l : list A)
  : outcome (list B) :=
  match l with
  | [] => Ok []
  | x :: r =>
      match f x with
      | Raise e => Raise e
      | Ok y => match map_outcome f r with
                | Raise e => Raise e
                | Ok ys => Ok (y :: ys)
                end
      end
  end.

(** [==] on dict keys. *)
Definition value_eqb (a b : value) : bool :=
  match a, b with
  | VInt x, VInt y => x =? y
  | VFloat x, VFloat y => Qeq_bool x y
  | VInt x, VFloat y => Qeq_bool (inject_Z x) y
  | VFloat x, VInt y => Qeq_bool x (inject_Z y)
  | VStr x, VStr y => String.eqb x y
  | _, _ => false
  end.

(** [groups[key].append(x)] on a [defaultdict(list)]. *)
Fixpoint group_append (key : value) (x : Q) (groups : list (value * list Q))
  : list (value * list Q) :=
  match groups with
  | [] => [(key, [x])]
  | (k, xs) :: r =>
      if value_eqb key k then (k, xs ++ [x]) :: r
      else (k, xs) :: group_append key x r
  end.

Fixpoint group_by (field : string) (logs : list dict)
  (groups : list (value * list Q)) : outcome (list (value * list Q)) :=
  match logs with
  | [] => Ok groups
  | log :: more =>
      match bw_gbps_of log with
      | Raise e => Raise e
      | Ok bw_gbps =>
          match dict_get field log with
          | Raise e => Raise e
          | Ok key => group_by field more (group_append key bw_gbps groups)
          end
      end
  end.

Record Validation : Type := mkValidation {
  target_gbps : Q;
  actual_avg_gbps : Q;
  actual_p95_gbps : Q;
  deviation_percent : Q;
  passed : bool
}.

Record ValidationReport : Type := mkReport {
  validation : Validation;
  overall : Stats;
  by_region : list (value * StatsDict);
  by_domain : list (value * StatsDict)
}.

Definition group_stats (groups : list (value * list Q))
  : outcome (list (value * StatsDict)) :=
  map_outcome (fun g => match calculate_p95 (snd g) with
                        | Ok s => Ok (fst g, s)
                        | Raise e => Raise e
                        end) groups.

(** The loop of [validate_logs] that fills [by_region] and [by_domain] is
    two passes here, one per grouping key; the groups and the exception
    raised on a missing key are the same. *)
Definition validate_logs (logs : list dict) (target : Q)
  : outcome ValidationReport :=
  match map_outcome bw_gbps_of logs with Raise e => Raise e | Ok bandwidths =>
  match group_by "region" logs [] with Raise e => Raise e | Ok regions_bw =>
  match group_by "domain" logs [] with Raise e => Raise e | Ok domains_bw =>
  match calculate_p95 bandwidths with
  | Raise e => Raise e
  | Ok (ErrorDict _) => Raise KeyError
  | Ok (StatsOf overall_stats) =>
      let actual_avg := stats_avg overall_stats in
      match py_div (Qabs (actual_avg - target)) target with
      | Raise e => Raise e
      | Ok ratio =>
          let deviation := (ratio * 100)%Q in
          match group_stats regions_bw with Raise e => Raise e | Ok rs =>
          match group_stats domains_bw with Raise e => Raise e | Ok ds =>
            Ok {| validation :=
                    {| target_gbps := target;
                       actual_avg_gbps := actual_avg;
                       actual_p95_gbps := p95 overall_stats;
                       deviation_percent := deviation;
                       passed := Qltb deviation 5.0 |};
                  overall := overall_stats;
                  by_region := rs;
                  by_domain := ds |}
          end end
      end
  end end end end.

(* ================================================================== *)
(** ** CDNLogGenerator *)
(* ================================================================== *)

Record StatsSummary : Type := mkSummary {
  summary_total_points : Z;
  p50_gbps : Q;
  p95_gbps : Q;
  p99_gbps : Q;
  max_gbps : Q;
  min_gbps : Q;
  avg_gbps : Q;
  total_flux_tb : Q
}.

(** The index [int(len(sorted_bw) * 0.95)] of [generate_full_month]. *)
Definition summary_p95_index (n : Z) : Z := py_int (inject_Z n * 0.95).

Definition summary_stats (bandwidth_curve : list Q) (interval : Z)
  : outcome StatsSummary :=
  let sorted_bw := sorted bandwidth_curve in
  let n := Z.of_nat (length sorted_bw) in
  let p95_index := summary_p95_index n in
  match py_index sorted_bw (n / 2) with Raise e => Raise e | Ok v50 =>
  match py_index sorted_bw p95_index with Raise e => Raise e | Ok v95 =>
  match py_index sorted_bw (py_int (inject_Z n * 0.99)) with
  | Raise e => Raise e | Ok v99 =>
  match py_index sorted_bw (-1) with Raise e => Raise e | Ok vmax =>
  match py_index sorted_bw 0 with Raise e => Raise e | Ok vmin =>
  match py_div (py_sum bandwidth_curve)
               (inject_Z (Z.of_nat (length bandwidth_curve))) with
  | Raise e => Raise e | Ok avg =>
    Ok {| summary_total_points := Z.of_nat (length bandwidth_curve);
          p50_gbps := v50;
          p95_gbps := v95;
          p99_gbps := v99;
          max_gbps := vmax;
          min_gbps := vmin;
          avg_gbps := avg;
          total_flux_tb :=
            (py_sum bandwidth_curve * inject_Z interval / 8 / 1024)%Q |}
  end end end end end end.

Section Orchestrator.

Variable sin_term : Z -> Q.
Variable utc_offset : Z.

(** [int(timestamp.timestamp() * 1000)] for the naive local datetime
    [start_date + timedelta(seconds = i * interval_seconds)]. *)
Definition timestamp_ms_of (cfg : Config) (interval i : Z) : Z :=
  py_int (inject_Z (start_day cfg * 86400 + i * interval - utc_offset) * 1000).

Fixpoint full_month_loop (cfg : Config) (interval : Z) (i : Z)
  (curve : list Q) : Rand (list dict) :=
  match curve with
  | [] => ret []
  | bw_gbps :: more =>
      let timestamp_ms := timestamp_ms_of cfg interval i in
      metrics <- derive cfg bw_gbps interval ;;
      metrics <- inject utc_offset cfg metrics timestamp_ms ;;
      logs <- distribute cfg (metrics_dict metrics) timestamp_ms ;;
      rest <- full_month_loop cfg interval (i + 1) more ;;
      ret (logs ++ rest)
  end.

Definition generate_full_month (cfg : Config)
  : Rand (list dict * StatsSummary) :=
  let duration := duration_days cfg in
  let interval := interval_seconds cfg in
  bandwidth_curve <- generate sin_term cfg duration interval ;;
  stats <- lift (summary_stats bandwidth_curve interval) ;;
  all_logs <- full_month_loop cfg interval 0 bandwidth_curve ;;
  ret (all_logs, stats).

End Orchestrator.

(* ================================================================== *)
(** ** Concrete inputs *)
(* ================================================================== *)

(** The doubles [math.sin((hour - 6) * math.pi / 12)] evaluates to, as exact
    fractions, for [hour] in 0..23. *)
Definition sin_term_double (hour_of_day : Z) : Q :=
  match hour_of_day with
  | 0 => (-1)%Q
  | 1 => (-8700286382685973 # 9007199254740992)%Q
  | 2 => (-3900231685776981 # 4503599627370496)%Q
  | 3 => (-1592262918131443 # 2251799813685248)%Q
  | 4 => (-9007199254740991 # 18014398509481984)%Q
  | 5 => (-291404338770025 # 1125899906842624)%Q
  | 6 => (0)%Q
  | 7 => (291404338770025 # 1125899906842624)%Q
  | 8 => (9007199254740991 # 18014398509481984)%Q
  | 9 => (1592262918131443 # 2251799813685248)%Q
  | 10 => (3900231685776981 # 4503599627370496)%Q
  | 11 => (8700286382685973 # 9007199254740992)%Q
  | 12 => (1)%Q
  | 13 => (8700286382685973 # 9007199254740992)%Q
  | 14 => (7800463371553963 # 9007199254740992)%Q
  | 15 => (6369051672525773 # 9007199254740992)%Q
  | 16 => (9007199254740991 # 18014398509481984)%Q
  | 17 => (4662469420320405 # 18014398509481984)%Q
  | 18 => (4967757600021511 # 40564819207303340847894502572032)%Q
  | 19 => (-4662469420320401 # 18014398509481984)%Q
  | 20 => (-9007199254740987 # 18014398509481984)%Q
  | 21 => (-6369051672525769 # 9007199254740992)%Q
  | 22 => (-975057921444245 # 1125899906842624)%Q
  | 23 => (-8700286382685973 # 9007199254740992)%Q
  | _ => (0)%Q
  end.

(** A generator that yields the same float and index at every call. *)
Definition constant_rng (u : Q) (k : nat) : rng := fun _ => mkDraw u k.

(** A generator whose first floats are listed, and [u] afterwards. *)
Definition listed_rng (us : list Q) (u : Q) : rng :=
  fun n => mkDraw (nth n us u) 0.

(** The realism and dimension settings of a one-region deployment. *)
Definition sample_config (target : Q) (duration interval : Z) : Config :=
  {| target_bandwidth_gbps := target;
     start_day := 19723;
     duration_days := duration;
     interval_seconds := interval;
     tenant_id := "tenant-1";
     domains := ["cdn.example.com"%string];
     regions := [mkRegion "CN" "Beijing" 1.0%Q];
     burst_probability := 0.05%Q;
     cache_hit_rate := (0.85, 0.95)%Q;
     avg_object_size_kb := (200, 2048)%Q;
     origin_fail_rate := (0.001, 0.01)%Q;
     anomaly_probability := 0.001%Q |}.

(** Every count field of a record is non-negative. *)
Definition nonneg_counts (m : MetricRecord) : Prop :=
  0 <= bw m /\ 0 <= flux m /\ 0 <= bs_bw m /\ 0 <= bs_flux m /\
  0 <= req_num m /\ 0 <= hit_num m /\ 0 <= bs_num m /\
  0 <= bs_fail_num m /\ 0 <= hit_flux m /\
  0 <= http_code_2xx m /\ 0 <= http_code_3xx m /\
  0 <= http_code_4xx m /\ 0 <= http_code_5xx m /\
  0 <= bs_http_code_2xx m /\ 0 <= bs_http_code_3xx m /\
  0 <= bs_http_code_4xx m /\ 0 <= bs_http_code_5xx m.

(** The six keys [distribute] tags an entry with. *)
Definition tag_keys : list string :=
  ["tenantId"; "start_time"; "country"; "region"; "domain"; "interval"]%string.

(** The tags of an entry, as the dict literal of [distribute] lists them. *)
Definition entry_tags (cfg : Config) (timestamp_ms : Z) (region_info : Region)
  (domain : string) : dict :=
  [ ("tenantId", VStr (tenant_id cfg));
    ("start_time", VInt timestamp_ms);
    ("country", VStr (country region_info));
    ("region", VStr (region region_info));
    ("domain", VStr domain);
    ("interval", VInt (interval_seconds cfg)) ]%string.

(** [entry[key]] when it is an int, else 0; and its sum over entries. *)
Definition int_field (key : string) (entry : dict) : Z :=
  match dict_get key entry with
  | Ok (VInt z) => z
  | _ => 0
  end.

Definition sum_int_field (key : string) (entries : list dict) : Z :=
  fold_left (fun acc entry => acc + int_field key entry) entries 0.

(** Three regions whose weights sum to one. *)
Definition three_region_config : Config :=
  {| target_bandwidth_gbps := 20%Q;
     start_day := 19723;
     duration_days := 1;
     interval_seconds := 300;
     tenant_id := "tenant-1";
     domains := ["cdn.example.com"; "static.example.com"]%string;
     regions := [mkRegion "CN" "East" 0.5%Q;
                 mkRegion "CN" "North" 0.3%Q;
                 mkRegion "CN" "South" 0.2%Q];
     burst_probability := 0.05%Q;
     cache_hit_rate := (0.85, 0.95)%Q;
     avg_object_size_kb := (200, 2048)%Q;
     origin_fail_rate := (0.001, 0.01)%Q;
     anomaly_probability := 0.001%Q |}.

(** A record with 9000 requests. *)
Definition record_9000 : MetricRecord :=
  mkMetrics 20480 900000 40 90000 9000 8100 900 9 810000
            7200 450 900 450 810 27 45 18.

(** A run of one day sampled every six hours, target 20 Gbps, and draws
    that put the third of its four sorted samples at 20.4 Gbps: the noise
    draws are 0.5, 149/1748, 0.5 and 0; no burst draw succeeds. *)
Definition boundary_config : Config := sample_config 20 1 21600.

Definition boundary_rng : rng :=
  listed_rng [0.5; 0.5; 149 # 1748; 0.5; 0.5; 0.5; 0; 0.5]%Q 0.5%Q.

(** A run of one day sampled every hour with a target of 0.1 Gbps. *)
Definition small_target_config : Config := sample_config 0.1 1 3600.

(** The run of the round trip: one day sampled every 300 seconds, target
    20 Gbps. *)
Definition round_trip_config : Config := sample_config 20 1 300.

(** [_adjust_to_target] without [new_avg], which it computes only to print. *)
Definition adjust_without_report (cfg : Config) (curve : list Q)
  : outcome (list Q) :=
  let target := target_bandwidth_gbps cfg in
  match points_per_day_of cfg with
  | Raise e => Raise e
  | Ok points_per_day =>
  match daily_p95_list curve points_per_day with
  | Raise e => Raise e
  | Ok daily =>
  match (match daily with [] => py_max_list curve | _ => mean daily end) with
  | Raise e => Raise e
  | Ok avg_daily_p95 =>
  match py_div (Qabs (avg_daily_p95 - target)) target with
  | Raise e => Raise e
  | Ok deviation =>
      if Qltb 0.02 deviation
      then match py_div target avg_daily_p95 with
           | Raise e => Raise e
           | Ok scale => Ok (map (fun bw => bw * scale)%Q curve)
           end
      else Ok curve
  end end end end.

(** Generation followed by validation, without the summary statistics:
    whether the report fails with a deviation above 5%. *)
Definition round_trip_fails (sin_term : Z -> Q) (utc_offset : Z)
  (cfg : Config) (s : rng) (target : Q) : bool :=
  match generate_loop sin_term cfg (duration_days cfg)
          (interval_seconds cfg / 60) 0
          (Z.to_nat (duration_days cfg * 24 * 60
                     / (interval_seconds cfg / 60))) s with
  | Ok (raw, s1) =>
      match adjust_without_report cfg raw with
      | Ok (x :: r) =>
          match full_month_loop utc_offset cfg (interval_seconds cfg) 0
                                (x :: r) s1 with
          | Ok (logs, _) =>
              match validate_logs logs target with
              | Ok report =>
                  negb (passed (validation report))
                  && Qltb 5 (deviation_percent (validation report))
              | Raise _ => false
              end
          | Raise _ => false
          end
      | _ => false
      end
  | Raise _ => false
  end.

(** What each perturbation of [inject] writes when it fires, as a function
    of the record and of the float its [uniform] call reads. *)
Definition maintenance_hour (hour : Z) : bool :=
  (hour =? 2) || (hour =? 3) || (hour =? 4).

Definition maintenance_result (m : MetricRecord) (u : Q) : MetricRecord :=
  let spike := py_int (inject_Z (req_num m) * (0.05 + (0.15 - 0.05) * u)) in
  set_http_code_2xx (py_maxz 0 (http_code_2xx m - spike))
                    (set_http_code_5xx spike m).

Definition outage_result (m : MetricRecord) (u : Q) : MetricRecord :=
  let fail := py_int (inject_Z (bs_num m) * (0.3 + (0.8 - 0.3) * u)) in
  set_bs_http_code_2xx (py_maxz 0 (bs_num m - fail))
                       (set_bs_http_code_5xx fail (set_bs_fail_num fail m)).

Definition purge_result (m : MetricRecord) (u : Q) : MetricRecord :=
  let rate := (0.5 + (0.7 - 0.5) * u)%Q in
  let hits := py_int (inject_Z (req_num m) * rate) in
  let hit_bytes := py_int (inject_Z (flux m) * rate) in
  set_bs_flux (flux m - hit_bytes)
    (set_hit_flux hit_bytes
       (set_bs_num (req_num m - hits) (set_hit_num hits m))).

Definition abuse_result (m : MetricRecord) (u : Q) : MetricRecord :=
  let spike := py_int (inject_Z (req_num m) * (0.2 + (0.4 - 0.2) * u)) in
  set_http_code_2xx (py_maxz 0 (http_code_2xx m - spike))
                    (set_http_code_4xx spike m).

(** The entry of the region at position [i]: its jitter is the float at
    position [2 * i] of the stream, its domain the index at [2 * i + 1]. *)
Definition jitter_at (s : rng) (i : nat) : Q :=
  (0.9 + (1.1 - 0.9) * unit_draw (s (2 * i)%nat))%Q.

Definition domain_at (cfg : Config) (s : rng) (i : nat) : string :=
  nth (index_draw (s (2 * i + 1)%nat) mod length (domains cfg)) (domains cfg)
      EmptyString.

(** The list 1, 2, ..., 20. *)
Definition one_to_twenty : list Q :=
  map (fun k => inject_Z (Z.of_nat k)) (seq 1 20).

(** A log [validate_logs] can read: a numeric ["bw"], a ["region"] and a
    ["domain"]. *)
Definition readable_log (log : dict) : Prop :=
  (exists q, bw_gbps_of log = Ok q) /\
  (exists v, dict_get "region" log = Ok v) /\
  (exists v, dict_get "domain" log = Ok v).

(** A log that misses one of the three keys [validate_logs] reads. *)
Definition misses_key (log : dict) : Prop :=
  dict_get "bw" log = Raise KeyError \/
  dict_get "region" log = Raise KeyError \/
  dict_get "domain" log = Raise KeyError.

(** A log whose ["bw"], when present, is a number. *)
Definition bw_not_text (log : dict) : Prop :=
  forall x, dict_get "bw" log <> Ok (VStr x).

(** The number of values spread over the groups of a grouping. *)
Definition grouped_count (groups : list (value * list Q)) : Z :=
  fold_right (fun g acc => Z.of_nat (length (snd g)) + acc) 0 groups.

(** The number of points the per-group statistics account for. *)
Definition stats_points (sd : StatsDict) : Z :=
  match sd with
  | StatsOf s => total_points s
  | ErrorDict _ => 0
  end.

Definition grouped_points (groups : list (value * StatsDict)) : Z :=
  fold_right (fun g acc => stats_points (snd g) + acc) 0 groups.

(* ================================================================== *)
(** ** BillingCalculator *)
(* ================================================================== *)

Record BillingEstimate : Type := mkBilling {
  p95_bandwidth_gbps : Q;
  unit_price : Q;
  monthly_cost : Q;
  total_flux_gb : Q;
  flux_cost_comparison : Q;
  saving : Q;
  saving_percent : Q;
  billing_stats : Stats
}.

Definition calculate_95_billing (bandwidth_curve : list Q) (price : Q)
  : outcome BillingEstimate :=
  match calculate_p95 bandwidth_curve with
  | Raise e => Raise e
  | Ok (ErrorDict _) => Raise KeyError
  | Ok (StatsOf stats) =>
      let p95_gbps := p95 stats in
      let monthly := (p95_gbps * price)%Q in
      let interval := 300%Q in
      let total_flux := (py_sum bandwidth_curve * interval / 8)%Q in
      let flux_unit_price := 0.8%Q in
      let flux_cost := (total_flux * flux_unit_price)%Q in
      let saved := (flux_cost - monthly)%Q in
      match (if Qltb 0 flux_cost
             then match py_div saved flux_cost with
                  | Ok ratio => Ok (ratio * 100)%Q
                  | Raise e => Raise e
                  end
             else Ok 0%Q) with
      | Raise e => Raise e
      | Ok percent =>
          Ok {| p95_bandwidth_gbps := p95_gbps;
                unit_price := price;
                monthly_cost := monthly;
                total_flux_gb := total_flux;
                flux_cost_comparison := flux_cost;
                saving := saved;
                saving_percent := percent;
                billing_stats := stats |}
      end
  end.

(** The realism ranges of a configuration are ordered, the rates lie in
    [0, 1] and the object size is positive. *)
Definition realism_ranges_ok (cfg : Config) : Prop :=
  (0 <= fst (cache_hit_rate cfg) /\
   fst (cache_hit_rate cfg) <= snd (cache_hit_rate cfg) /\
   snd (cache_hit_rate cfg) <= 1)%Q /\
  (0 < fst (avg_object_size_kb cfg) /\
   fst (avg_object_size_kb cfg) <= snd (avg_object_size_kb cfg))%Q /\
  (0 <= fst (origin_fail_rate cfg) /\
   fst (origin_fail_rate cfg) <= snd (origin_fail_rate cfg) /\
   snd (origin_fail_rate cfg) <= 1)%Q.

(** The object size [derive] draws from the stream [s]: its second float. *)
Definition drawn_object_size (cfg : Config) (s : rng) : Q :=
  (fst (avg_object_size_kb cfg) * 1024
   + (snd (avg_object_size_kb cfg) * 1024
      - fst (avg_object_size_kb cfg) * 1024) * unit_draw (s 1%nat))%Q.

(** A configuration whose domain list is empty. *)
Definition no_domain_config : Config :=
  {| target_bandwidth_gbps := 20%Q;
     start_day := 19723;
     duration_days := 1;
     interval_seconds := 300;
     tenant_id := "tenant-1";
     domains := [];
     regions := [mkRegion "CN" "East" 1.0%Q];
     burst_probability := 0.05%Q;
     cache_hit_rate := (0.85, 0.95)%Q;
     avg_object_size_kb := (200, 2048)%Q;
     origin_fail_rate := (0.001, 0.01)%Q;
     anomaly_probability := 0.001%Q |}.

(* ================================================================== *)
(** ** LogPusher *)
(* ================================================================== *)

(** What [session.post] gives back: a response, or a
    [requests.exceptions.RequestException]. *)
Inductive http_result : Type :=
| Response (status_code : Z) (text : string)
| RequestException (message : string).

(** The message [push_single] returns, by its parts: ["dry-run mode"], [""],
    [f"HTTP {status}: {text[:200]}"] and [f"请求异常: {e}"]. *)
Inductive push_message : Type :=
| DryRunMode
| NoMessage
| HttpFailure (status_code : Z) (text : string)
| RequestFailure (message : string).

(** [self.stats]. *)
Record PushStats : Type := mkPushStats {
  stat_total : Z;
  stat_success : Z;
  stat_failed : Z;
  stat_retries : Z
}.

(** The pusher and the network it talks to: its counters, what the next
    calls of [session.post] will give back, and the entries handed to
    [session.post] so far.  The request log file, the printed lines and the
    pauses between requests are left out. *)
Record Pusher : Type := mkPusher {
  push_stats : PushStats;
  wire : nat -> http_result;
  posted : list dict
}.

Definition count_success (p : Pusher) : Pusher :=
  mkPusher (mkPushStats (stat_total (push_stats p))
                        (stat_success (push_stats p) + 1)
                        (stat_failed (push_stats p))
                        (stat_retries (push_stats p)))
           (wire p) (posted p).

Definition count_failed (p : Pusher) : Pusher :=
  mkPusher (mkPushStats (stat_total (push_stats p))
                        (stat_success (push_stats p))
                        (stat_failed (push_stats p) + 1)
                        (stat_retries (push_stats p)))
           (wire p) (posted p).

Definition count_total (n : Z) (p : Pusher) : Pusher :=
  mkPusher (mkPushStats (stat_total (push_stats p) + n)
                        (stat_success (push_stats p))
                        (stat_failed (push_stats p))
                        (stat_retries (push_stats p)))
           (wire p) (posted p).

(** [self.session.post(...)]. *)
Definition session_post (log_entry : dict) (p : Pusher)
  : http_result * Pusher :=
  (wire p O,
   mkPusher (push_stats p) (fun n => wire p (S n)) (posted p ++ [log_entry])).

Definition push_single (log_entry : dict) (dry_run : bool) (p : Pusher)
  : (bool * push_message) * Pusher :=
  if dry_run then ((true, DryRunMode), p)
  else
    let '(result, p) := session_post log_entry p in
    match result with
    | Response status_code text =>
        if status_code =? 200
        then ((true, NoMessage), count_success p)
        else ((false, HttpFailure status_code text), count_failed p)
    | RequestException message =>
        ((false, RequestFailure message), count_failed p)
    end.

(** One item of [results["errors"]]. *)
Record PushError : Type := mkPushError {
  error_index : Z;
  error_log : dict;
  error_message : push_message
}.

(** The dict [push_batch] returns. *)
Record BatchResult : Type := mkBatchResult {
  batch_success : Z;
  batch_failed : Z;
  batch_errors : list PushError
}.

Fixpoint push_batch_loop (log_entries : list dict) (i : Z) (dry_run : bool)
  (results : BatchResult) (p : Pusher) : BatchResult * Pusher :=
  match log_entries with
  | [] => (results, p)
  | log_entry :: more =>
      let '((success, error_msg), p) := push_single log_entry dry_run p in
      let results :=
        if success
        then mkBatchResult (batch_success results + 1) (batch_failed results)
                           (batch_errors results)
        else mkBatchResult (batch_success results) (batch_failed results + 1)
                           (batch_errors results
                            ++ [mkPushError i log_entry error_msg]) in
      push_batch_loop more (i + 1) dry_run results p
  end.

Definition push_batch (log_entries : list dict) (dry_run : bool) (p : Pusher)
  : BatchResult * Pusher :=
  let p := count_total (Z.of_nat (length log_entries)) p in
  push_batch_loop log_entries 0 dry_run (mkBatchResult 0 0 []) p.

(** The loop of [push_all] over the batch starts; [break] leaves it.  The
    division of the progress line is kept, the line itself is not. *)
Fixpoint push_all_loop (all_logs : list dict) (batch_size : Z)
  (dry_run show_progress : bool) (starts : list Z) (p : Pusher)
  : outcome Pusher :=
  match starts with
  | [] => Ok p
  | i :: more =>
      let batch := py_slice all_logs (Z.to_nat i) (Z.to_nat (i + batch_size)) in
      let batch_num := i / batch_size + 1 in
      let '(_, p) := push_batch batch dry_run p in
      match (if show_progress && (batch_num mod 10 =? 0)
             then py_div (inject_Z (stat_success (push_stats p)))
                         (inject_Z (stat_total (push_stats p)))
             else Ok 0%Q) with
      | Raise e => Raise e
      | Ok _ =>
          if 100 <? stat_total (push_stats p)
          then match py_div (inject_Z (stat_failed (push_stats p)))
                            (inject_Z (stat_total (push_stats p))) with
               | Raise e => Raise e
               | Ok fail_rate =>
                   if Qltb 0.5 fail_rate then Ok p
                   else push_all_loop all_logs batch_size dry_run
                                      show_progress more p
               end
          else push_all_loop all_logs batch_size dry_run show_progress more p
      end
  end.

(** [push_all] returns [self.stats]: the [push_stats] of the pusher it
    leaves, which is what is returned here. *)
Definition push_all (batch_size : Z) (all_logs : list dict)
  (dry_run show_progress : bool) (p : Pusher) : outcome Pusher :=
  let n := Z.of_nat (length all_logs) in
  match py_floordiv (n + batch_size - 1) batch_size with
  | Raise e => Raise e
  | Ok total_batches =>
      match py_range_step n batch_size with
      | Raise e => Raise e
      | Ok starts =>
          push_all_loop all_logs batch_size dry_run show_progress starts p
      end
  end.

(* ================================================================== *)
(** ** RealtimeScheduler *)
(* ================================================================== *)

(** A [datetime] is held as its POSIX timestamp in seconds: [dt.timestamp()]
    and [datetime.fromtimestamp] are then the identity and adding a
    [timedelta] adds its seconds, as they do in a local zone with a fixed
    offset. *)

(** [self.state]. *)
Record SchedulerState : Type := mkSchedulerState {
  pushed_timestamps : list Z;
  state_start_date : Z;
  current_index : Z
}.

(** The scheduler and its surroundings: [self.state], [self.bandwidth_curve]
    ([None] until the first run), [self.pusher], and what the state file
    holds. *)
Record Scheduler : Type := mkScheduler {
  sched_state : SchedulerState;
  sched_bandwidth_curve : option (list Q);
  sched_pusher : Pusher;
  state_file : option SchedulerState
}.

Definition _align_to_interval (cfg : Config) (dt : Q) : outcome Q :=
  let interval := interval_seconds cfg in
  let timestamp := py_int dt in
  match py_floordiv timestamp interval with
  | Raise e => Raise e
  | Ok periods => Ok (inject_Z (periods * interval))
  end.

(** [_wait_until_next_interval], returning the seconds it sleeps. *)
Definition _wait_until_next_interval (cfg : Config) (now : Q) : outcome Q :=
  let interval := interval_seconds cfg in
  match _align_to_interval cfg now with
  | Raise e => Raise e
  | Ok aligned =>
      let next_time := (aligned + inject_Z interval)%Q in
      let wait_seconds := (next_time - now)%Q in
      if Qltb 0 wait_seconds then Ok wait_seconds else Ok 0%Q
  end.

Section Scheduler.

Variable sin_term : Z -> Q.
Variable utc_offset : Z.

(** [run_once] at the clock reading [now]. *)
Definition run_once (cfg : Config) (now : Q) (dry_run : bool)
  (sch : Scheduler) : Rand (bool * Scheduler) :=
  current_time <- lift (_align_to_interval cfg now) ;;
  let timestamp_ms := py_int (current_time * 1000) in
  if existsb (Z.eqb timestamp_ms) (pushed_timestamps (sched_state sch))
  then ret (true, sch)
  else
    curve <- match sched_bandwidth_curve sch with
             | Some curve => ret curve
             | None => generate sin_term cfg (duration_days cfg)
                                (interval_seconds cfg)
             end ;;
    let sch := mkScheduler (sched_state sch) (Some curve) (sched_pusher sch)
                           (state_file sch) in
    let index := current_index (sched_state sch) in
    if Z.of_nat (length curve) <=? index
    then ret (false, sch)
    else
      bandwidth_gbps <- lift (py_index curve index) ;;
      metrics <- derive cfg bandwidth_gbps (interval_seconds cfg) ;;
      metrics <- inject utc_offset cfg metrics timestamp_ms ;;
      logs <- distribute cfg (metrics_dict metrics) timestamp_ms ;;
      let '(result, p) := push_batch logs dry_run (sched_pusher sch) in
      if 0 <? batch_success result
      then
        let state :=
          mkSchedulerState
            (pushed_timestamps (sched_state sch) ++ [timestamp_ms])
            (state_start_date (sched_state sch))
            (index + 1) in
        ret (true, mkScheduler state (Some curve) p (Some state))
      else
        ret (false, mkScheduler (sched_state sch) (Some curve) p
                                (state_file sch)).

End Scheduler.

(** A scheduler that has pushed nothing yet, with a pusher whose API accepts
    everything. *)
Definition fresh_scheduler : Scheduler :=
  mkScheduler (mkSchedulerState [] 19723 0) None
              (mkPusher (mkPushStats 0 0 0 0) (fun _ => Response 200 "ok") [])
              None.

(* ================================================================== *)
(** * Properties *)
(* ================================================================== *)

(** ** Truncation, comparisons *)

Lemma Qltb_true (a b : Q) : Qltb a b = true <-> (a < b)%Q.
Proof.
  unfold Qltb. rewrite negb_true_iff.
  split; intro H.
  - apply Qnot_le_lt. intro L. apply Qle_bool_iff in L. congruence.
  - destruct (Qle_bool b a) eqn:E; [|reflexivity].
    apply Qle_bool_iff in E. exfalso. exact (Qlt_not_le _ _ H E).
Qed.

Lemma Qltb_false (a b : Q) : Qltb a b = false <-> (b <= a)%Q.
Proof.
  unfold Qltb. rewrite negb_false_iff. apply Qle_bool_iff.
Qed.

Lemma py_int_nonneg (q : Q) : (0 <= q)%Q -> 0 <= py_int q.
Proof.
  intro H. unfold py_int. apply Z.quot_pos; [|lia].
  unfold Qle in H. simpl in H. lia.
Qed.

Lemma py_int_floor (q : Q) : (0 <= q)%Q -> py_int q = Qfloor q.
Proof.
  intro H. unfold py_int. destruct q as [n d]. simpl.
  apply Z.quot_div_nonneg; [|lia].
  unfold Qle in H. simpl in H. lia.
Qed.

Lemma py_int_le (q : Q) : (0 <= q)%Q -> (inject_Z (py_int q) <= q)%Q.
Proof.
  intro H. rewrite (py_int_floor q H). apply Qfloor_le.
Qed.

Lemma py_int_upper (q : Q) (b : Z) :
  (0 <= q)%Q -> (q <= inject_Z b)%Q -> py_int q <= b.
Proof.
  intros H0 H. rewrite (py_int_floor q H0).
  rewrite <- (Qfloor_Z b). apply Qfloor_resp_le. exact H.
Qed.

Lemma py_int_lower (q : Q) (a : Z) :
  (0 <= q)%Q -> (inject_Z a <= q)%Q -> a <= py_int q.
Proof.
  intros H0 H. rewrite (py_int_floor q H0).
  rewrite <- (Qfloor_Z a). apply Qfloor_resp_le. exact H.
Qed.

(** [int(n * 0.95)] and [int(n * 0.99)] on a length. *)
Lemma py_int_95 (n : Z) : 0 <= n -> py_int (inject_Z n * 0.95) = n * 95 / 100.
Proof.
  intro H. unfold py_int. simpl.
  rewrite Z.quot_div_nonneg by lia. reflexivity.
Qed.

Lemma py_int_99 (n : Z) : 0 <= n -> py_int (inject_Z n * 0.99) = n * 99 / 100.
Proof.
  intro H. unfold py_int. simpl.
  rewrite Z.quot_div_nonneg by lia. reflexivity.
Qed.

(** ** Sorting and indexing *)

Lemma insert_sorted_length (x : Q) (l : list Q) :
  length (insert_sorted x l) = S (length l).
Proof.
  induction l as [|y r IH]; simpl; [reflexivity|].
  destruct (Qle_bool x y); simpl; [reflexivity | now rewrite IH].
Qed.

Lemma sorted_length (l : list Q) : length (sorted l) = length l.
Proof.
  induction l as [|x r IH]; simpl; [reflexivity|].
  now rewrite insert_sorted_length, IH.
Qed.

Lemma py_index_in_range {A : Type} (l : list A) (i : Z) (d : A) :
  0 <= i < Z.of_nat (length l) ->
  py_index l i = Ok (nth (Z.to_nat i) l d).
Proof.
  intros [H0 H1]. unfold py_index.
  replace (i <? 0) with false by (symmetry; apply Z.ltb_ge; lia).
  replace (0 <=? i) with true by (symmetry; apply Z.leb_le; lia).
  replace (i <? Z.of_nat (length l)) with true
    by (symmetry; apply Z.ltb_lt; lia).
  simpl.
  destruct (nth_error l (Z.to_nat i)) as [x|] eqn:E.
  - now rewrite (nth_error_nth _ _ d E).
  - apply nth_error_None in E. lia.
Qed.

Lemma py_index_last {A : Type} (l : list A) (d : A) :
  l <> [] -> py_index l (-1) = Ok (nth (length l - 1) l d).
Proof.
  intro H. unfold py_index.
  assert (L : (0 < length l)%nat) by (destruct l; [congruence | simpl; lia]).
  change (-1 <? 0) with true. cbv iota.
  set (j := -1 + Z.of_nat (length l)).
  assert (Hj : Z.to_nat j = (length l - 1)%nat) by (unfold j; lia).
  replace (0 <=? j) with true by (symmetry; apply Z.leb_le; unfold j; lia).
  replace (j <? Z.of_nat (length l)) with true
    by (symmetry; apply Z.ltb_lt; unfold j; lia).
  rewrite Hj. cbn [andb].
  destruct (nth_error l (length l - 1)) as [x|] eqn:E.
  - now rewrite (nth_error_nth _ _ d E).
  - apply nth_error_None in E. lia.
Qed.

Lemma py_div_ok (a b : Q) : ~ (b == 0)%Q -> py_div a b = Ok (a / b)%Q.
Proof.
  intro H. unfold py_div.
  destruct (Qeq_bool b 0) eqn:E; [|reflexivity].
  apply Qeq_bool_iff in E. contradiction.
Qed.

Lemma inject_Z_nonzero (z : Z) : z <> 0 -> ~ (inject_Z z == 0)%Q.
Proof.
  intros H E. unfold Qeq in E. simpl in E. lia.
Qed.

(** ** The percentile analyzer *)

Lemma calculate_p95_nonempty (x : Q) (r : list Q) :
  let l := x :: r in
  let n := Z.of_nat (length l) in
  exists s,
    calculate_p95 l = Ok (StatsOf s) /\
    total_points s = n /\
    py_index (sorted l) (n * 95 / 100) = Ok (p95 s).
Proof.
  intros l n.
  assert (Hn : 1 <= n) by (unfold n, l; simpl length; lia).
  assert (Hlen : Z.of_nat (length (sorted l)) = n)
    by (rewrite sorted_length; reflexivity).
  assert (Hne : sorted l <> [])
    by (intro E; apply (f_equal (@length Q)) in E;
        rewrite sorted_length in E; discriminate E).
  unfold calculate_p95. fold l. cbv zeta.
  change (match l with [] => Ok (ErrorDict "空数据") | _ :: _ => ?b end)
    with b.
  rewrite Hlen. unfold analyzer_p95_index.
  rewrite (py_int_95 n) by lia. rewrite (py_int_99 n) by lia.
  assert (H95 : 0 <= n * 95 / 100 < n).
  { split; [apply Z.div_pos; lia | apply Z.div_lt_upper_bound; lia]. }
  assert (H99 : 0 <= n * 99 / 100 < n).
  { split; [apply Z.div_pos; lia | apply Z.div_lt_upper_bound; lia]. }
  assert (H50 : 0 <= n / 2 < n).
  { split; [apply Z.div_pos; lia | apply Z.div_lt_upper_bound; lia]. }
  rewrite (py_index_in_range (sorted l) 0 0%Q) by lia.
  rewrite (py_index_last (sorted l) 0%Q Hne).
  rewrite (py_div_ok _ (inject_Z n)) by (apply inject_Z_nonzero; lia).
  rewrite (py_index_in_range (sorted l) (n / 2) 0%Q) by lia.
  rewrite (py_index_in_range (sorted l) (n * 95 / 100) 0%Q) by lia.
  rewrite (py_index_in_range (sorted l) (n * 99 / 100) 0%Q) by lia.
  rewrite (py_div_ok _ (inject_Z (n - n * 95 / 100)))
    by (apply inject_Z_nonzero; lia).
  eexists. split; [reflexivity|]. split; reflexivity.
Qed.

(** C3, as the code has it: on the empty list [calculate_p95] does not raise;
    it returns the one-key dict [{"error": "空数据"}].  On every non-empty
    list it returns the statistics dict. *)
Theorem calculate_p95_empty_returns_error_dict :
  calculate_p95 [] = Ok (ErrorDict "空数据") /\
  forall (x : Q) (r : list Q),
  exists s, calculate_p95 (x :: r) = Ok (StatsOf s).
Proof.
  split; [reflexivity|].
  intros x r. destruct (calculate_p95_nonempty x r) as [s [H _]].
  exists s. exact H.
Qed.

(** C3, as stated, fails: the call on the empty list raises nothing. *)
Lemma calculate_p95_empty_does_not_raise :
  ~ (exists e, calculate_p95 [] = Raise e).
Proof.
  intros [e H]. discriminate H.
Qed.

(** ** The three percentile indices *)

Lemma calibration_index_eq (n : Z) :
  1 <= n -> calibration_index n = Z.max 0 (n * 95 / 100 - 1).
Proof.
  intro H. unfold calibration_index. rewrite (py_int_95 n) by lia.
  assert (B : 0 <= n * 95 / 100 < n).
  { split; [apply Z.div_pos; lia | apply Z.div_lt_upper_bound; lia]. }
  destruct (n * 95 / 100 - 1 <? 0) eqn:E.
  - apply Z.ltb_lt in E.
    replace (n <=? 0) with false by (symmetry; apply Z.leb_gt; lia). lia.
  - apply Z.ltb_ge in E.
    replace (n <=? n * 95 / 100 - 1) with false
      by (symmetry; apply Z.leb_gt; lia).
    lia.
Qed.

Lemma calibration_index_range (n : Z) :
  1 <= n -> 0 <= calibration_index n < n.
Proof.
  intro H. rewrite (calibration_index_eq n H).
  assert (B : 0 <= n * 95 / 100 < n).
  { split; [apply Z.div_pos; lia | apply Z.div_lt_upper_bound; lia]. }
  lia.
Qed.

Lemma summary_stats_nonempty (x : Q) (r : list Q) (interval : Z) :
  let l := x :: r in
  let n := Z.of_nat (length l) in
  exists st,
    summary_stats l interval = Ok st /\
    py_index (sorted l) (n * 95 / 100) = Ok (p95_gbps st).
Proof.
  intros l n.
  assert (Hn : 1 <= n) by (unfold n, l; simpl length; lia).
  assert (Hlen : Z.of_nat (length (sorted l)) = n)
    by (rewrite sorted_length; reflexivity).
  assert (Hne : sorted l <> [])
    by (intro E; apply (f_equal (@length Q)) in E;
        rewrite sorted_length in E; discriminate E).
  unfold summary_stats. fold l. cbv zeta.
  rewrite Hlen. fold n. unfold summary_p95_index.
  rewrite (py_int_95 n) by lia. rewrite (py_int_99 n) by lia.
  assert (H95 : 0 <= n * 95 / 100 < n).
  { split; [apply Z.div_pos; lia | apply Z.div_lt_upper_bound; lia]. }
  assert (H99 : 0 <= n * 99 / 100 < n).
  { split; [apply Z.div_pos; lia | apply Z.div_lt_upper_bound; lia]. }
  assert (H50 : 0 <= n / 2 < n).
  { split; [apply Z.div_pos; lia | apply Z.div_lt_upper_bound; lia]. }
  rewrite (py_index_in_range (sorted l) (n / 2) 0%Q) by lia.
  rewrite (py_index_in_range (sorted l) (n * 95 / 100) 0%Q) by lia.
  rewrite (py_index_in_range (sorted l) (n * 99 / 100) 0%Q) by lia.
  rewrite (py_index_last (sorted l) 0%Q Hne).
  rewrite (py_index_in_range (sorted l) 0 0%Q) by lia.
  rewrite (py_div_ok _ (inject_Z n)) by (apply inject_Z_nonzero; lia).
  eexists. split; reflexivity.
Qed.

(** C5, as the code has it: on a non-empty list of length n the analyzer
    reads the sorted values at floor(n * 0.95), the very index of the
    orchestrator's summary, so the two report the same p95; the calibration
    pass alone reads floor(n * 0.95) - 1 clamped at 0, which is one position
    lower on every list of two or more values. *)
Theorem analyzer_index_is_summary_index (x : Q) (r : list Q) (interval : Z) :
  let l := x :: r in
  let n := Z.of_nat (length l) in
  analyzer_p95_index n = n * 95 / 100 /\
  summary_p95_index n = analyzer_p95_index n /\
  calibration_index n = Z.max 0 (n * 95 / 100 - 1) /\
  calibration_index (n + 1) = analyzer_p95_index (n + 1) - 1 /\
  (exists s st,
      calculate_p95 l = Ok (StatsOf s) /\
      summary_stats l interval = Ok st /\
      py_index (sorted l) (analyzer_p95_index n) = Ok (p95 s) /\
      py_index (sorted l) (summary_p95_index n) = Ok (p95_gbps st) /\
      p95 s = p95_gbps st) /\
  calc_daily_p95 l = py_index (sorted l) (calibration_index n).
Proof.
  intros l n.
  assert (Hn : 1 <= n) by (unfold n, l; simpl length; lia).
  assert (A : analyzer_p95_index n = n * 95 / 100)
    by (unfold analyzer_p95_index; apply py_int_95; lia).
  split; [exact A|].
  split; [reflexivity|].
  split; [apply calibration_index_eq; exact Hn|].
  split.
  { rewrite calibration_index_eq by lia.
    unfold analyzer_p95_index. rewrite py_int_95 by lia.
    assert (1 <= (n + 1) * 95 / 100)
      by (apply Z.div_le_lower_bound; lia).
    lia. }
  split.
  { destruct (calculate_p95_nonempty x r) as [s [Hs [_ Hp]]].
    destruct (summary_stats_nonempty x r interval) as [st [Hst Hq]].
    fold l in Hs, Hp, Hst, Hq. fold n in Hp, Hq.
    exists s, st. unfold summary_p95_index. fold (analyzer_p95_index n).
    rewrite A. repeat split; try assumption.
    rewrite Hp in Hq. now inversion Hq. }
  unfold calc_daily_p95. rewrite sorted_length. reflexivity.
Qed.

(** C5, as stated, fails: on the twenty values 1..20 the analyzer reads index
    19 and reports 20, the calibration pass reads index 18 and reports 19. *)
Lemma analyzer_index_differs_from_calibration :
  analyzer_p95_index 20 = 19 /\
  calibration_index 20 = 18 /\
  (exists s, calculate_p95 one_to_twenty = Ok (StatsOf s) /\ p95 s = 20%Q) /\
  calc_daily_p95 one_to_twenty = Ok 19%Q /\
  ~ (forall l s, calculate_p95 l = Ok (StatsOf s) ->
                 calc_daily_p95 l = Ok (p95 s)).
Proof.
  split; [reflexivity|]. split; [reflexivity|].
  split; [eexists; split; vm_compute; reflexivity|].
  split; [vm_compute; reflexivity|].
  intro H.
  specialize (H one_to_twenty).
  destruct (calculate_p95 one_to_twenty) as [[msg|s]|e] eqn:E;
    try discriminate E.
  specialize (H s eq_refl).
  vm_compute in E. inversion E as [Es]. rewrite <- Es in H.
  vm_compute in H. discriminate H.
Qed.

(** ** MetricsDerivator *)

Lemma py_maxz_spec (a b : Z) : py_maxz a b = Z.max a b.
Proof.
  unfold py_maxz. destruct (a <? b) eqn:E.
  - apply Z.ltb_lt in E. lia.
  - apply Z.ltb_ge in E. lia.
Qed.

(** What [derive] leaves in the fields the invariants speak of. *)
Lemma derive_shape (cfg : Config) (bandwidth_gbps : Q) (interval : Z)
  (s s' : rng) (m : MetricRecord) :
  derive cfg bandwidth_gbps interval s = Ok (m, s') ->
  bs_num m = req_num m - hit_num m /\
  1 <= req_num m /\
  hit_flux m = flux m - bs_flux m.
Proof.
  intro H. unfold derive in H. rand_unfold_in H.
  destruct (py_div _ _) as [per_obj|e] in H; [|discriminate H].
  destruct (derive_origin_codes _ _) as [[[[[c2 c3] c4] c5] s1]|e] in H;
    [|discriminate H].
  destruct (py_div _ _) as [bs_rate|e] in H; [|discriminate H].
  inversion H; subst; clear H. cbn [bs_num req_num hit_num hit_flux flux bs_flux].
  repeat split; try reflexivity.
  rewrite py_maxz_spec. lia.
Qed.

Lemma derive_origin_codes_ok (n : Z) (s : rng) :
  exists c s', derive_origin_codes n s = Ok (c, s').
Proof.
  unfold derive_origin_codes. destruct (0 <? n); rand_unfold;
    eexists; eexists; reflexivity.
Qed.

(** [derive] returns whenever the interval and the drawn object size are not
    zero. *)
Lemma derive_returns (cfg : Config) (bandwidth_gbps : Q) (interval : Z)
  (s : rng) :
  interval <> 0 ->
  ~ (fst (avg_object_size_kb cfg) * 1024
     + (snd (avg_object_size_kb cfg) * 1024
        - fst (avg_object_size_kb cfg) * 1024) * unit_draw (s 1%nat) == 0)%Q ->
  exists m s', derive cfg bandwidth_gbps interval s = Ok (m, s').
Proof.
  intros Hi Hsz. unfold derive. rand_unfold.
  change (advance s O) with (s 1%nat).
  rewrite py_div_ok by exact Hsz.
  match goal with
  | |- context [derive_origin_codes ?n ?t] =>
      destruct (derive_origin_codes_ok n t) as [[[[c2 c3] c4] c5] [s1 E]];
      rewrite E
  end.
  rewrite py_div_ok by (apply inject_Z_nonzero; exact Hi).
  eexists; eexists; reflexivity.
Qed.

(** C6: in every record [derive] returns, cache hits and origin requests
    partition the requests, and there is at least one request. *)
Theorem derive_hit_plus_origin_is_requests (cfg : Config)
  (bandwidth_gbps : Q) (interval : Z) (s s' : rng) (m : MetricRecord) :
  derive cfg bandwidth_gbps interval s = Ok (m, s') ->
  hit_num m + bs_num m = req_num m /\ req_num m >= 1.
Proof.
  intro H. destruct (derive_shape _ _ _ _ _ _ H) as [Hb [Hr _]].
  split; lia.
Qed.

Lemma derive_hit_plus_origin_is_requests_witness :
  exists m s',
    derive (sample_config 20 1 300) 20 300 (constant_rng 0.5 0) = Ok (m, s') /\
    hit_num m + bs_num m = req_num m /\ req_num m >= 1.
Proof.
  destruct (derive_returns (sample_config 20 1 300) 20 300 (constant_rng 0.5 0))
    as [m [s' E]]; [lia | vm_compute; discriminate |].
  exists m, s'. split; [exact E|].
  exact (derive_hit_plus_origin_is_requests _ _ _ _ _ _ E).
Defined.

(** ** AnomalyInjector: the four perturbations as equations *)

Lemma unit_draws_advance (s : rng) : unit_draws s -> unit_draws (advance s).
Proof.
  intros H n. exact (H (S n)).
Qed.

Lemma uniform_range (a b u : Q) :
  (a <= b)%Q -> (0 <= u)%Q -> (u < 1)%Q ->
  (a <= a + (b - a) * u /\ a + (b - a) * u <= b)%Q.
Proof.
  intros Hab H0 H1.
  assert (P : (0 <= (b - a) * u)%Q) by (apply Qmult_le_0_compat; lra).
  assert (R : ((b - a) * u <= (b - a) * 1)%Q).
  { rewrite (Qmult_comm (b - a) u), (Qmult_comm (b - a) 1).
    apply Qmult_le_compat_r; lra. }
  split; lra.
Qed.

Lemma maintenance_window_eq (hour : Z) (m : MetricRecord) (s : rng) :
  maintenance_window hour m s =
  if maintenance_hour hour
  then if Qltb (unit_draw (s O)) 0.05
       then Ok (maintenance_result m (unit_draw (s 1%nat)),
                advance (advance s))
       else Ok (m, advance s)
  else Ok (m, s).
Proof.
  unfold maintenance_window, maintenance_hour.
  destruct ((hour =? 2) || (hour =? 3) || (hour =? 4)); [|reflexivity].
  rand_unfold. destruct (Qltb (unit_draw (s O)) 0.05); reflexivity.
Qed.

Lemma origin_outage_eq (cfg : Config) (m : MetricRecord) (s : rng) :
  origin_outage cfg m s =
  if Qltb (unit_draw (s O)) (anomaly_probability cfg)
  then Ok (outage_result m (unit_draw (s 1%nat)), advance (advance s))
  else Ok (m, advance s).
Proof.
  unfold origin_outage. rand_unfold.
  destruct (Qltb (unit_draw (s O)) (anomaly_probability cfg)); reflexivity.
Qed.

Lemma cache_purge_eq (m : MetricRecord) (s : rng) :
  cache_purge m s =
  if Qltb (unit_draw (s O)) 0.01
  then Ok (purge_result m (unit_draw (s 1%nat)), advance (advance s))
  else Ok (m, advance s).
Proof.
  unfold cache_purge. rand_unfold.
  destruct (Qltb (unit_draw (s O)) 0.01); reflexivity.
Qed.

Lemma abuse_spike_eq (m : MetricRecord) (s : rng) :
  abuse_spike m s =
  if Qltb (unit_draw (s O)) 0.005
  then Ok (abuse_result m (unit_draw (s 1%nat)), advance (advance s))
  else Ok (m, advance s).
Proof.
  unfold abuse_spike. rand_unfold.
  destruct (Qltb (unit_draw (s O)) 0.005); reflexivity.
Qed.

(** Each perturbation returns; it either leaves the record alone or applies
    its result function to a float of the stream. *)
Lemma maintenance_window_cases (hour : Z) (m : MetricRecord) (s : rng) :
  exists m' s',
    maintenance_window hour m s = Ok (m', s') /\
    (unit_draws s -> unit_draws s') /\
    (m' = m \/
     exists u, (unit_draws s -> (0 <= u /\ u < 1)%Q) /\
               m' = maintenance_result m u).
Proof.
  rewrite maintenance_window_eq.
  destruct (maintenance_hour hour); [destruct (Qltb _ _)|];
    eexists; eexists; (split; [reflexivity|]); split;
    auto using unit_draws_advance.
  right. exists (unit_draw (s 1%nat)). split; [intro U; apply U | reflexivity].
Qed.

Lemma origin_outage_cases (cfg : Config) (m : MetricRecord) (s : rng) :
  exists m' s',
    origin_outage cfg m s = Ok (m', s') /\
    (unit_draws s -> unit_draws s') /\
    (m' = m \/
     exists u, (unit_draws s -> (0 <= u /\ u < 1)%Q) /\
               m' = outage_result m u).
Proof.
  rewrite origin_outage_eq.
  destruct (Qltb _ _);
    eexists; eexists; (split; [reflexivity|]); split;
    auto using unit_draws_advance.
  right. exists (unit_draw (s 1%nat)). split; [intro U; apply U | reflexivity].
Qed.

Lemma cache_purge_cases (m : MetricRecord) (s : rng) :
  exists m' s',
    cache_purge m s = Ok (m', s') /\
    (unit_draws s -> unit_draws s') /\
    (m' = m \/
     exists u, (unit_draws s -> (0 <= u /\ u < 1)%Q) /\
               m' = purge_result m u).
Proof.
  rewrite cache_purge_eq.
  destruct (Qltb _ _);
    eexists; eexists; (split; [reflexivity|]); split;
    auto using unit_draws_advance.
  right. exists (unit_draw (s 1%nat)). split; [intro U; apply U | reflexivity].
Qed.

Lemma abuse_spike_cases (m : MetricRecord) (s : rng) :
  exists m' s',
    abuse_spike m s = Ok (m', s') /\
    (unit_draws s -> unit_draws s') /\
    (m' = m \/
     exists u, (unit_draws s -> (0 <= u /\ u < 1)%Q) /\
               m' = abuse_result m u).
Proof.
  rewrite abuse_spike_eq.
  destruct (Qltb _ _);
    eexists; eexists; (split; [reflexivity|]); split;
    auto using unit_draws_advance.
  right. exists (unit_draw (s 1%nat)). split; [intro U; apply U | reflexivity].
Qed.

(** [inject] is the four perturbations in sequence. *)
Lemma inject_steps (utc_offset : Z) (cfg : Config) (m : MetricRecord)
  (timestamp_ms : Z) (s : rng) :
  exists m1 s1 m2 s2 m3 s3 m4 s4,
    maintenance_window (local_hour utc_offset timestamp_ms) m s = Ok (m1, s1) /\
    origin_outage cfg m1 s1 = Ok (m2, s2) /\
    cache_purge m2 s2 = Ok (m3, s3) /\
    abuse_spike m3 s3 = Ok (m4, s4) /\
    inject utc_offset cfg m timestamp_ms s = Ok (m4, s4).
Proof.
  destruct (maintenance_window_cases (local_hour utc_offset timestamp_ms) m s)
    as [m1 [s1 [E1 _]]].
  destruct (origin_outage_cases cfg m1 s1) as [m2 [s2 [E2 _]]].
  destruct (cache_purge_cases m2 s2) as [m3 [s3 [E3 _]]].
  destruct (abuse_spike_cases m3 s3) as [m4 [s4 [E4 _]]].
  exists m1, s1, m2, s2, m3, s3, m4, s4.
  repeat (split; [assumption|]).
  unfold inject, bind. rewrite E1, E2, E3. exact E4.
Qed.

Lemma inject_Z_nonneg (z : Z) : 0 <= z -> (0 <= inject_Z z)%Q.
Proof.
  intro H. unfold Qle. simpl. lia.
Qed.

Lemma py_int_mul_nonneg (z : Z) (r : Q) :
  0 <= z -> (0 <= r)%Q -> 0 <= py_int (inject_Z z * r).
Proof.
  intros Hz Hr. apply py_int_nonneg.
  apply Qmult_le_0_compat; [apply inject_Z_nonneg; exact Hz | exact Hr].
Qed.

Lemma py_int_mul_le (z : Z) (r : Q) :
  0 <= z -> (0 <= r)%Q -> (r <= 1)%Q -> py_int (inject_Z z * r) <= z.
Proof.
  intros Hz Hr H1. apply py_int_upper.
  - apply Qmult_le_0_compat; [apply inject_Z_nonneg; exact Hz | exact Hr].
  - rewrite Qmult_comm. rewrite <- (Qmult_1_l (inject_Z z)) at 2.
    apply Qmult_le_compat_r; [exact H1 | apply inject_Z_nonneg; exact Hz].
Qed.

(** ** C10: the byte split *)

Lemma flux_split_step (m m' : MetricRecord) :
  hit_flux m + bs_flux m = flux m ->
  (m' = m \/
   (exists u, m' = maintenance_result m u) \/
   (exists u, m' = outage_result m u) \/
   (exists u, m' = purge_result m u) \/
   (exists u, m' = abuse_result m u)) ->
  flux m' = flux m /\ hit_flux m' + bs_flux m' = flux m'.
Proof.
  intros H [E|[[u E]|[[u E]|[[u E]|[u E]]]]]; subst m';
    cbn [maintenance_result outage_result purge_result abuse_result
         set_http_code_2xx set_http_code_4xx set_http_code_5xx
         set_bs_fail_num set_bs_http_code_2xx set_bs_http_code_5xx
         set_hit_num set_bs_num set_hit_flux set_bs_flux
         flux hit_flux bs_flux];
    (split; [reflexivity|]); try exact H.
  lia.
Qed.

(** C10: the record [derive] returns has hit_flux + bs_flux = flux, and
    [inject] returns a record with the same flux and the same equality,
    whatever the hour and whatever the generator yields. *)
Theorem flux_split_is_conserved (utc_offset : Z) (cfg : Config) :
  (forall bandwidth_gbps interval s s' m,
      derive cfg bandwidth_gbps interval s = Ok (m, s') ->
      hit_flux m + bs_flux m = flux m) /\
  (forall m timestamp_ms s,
      hit_flux m + bs_flux m = flux m ->
      exists m' s',
        inject utc_offset cfg m timestamp_ms s = Ok (m', s') /\
        flux m' = flux m /\
        hit_flux m' + bs_flux m' = flux m').
Proof.
  split.
  - intros bwv interval s s' m H.
    destruct (derive_shape _ _ _ _ _ _ H) as [_ [_ Hf]]. lia.
  - intros m ts s H.
    destruct (inject_steps utc_offset cfg m ts s)
      as [m1 [s1 [m2 [s2 [m3 [s3 [m4 [s4 [E1 [E2 [E3 [E4 E]]]]]]]]]]]].
    exists m4, s4. split; [exact E|].
    destruct (maintenance_window_cases (local_hour utc_offset ts) m s)
      as [x [y [F1 [_ C1]]]].
    rewrite E1 in F1. inversion F1; subst x y; clear F1.
    destruct (origin_outage_cases cfg m1 s1) as [x [y [F2 [_ C2]]]].
    rewrite E2 in F2. inversion F2; subst x y; clear F2.
    destruct (cache_purge_cases m2 s2) as [x [y [F3 [_ C3]]]].
    rewrite E3 in F3. inversion F3; subst x y; clear F3.
    destruct (abuse_spike_cases m3 s3) as [x [y [F4 [_ C4]]]].
    rewrite E4 in F4. inversion F4; subst x y; clear F4.
    assert (S1 : flux m1 = flux m /\ hit_flux m1 + bs_flux m1 = flux m1).
    { apply (flux_split_step m m1 H).
      destruct C1 as [->|[u [_ ->]]]; [left; reflexivity|].
      right; left; exists u; reflexivity. }
    destruct S1 as [A1 B1].
    assert (S2 : flux m2 = flux m1 /\ hit_flux m2 + bs_flux m2 = flux m2).
    { apply (flux_split_step m1 m2 B1).
      destruct C2 as [->|[u [_ ->]]]; [left; reflexivity|].
      right; right; left; exists u; reflexivity. }
    destruct S2 as [A2 B2].
    assert (S3 : flux m3 = flux m2 /\ hit_flux m3 + bs_flux m3 = flux m3).
    { apply (flux_split_step m2 m3 B2).
      destruct C3 as [->|[u [_ ->]]]; [left; reflexivity|].
      right; right; right; left; exists u; reflexivity. }
    destruct S3 as [A3 B3].
    assert (S4 : flux m4 = flux m3 /\ hit_flux m4 + bs_flux m4 = flux m4).
    { apply (flux_split_step m3 m4 B3).
      destruct C4 as [->|[u [_ ->]]]; [left; reflexivity|].
      right; right; right; right; exists u; reflexivity. }
    destruct S4 as [A4 B4].
    split; [congruence | exact B4].
Qed.

Lemma flux_split_is_conserved_witness :
  exists m s1 m' s2,
    derive (sample_config 20 1 300) 20 300 (constant_rng 0.005 0) = Ok (m, s1) /\
    hit_flux m + bs_flux m = flux m /\
    inject 0 (sample_config 20 1 300) m 10800000 s1 = Ok (m', s2) /\
    hit_flux m' + bs_flux m' = flux m'.
Proof.
  destruct (flux_split_is_conserved 0 (sample_config 20 1 300)) as [D I].
  destruct (derive_returns (sample_config 20 1 300) 20 300
              (constant_rng 0.005 0))
    as [m [s1 E]]; [lia | vm_compute; discriminate |].
  pose proof (D _ _ _ _ _ E) as F.
  destruct (I m 10800000 s1 F) as [m' [s2 [Ei [_ Fi]]]].
  exists m, s1, m', s2. repeat split; assumption.
Defined.

(** ** C7: the origin outage *)

Lemma origin_fields_frame (m m' : MetricRecord) :
  (m' = m \/
   (exists u, m' = maintenance_result m u) \/
   (exists u, m' = purge_result m u) \/
   (exists u, m' = abuse_result m u)) ->
  bs_fail_num m' = bs_fail_num m /\
  bs_http_code_5xx m' = bs_http_code_5xx m /\
  bs_http_code_2xx m' = bs_http_code_2xx m.
Proof.
  intros [E|[[u E]|[[u E]|[u E]]]]; subst m'; repeat split; reflexivity.
Qed.

(** C7: when the outage draw succeeds on a record with bs_num = 1000, the
    record [inject] returns has bs_fail_num in [300, 800], bs_http_code_5xx
    equal to bs_fail_num and bs_http_code_2xx equal to
    max(0, 1000 - bs_fail_num).  The outage draw is the first float left
    after the maintenance-window step. *)
Theorem origin_outage_on_1000 (utc_offset : Z) (cfg : Config)
  (m m1 : MetricRecord) (timestamp_ms : Z) (s s1 : rng) :
  bs_num m = 1000 ->
  unit_draws s ->
  maintenance_window (local_hour utc_offset timestamp_ms) m s = Ok (m1, s1) ->
  Qltb (unit_draw (s1 O)) (anomaly_probability cfg) = true ->
  exists m' s',
    inject utc_offset cfg m timestamp_ms s = Ok (m', s') /\
    300 <= bs_fail_num m' <= 800 /\
    bs_http_code_5xx m' = bs_fail_num m' /\
    bs_http_code_2xx m' = Z.max 0 (1000 - bs_fail_num m').
Proof.
  intros Hbs U E1 Fire.
  destruct (inject_steps utc_offset cfg m timestamp_ms s)
    as [x1 [y1 [m2 [s2 [m3 [s3 [m4 [s4 [F1 [E2 [E3 [E4 E]]]]]]]]]]]].
  rewrite E1 in F1. inversion F1; subst x1 y1; clear F1.
  exists m4, s4. split; [exact E|].
  destruct (maintenance_window_cases (local_hour utc_offset timestamp_ms) m s)
    as [x [y [F1 [U1 C1]]]].
  rewrite E1 in F1. inversion F1; subst x y; clear F1.
  specialize (U1 U).
  assert (Hbs1 : bs_num m1 = 1000).
  { destruct C1 as [->|[u [_ ->]]]; exact Hbs. }
  rewrite origin_outage_eq, Fire in E2. inversion E2; subst m2 s2; clear E2.
  destruct (cache_purge_cases (outage_result m1 (unit_draw (s1 1%nat)))
              (advance (advance s1))) as [x [y [F3 [_ C3]]]].
  rewrite E3 in F3. inversion F3; subst x y; clear F3.
  destruct (abuse_spike_cases m3 s3) as [x [y [F4 [_ C4]]]].
  rewrite E4 in F4. inversion F4; subst x y; clear F4.
  destruct (origin_fields_frame (outage_result m1 (unit_draw (s1 1%nat))) m3)
    as [A3 [B3 D3]].
  { destruct C3 as [->|[u [_ ->]]]; [left; reflexivity|].
    right; right; left; exists u; reflexivity. }
  destruct (origin_fields_frame m3 m4) as [A4 [B4 D4]].
  { destruct C4 as [->|[u [_ ->]]]; [left; reflexivity|].
    right; right; right; exists u; reflexivity. }
  rewrite A4, B4, D4, A3, B3, D3.
  cbn [outage_result set_bs_http_code_2xx set_bs_http_code_5xx set_bs_fail_num
       bs_fail_num bs_http_code_5xx bs_http_code_2xx].
  rewrite Hbs1, py_maxz_spec.
  destruct (U1 1%nat) as [u0 u1].
  set (u := unit_draw (s1 1%nat)) in *.
  assert (R : (0 <= inject_Z 1000 * (0.3 + (0.8 - 0.3) * u))%Q).
  { change (inject_Z 1000) with 1000%Q. lra. }
  split; [split|split; reflexivity].
  - apply py_int_lower; [exact R|].
    change (inject_Z 1000) with 1000%Q. change (inject_Z 300) with 300%Q. lra.
  - apply py_int_upper; [exact R|].
    change (inject_Z 1000) with 1000%Q. change (inject_Z 800) with 800%Q. lra.
Qed.

Lemma origin_outage_on_1000_witness :
  exists m' s',
    inject 0 (sample_config 20 1 300)
           (mkMetrics 20480 0 0 0 10000 9000 1000 5 0 0 0 0 0 0 0 0 0)
           43200000 (constant_rng 0.0005 0) = Ok (m', s') /\
    300 <= bs_fail_num m' <= 800 /\
    bs_http_code_5xx m' = bs_fail_num m' /\
    bs_http_code_2xx m' = Z.max 0 (1000 - bs_fail_num m').
Proof.
  apply (origin_outage_on_1000 0 (sample_config 20 1 300)
           (mkMetrics 20480 0 0 0 10000 9000 1000 5 0 0 0 0 0 0 0 0 0)
           (mkMetrics 20480 0 0 0 10000 9000 1000 5 0 0 0 0 0 0 0 0 0)
           43200000 (constant_rng 0.0005 0) (constant_rng 0.0005 0)).
  - reflexivity.
  - intro n. vm_compute. split; discriminate || reflexivity.
  - reflexivity.
  - reflexivity.
Defined.

(** ** C8: no negative count *)

Lemma nonneg_maintenance (m : MetricRecord) (u : Q) :
  nonneg_counts m -> (0 <= u /\ u < 1)%Q ->
  nonneg_counts (maintenance_result m u).
Proof.
  unfold nonneg_counts. intros H [u0 u1].
  cbn [maintenance_result set_http_code_2xx set_http_code_5xx
       bw flux bs_bw bs_flux req_num hit_num bs_num bs_fail_num hit_flux
       http_code_2xx http_code_3xx http_code_4xx http_code_5xx
       bs_http_code_2xx bs_http_code_3xx bs_http_code_4xx bs_http_code_5xx].
  rewrite py_maxz_spec.
  assert (0 <= py_int (inject_Z (req_num m) * (0.05 + (0.15 - 0.05) * u)))
    by (apply py_int_mul_nonneg; [lia | lra]).
  repeat split; try lia.
Qed.

Lemma nonneg_outage (m : MetricRecord) (u : Q) :
  nonneg_counts m -> (0 <= u /\ u < 1)%Q ->
  nonneg_counts (outage_result m u).
Proof.
  unfold nonneg_counts. intros H [u0 u1].
  cbn [outage_result set_bs_http_code_2xx set_bs_http_code_5xx set_bs_fail_num
       bw flux bs_bw bs_flux req_num hit_num bs_num bs_fail_num hit_flux
       http_code_2xx http_code_3xx http_code_4xx http_code_5xx
       bs_http_code_2xx bs_http_code_3xx bs_http_code_4xx bs_http_code_5xx].
  rewrite py_maxz_spec.
  assert (0 <= py_int (inject_Z (bs_num m) * (0.3 + (0.8 - 0.3) * u)))
    by (apply py_int_mul_nonneg; [lia | lra]).
  repeat split; try lia.
Qed.

Lemma nonneg_purge (m : MetricRecord) (u : Q) :
  nonneg_counts m -> (0 <= u /\ u < 1)%Q ->
  nonneg_counts (purge_result m u).
Proof.
  unfold nonneg_counts. intros H [u0 u1].
  cbn [purge_result set_hit_num set_bs_num set_hit_flux set_bs_flux
       bw flux bs_bw bs_flux req_num hit_num bs_num bs_fail_num hit_flux
       http_code_2xx http_code_3xx http_code_4xx http_code_5xx
       bs_http_code_2xx bs_http_code_3xx bs_http_code_4xx bs_http_code_5xx].
  set (rate := (0.5 + (0.7 - 0.5) * u)%Q).
  assert (R0 : (0 <= rate)%Q) by (unfold rate; lra).
  assert (R1 : (rate <= 1)%Q) by (unfold rate; lra).
  assert (0 <= py_int (inject_Z (req_num m) * rate))
    by (apply py_int_mul_nonneg; [lia | exact R0]).
  assert (py_int (inject_Z (req_num m) * rate) <= req_num m)
    by (apply py_int_mul_le; [lia | exact R0 | exact R1]).
  assert (0 <= py_int (inject_Z (flux m) * rate))
    by (apply py_int_mul_nonneg; [lia | exact R0]).
  assert (py_int (inject_Z (flux m) * rate) <= flux m)
    by (apply py_int_mul_le; [lia | exact R0 | exact R1]).
  repeat split; try lia.
Qed.

Lemma nonneg_abuse (m : MetricRecord) (u : Q) :
  nonneg_counts m -> (0 <= u /\ u < 1)%Q ->
  nonneg_counts (abuse_result m u).
Proof.
  unfold nonneg_counts. intros H [u0 u1].
  cbn [abuse_result set_http_code_2xx set_http_code_4xx
       bw flux bs_bw bs_flux req_num hit_num bs_num bs_fail_num hit_flux
       http_code_2xx http_code_3xx http_code_4xx http_code_5xx
       bs_http_code_2xx bs_http_code_3xx bs_http_code_4xx bs_http_code_5xx].
  rewrite py_maxz_spec.
  assert (0 <= py_int (inject_Z (req_num m) * (0.2 + (0.4 - 0.2) * u)))
    by (apply py_int_mul_nonneg; [lia | lra]).
  repeat split; try lia.
Qed.

(** C8: on a record whose count fields are all non-negative, with the
    generator yielding floats of [0, 1), [inject] returns a record whose
    count fields are all non-negative. *)
Theorem inject_keeps_counts_nonneg (utc_offset : Z) (cfg : Config)
  (m : MetricRecord) (timestamp_ms : Z) (s : rng) :
  nonneg_counts m ->
  unit_draws s ->
  exists m' s',
    inject utc_offset cfg m timestamp_ms s = Ok (m', s') /\
    nonneg_counts m'.
Proof.
  intros N U.
  destruct (inject_steps utc_offset cfg m timestamp_ms s)
    as [m1 [s1 [m2 [s2 [m3 [s3 [m4 [s4 [E1 [E2 [E3 [E4 E]]]]]]]]]]]].
  exists m4, s4. split; [exact E|].
  destruct (maintenance_window_cases (local_hour utc_offset timestamp_ms) m s)
    as [x [y [F1 [U1 C1]]]].
  rewrite E1 in F1. inversion F1; subst x y; clear F1.
  destruct (origin_outage_cases cfg m1 s1) as [x [y [F2 [U2 C2]]]].
  rewrite E2 in F2. inversion F2; subst x y; clear F2.
  destruct (cache_purge_cases m2 s2) as [x [y [F3 [U3 C3]]]].
  rewrite E3 in F3. inversion F3; subst x y; clear F3.
  destruct (abuse_spike_cases m3 s3) as [x [y [F4 [U4 C4]]]].
  rewrite E4 in F4. inversion F4; subst x y; clear F4.
  assert (N1 : nonneg_counts m1).
  { destruct C1 as [->|[u [B ->]]]; [exact N|].
    apply nonneg_maintenance; auto. }
  assert (N2 : nonneg_counts m2).
  { destruct C2 as [->|[u [B ->]]]; [exact N1|].
    apply nonneg_outage; auto. }
  assert (N3 : nonneg_counts m3).
  { destruct C3 as [->|[u [B ->]]]; [exact N2|].
    apply nonneg_purge; auto. }
  destruct C4 as [->|[u [B ->]]]; [exact N3|].
  apply nonneg_abuse; auto.
Qed.

Lemma inject_keeps_counts_nonneg_witness :
  exists m' s',
    inject 0 (sample_config 20 1 300)
           (mkMetrics 20480 900 4 90 100 90 10 1 810 80 5 10 5 9 0 1 0)
           10800000 (constant_rng 0.004 0) = Ok (m', s') /\
    nonneg_counts m'.
Proof.
  apply (inject_keeps_counts_nonneg 0 (sample_config 20 1 300)
           (mkMetrics 20480 900 4 90 100 90 10 1 810 80 5 10 5 9 0 1 0)
           10800000 (constant_rng 0.004 0)).
  - unfold nonneg_counts. cbn. repeat split; lia.
  - intro n. vm_compute. split; discriminate || reflexivity.
Defined.

(** ** C9: the distributor *)

Lemma dict_set_fresh (k : string) (v : value) (d : dict) :
  ~ In k (map fst d) -> dict_set k v d = d ++ [(k, v)].
Proof.
  induction d as [|[k' v'] r IH]; simpl; intro H; [reflexivity|].
  destruct (String.eqb k k') eqn:E.
  - apply String.eqb_eq in E. exfalso. apply H. left. now symmetry.
  - rewrite IH; [reflexivity|]. intro I. apply H. now right.
Qed.

Lemma dict_update_fresh (e d : dict) :
  NoDup (map fst e) ->
  (forall k, In k (map fst e) -> ~ In k (map fst d)) ->
  dict_update d e = d ++ e.
Proof.
  unfold dict_update. revert d.
  induction e as [|[k v] r IH]; intros d N F; simpl.
  - now rewrite app_nil_r.
  - inversion N as [|x l Hx Nr]; subst.
    rewrite dict_set_fresh by (apply F; left; reflexivity).
    rewrite IH; [now rewrite <- app_assoc | exact Nr |].
    intros k' I J. rewrite map_app, in_app_iff in J. simpl in J.
    destruct J as [J|[J|[]]].
    + apply (F k'); [right; exact I | exact J].
    + subst k'. contradiction.
Qed.

Lemma region_metrics_keys (a : Q) (gm : dict) :
  map fst (region_metrics_of a gm) = map fst gm.
Proof.
  unfold region_metrics_of. rewrite map_map. reflexivity.
Qed.

Lemma log_entry_of_fresh (cfg : Config) (timestamp_ms : Z)
  (region_info : Region) (domain : string) (a : Q) (gm : dict) :
  NoDup (map fst gm) ->
  (forall k, In k tag_keys -> ~ In k (map fst gm)) ->
  log_entry_of cfg timestamp_ms region_info domain (region_metrics_of a gm) =
  entry_tags cfg timestamp_ms region_info domain ++ region_metrics_of a gm.
Proof.
  intros N F. unfold log_entry_of.
  apply dict_update_fresh; rewrite region_metrics_keys; [exact N|].
  intros k I J. exact (F k J I).
Qed.

Lemma choice_nonempty {A : Type} (l : list A) (d : A) (s : rng) :
  l <> [] ->
  choice l s = Ok (nth (index_draw (s O) mod length l) l d, advance s) /\
  In (nth (index_draw (s O) mod length l) l d) l.
Proof.
  intro H.
  assert (L : (index_draw (s O) mod length l < length l)%nat).
  { apply Nat.mod_upper_bound. destruct l; [congruence | discriminate]. }
  split; [|apply nth_In; exact L].
  unfold choice.
  destruct (nth_error l (index_draw (s O) mod length l)) as [x|] eqn:E.
  - now rewrite (nth_error_nth _ _ d E).
  - apply nth_error_None in E. lia.
Qed.

Lemma distribute_loop_spec (cfg : Config) (gm : dict) (timestamp_ms : Z) :
  domains cfg <> [] ->
  NoDup (map fst gm) ->
  (forall k, In k tag_keys -> ~ In k (map fst gm)) ->
  forall (todo : list Region) (s : rng),
  exists entries s',
    distribute_loop cfg gm timestamp_ms todo s = Ok (entries, s') /\
    length entries = length todo /\
    forall i region_info,
      nth_error todo i = Some region_info ->
      nth_error entries i =
      Some (entry_tags cfg timestamp_ms region_info (domain_at cfg s i)
            ++ region_metrics_of (weight region_info * jitter_at s i) gm).
Proof.
  intros D N F todo.
  induction todo as [|r more IH]; intro s.
  - exists [], s. split; [reflexivity|]. split; [reflexivity|].
    intros [|i] ri H; discriminate H.
  - destruct (IH (advance (advance s))) as [rest [s' [E [L P]]]].
    destruct (choice_nonempty (domains cfg) EmptyString (advance s) D)
      as [C _].
    eexists; exists s'. split; [|split].
    + cbn [distribute_loop]. rand_unfold. rewrite C, E. reflexivity.
    + simpl. now rewrite L.
    + intros [|i] ri H.
      * inversion H; subst ri. cbn [nth_error].
        rewrite (log_entry_of_fresh _ _ _ _ _ _ N F). reflexivity.
      * cbn [nth_error] in *. rewrite (P i ri H).
        unfold domain_at, jitter_at, advance.
        replace (2 * S i)%nat with (S (S (2 * i))) by lia.
        replace (S (S (2 * i)) + 1)%nat with (S (S (2 * i + 1))) by lia.
        reflexivity.
Qed.

(** C9: with a non-empty domain list and a source record that has none of
    the six tag keys, [distribute] returns one entry per configured region,
    in configuration order.  The entry of region i is the six tags (tenant
    id, the timestamp, the region's country and region, a domain of the
    configured list, the configured interval) followed by the source fields,
    each int field replaced by int(v * weight * jitter) with jitter a
    uniform(0.9, 1.1) draw of its own, each other field unchanged.  The scaled
    fields need not sum to the source: three regions of weights 0.5, 0.3, 0.2
    turn 9000 requests into 8100. *)
Theorem distribute_one_entry_per_region (cfg : Config) (gm : dict)
  (timestamp_ms : Z) (s : rng) :
  domains cfg <> [] ->
  NoDup (map fst gm) ->
  (forall k, In k tag_keys -> ~ In k (map fst gm)) ->
  unit_draws s ->
  (exists entries s',
    distribute cfg gm timestamp_ms s = Ok (entries, s') /\
    length entries = length (regions cfg) /\
    forall i region_info,
      nth_error (regions cfg) i = Some region_info ->
      let jitter := (0.9 + (1.1 - 0.9) * unit_draw (s (2 * i)%nat))%Q in
      let actual_weight := (weight region_info * jitter)%Q in
      exists domain,
        In domain (domains cfg) /\
        (0.9 <= jitter /\ jitter <= 1.1)%Q /\
        nth_error entries i =
        Some ([ ("tenantId", VStr (tenant_id cfg));
                ("start_time", VInt timestamp_ms);
                ("country", VStr (country region_info));
                ("region", VStr (region region_info));
                ("domain", VStr domain);
                ("interval", VInt (interval_seconds cfg)) ]%string
              ++ map (fun kv => (fst kv, scale_value actual_weight (snd kv)))
                     gm) /\
        (forall z, scale_value actual_weight (VInt z) =
                   VInt (py_int (inject_Z z * actual_weight))) /\
        (forall q, scale_value actual_weight (VFloat q) = VFloat q) /\
        (forall x, scale_value actual_weight (VStr x) = VStr x)) /\
  (exists entries s',
    distribute three_region_config (metrics_dict record_9000) 0
               (constant_rng 0 0) = Ok (entries, s') /\
    sum_int_field "req_num" entries = 8100 /\
    int_field "req_num" (metrics_dict record_9000) = 9000).
Proof.
  intros D N F U. split.
  - destruct (distribute_loop_spec cfg gm timestamp_ms D N F (regions cfg) s)
      as [entries [s' [E [L P]]]].
    exists entries, s'. split; [exact E|]. split; [exact L|].
    intros i ri H jitter actual_weight.
    exists (domain_at cfg s i).
    split; [|split; [|split; [|repeat split]]].
    + unfold domain_at. apply nth_In. apply Nat.mod_upper_bound.
      destruct (domains cfg); [congruence | discriminate].
    + destruct (U (2 * i)%nat) as [u0 u1].
      apply uniform_range; [lra | exact u0 | exact u1].
    + exact (P i ri H).
  - eexists; eexists. split; [vm_compute; reflexivity|].
    split; reflexivity.
Qed.

Lemma distribute_one_entry_per_region_witness :
  exists entries s',
    distribute three_region_config (metrics_dict record_9000) 1704067200000
               (constant_rng 0.5 1) = Ok (entries, s') /\
    length entries = 3%nat.
Proof.
  destruct (distribute_one_entry_per_region three_region_config
              (metrics_dict record_9000) 1704067200000 (constant_rng 0.5 1))
    as [[entries [s' [E [L _]]]] _].
  - discriminate.
  - repeat constructor; simpl; intuition discriminate.
  - intros k I J. simpl in I, J.
    repeat (destruct I as [I|I]; [subst k; intuition discriminate|]).
    exact I.
  - intro n. vm_compute. split; discriminate || reflexivity.
  - exists entries, s'. split; [exact E | exact L].
Defined.

(** ** C1: calibration.  The percentile of a day commutes with a positive
    rescale *)

Section Rescale.

Variable c : Q.
Hypothesis c_pos : (0 < c)%Q.

Lemma Qle_bool_rescale (x y : Q) :
  Qle_bool (x * c) (y * c) = Qle_bool x y.
Proof.
  apply eq_iff_eq_true. rewrite !Qle_bool_iff.
  apply Qmult_le_r. exact c_pos.
Qed.

Lemma insert_sorted_rescale (x : Q) (l : list Q) :
  insert_sorted (x * c) (map (fun y => y * c)%Q l) =
  map (fun y => y * c)%Q (insert_sorted x l).
Proof.
  induction l as [|y r IH]; [reflexivity|].
  cbn [map insert_sorted]. rewrite Qle_bool_rescale.
  destruct (Qle_bool x y); cbn [map]; [reflexivity | now rewrite IH].
Qed.

Lemma sorted_rescale (l : list Q) :
  sorted (map (fun y => y * c)%Q l) = map (fun y => y * c)%Q (sorted l).
Proof.
  induction l as [|x r IH]; [reflexivity|].
  cbn [map sorted]. now rewrite IH, insert_sorted_rescale.
Qed.

Lemma py_index_map {A B : Type} (f : A -> B) (l : list A) (i : Z) :
  py_index (map f l) i =
  match py_index l i with
  | Ok x => Ok (f x)
  | Raise e => Raise e
  end.
Proof.
  unfold py_index. rewrite length_map.
  destruct ((0 <=? _) && (_ <? _)); [|reflexivity].
  rewrite nth_error_map.
  destruct (nth_error l _); reflexivity.
Qed.

Lemma calc_daily_p95_rescale (l : list Q) (p : Q) :
  calc_daily_p95 l = Ok p ->
  calc_daily_p95 (map (fun y => y * c)%Q l) = Ok (p * c)%Q.
Proof.
  unfold calc_daily_p95. intro H.
  rewrite sorted_rescale, length_map, py_index_map, H. reflexivity.
Qed.

Lemma py_slice_map {A B : Type} (f : A -> B) (l : list A) (a b : nat) :
  py_slice (map f l) a b = map f (py_slice l a b).
Proof.
  unfold py_slice. now rewrite skipn_map, firstn_map.
Qed.

Lemma daily_p95_loop_rescale (curve : list Q) (ppd : Z) (starts : list Z)
  (daily : list Q) :
  daily_p95_loop curve ppd starts = Ok daily ->
  daily_p95_loop (map (fun y => y * c)%Q curve) ppd starts =
  Ok (map (fun y => y * c)%Q daily).
Proof.
  revert daily. induction starts as [|a more IH]; intros daily H.
  - inversion H. reflexivity.
  - cbn [daily_p95_loop] in *. rewrite py_slice_map, length_map.
    destruct (Qle_bool _ _); [|exact (IH daily H)].
    destruct (calc_daily_p95 (py_slice curve _ _)) as [p|e] eqn:E;
      [|discriminate H].
    rewrite (calc_daily_p95_rescale _ _ E).
    destruct (daily_p95_loop curve ppd more) as [l|e]; [|discriminate H].
    inversion H; subst daily. rewrite (IH l eq_refl). reflexivity.
Qed.

Lemma daily_p95_list_rescale (curve : list Q) (ppd : Z) (daily : list Q) :
  daily_p95_list curve ppd = Ok daily ->
  daily_p95_list (map (fun y => y * c)%Q curve) ppd =
  Ok (map (fun y => y * c)%Q daily).
Proof.
  unfold daily_p95_list. rewrite length_map.
  destruct (py_range_step _ _) as [starts|e]; [|discriminate].
  apply daily_p95_loop_rescale.
Qed.

Lemma fold_left_Qplus_compat (l : list Q) (a b : Q) :
  (a == b)%Q -> (fold_left Qplus l a == fold_left Qplus l b)%Q.
Proof.
  revert a b. induction l as [|x r IH]; intros a b H; [exact H|].
  cbn [fold_left]. apply IH. now rewrite H.
Qed.

Lemma fold_left_Qplus_rescale (l : list Q) (a : Q) :
  (fold_left Qplus (map (fun y => y * c)%Q l) (a * c)
   == fold_left Qplus l a * c)%Q.
Proof.
  revert a. induction l as [|x r IH]; intro a; [reflexivity|].
  cbn [map fold_left]. rewrite <- IH.
  apply fold_left_Qplus_compat. ring.
Qed.

Lemma py_sum_rescale (l : list Q) :
  (py_sum (map (fun y => y * c)%Q l) == py_sum l * c)%Q.
Proof.
  unfold py_sum. rewrite <- fold_left_Qplus_rescale.
  apply fold_left_Qplus_compat. ring.
Qed.

Lemma mean_rescale (l : list Q) (m : Q) :
  mean l = Ok m ->
  exists m', mean (map (fun y => y * c)%Q l) = Ok m' /\ (m' == m * c)%Q.
Proof.
  unfold mean, py_div. rewrite length_map.
  destruct (Qeq_bool _ 0) eqn:E; [discriminate|].
  intro H. inversion H; subst m. eexists. split; [reflexivity|].
  rewrite py_sum_rescale.
  apply Qeq_bool_neq in E. field. exact E.
Qed.

End Rescale.

(** ** C1: the curve before calibration *)

Lemma py_max_floor (b : Q) : (0.1 <= py_max 0.1 b)%Q.
Proof.
  unfold py_max. destruct (Qltb 0.1 b) eqn:E.
  - apply Qltb_true in E. apply Qlt_le_weak. exact E.
  - apply Qle_refl.
Qed.

Lemma generate_point_ok (sin_term : Z -> Q) (cfg : Config)
  (duration step i : Z) (s : rng) :
  exists bw s',
    generate_point sin_term cfg duration step i s = Ok (bw, s') /\
    (0.1 <= bw)%Q.
Proof.
  unfold generate_point. rand_unfold.
  destruct (Qltb _ (burst_probability cfg)); rand_unfold;
    eexists; eexists; (split; [reflexivity | apply py_max_floor]).
Qed.

Lemma generate_loop_ok (sin_term : Z -> Q) (cfg : Config)
  (duration step : Z) (n : nat) :
  forall (i : Z) (s : rng),
  exists curve s',
    generate_loop sin_term cfg duration step i n s = Ok (curve, s') /\
    length curve = n /\
    Forall (fun bw => 0.1 <= bw)%Q curve.
Proof.
  induction n as [|n IH]; intros i s.
  - exists [], s. repeat split. constructor.
  - destruct (generate_point_ok sin_term cfg duration step i s)
      as [bw [s1 [E1 B]]].
    destruct (IH (i + 1) s1) as [rest [s2 [E2 [L F]]]].
    exists (bw :: rest), s2. split; [|split].
    + cbn [generate_loop]. unfold bind at 1. rewrite E1.
      unfold bind at 1. rewrite E2. reflexivity.
    + simpl. now rewrite L.
    + constructor; assumption.
Qed.

(** ** C1: the daily percentiles of a curve *)

Lemma insert_sorted_in (x y : Q) (l : list Q) :
  In x (insert_sorted y l) -> x = y \/ In x l.
Proof.
  induction l as [|z r IH]; simpl.
  - intros [H|[]]; left; now symmetry.
  - destruct (Qle_bool y z); simpl.
    + intros [H|[H|H]]; [left; now symmetry | right; now left
                        | right; now right].
    + intros [H|H]; [right; now left|].
      destruct (IH H) as [K|K]; [now left | right; now right].
Qed.

Lemma sorted_in (x : Q) (l : list Q) : In x (sorted l) -> In x l.
Proof.
  induction l as [|y r IH]; simpl; [tauto|].
  intro H. destruct (insert_sorted_in _ _ _ H) as [K|K].
  - left. now symmetry.
  - right. now apply IH.
Qed.

Lemma calc_daily_p95_in (l : list Q) :
  l <> [] -> exists p, calc_daily_p95 l = Ok p /\ In p l.
Proof.
  intro H. unfold calc_daily_p95.
  assert (Hn : 1 <= Z.of_nat (length (sorted l))).
  { rewrite sorted_length. destruct l; [congruence | simpl length; lia]. }
  pose proof (calibration_index_range _ Hn) as R.
  rewrite (py_index_in_range _ _ 0%Q R).
  eexists. split; [reflexivity|].
  apply sorted_in. apply nth_In. lia.
Qed.

Lemma half_day_nonempty (ppd : Z) (day_curve : list Q) :
  1 <= ppd ->
  Qle_bool (inject_Z ppd * 0.5) (inject_Z (Z.of_nat (length day_curve))) = true ->
  day_curve <> [].
Proof.
  intros P H E. subst day_curve. apply Qle_bool_iff in H.
  unfold Qle in H. cbn in H. lia.
Qed.

Lemma firstn_in {A : Type} (n : nat) (l : list A) (x : A) :
  In x (firstn n l) -> In x l.
Proof.
  revert l. induction n as [|n IH]; intros [|y r]; simpl; try tauto.
  intros [H|H]; [now left | right; now apply IH].
Qed.

Lemma skipn_in {A : Type} (n : nat) (l : list A) (x : A) :
  In x (skipn n l) -> In x l.
Proof.
  revert l. induction n as [|n IH]; intros [|y r]; simpl; try tauto.
  intro H. right. now apply IH.
Qed.

Lemma py_slice_incl {A : Type} (l : list A) (a b : nat) (x : A) :
  In x (py_slice l a b) -> In x l.
Proof.
  unfold py_slice. intro H.
  apply (skipn_in a l). apply (firstn_in (b - a) _). exact H.
Qed.

Lemma daily_p95_loop_ok (lo : Q) (curve : list Q) (ppd : Z) :
  1 <= ppd ->
  Forall (fun bw => lo <= bw)%Q curve ->
  forall starts,
  exists daily,
    daily_p95_loop curve ppd starts = Ok daily /\
    Forall (fun p => lo <= p)%Q daily.
Proof.
  intros P F starts. induction starts as [|a more [daily [E G]]].
  - exists []. split; [reflexivity | constructor].
  - cbn [daily_p95_loop].
    destruct (Qle_bool _ _) eqn:C; [|exists daily; split; assumption].
    destruct (calc_daily_p95_in _ (half_day_nonempty _ _ P C)) as [p [Ep I]].
    rewrite Ep, E. exists (p :: daily). split; [reflexivity|].
    constructor; [|exact G].
    rewrite Forall_forall in F. apply F. exact (py_slice_incl _ _ _ _ I).
Qed.

Lemma first_day_counted (curve : list Q) (ppd : Z) (more : list Z) :
  1 <= ppd -> ppd <= Z.of_nat (length curve) ->
  forall daily, daily_p95_loop curve ppd (0 :: more) = Ok daily -> daily <> [].
Proof.
  intros P L daily H. cbn [daily_p95_loop] in H.
  assert (Len : length (py_slice curve (Z.to_nat 0) (Z.to_nat (0 + ppd)))
                = Z.to_nat ppd).
  { unfold py_slice. change (Z.to_nat 0) with O. rewrite Nat.sub_0_r.
    cbn [skipn]. rewrite firstn_length_le; lia. }
  rewrite Len in H.
  replace (Qle_bool (inject_Z ppd * 0.5) (inject_Z (Z.of_nat (Z.to_nat ppd))))
    with true in H.
  - destruct (calc_daily_p95 _) as [p|e]; [|discriminate H].
    destruct (daily_p95_loop curve ppd more) as [l|e]; [|discriminate H].
    inversion H. discriminate.
  - symmetry. apply Qle_bool_iff. rewrite Z2Nat.id by lia.
    unfold Qle. cbn. lia.
Qed.

Lemma py_range_step_first (stop step : Z) :
  1 <= stop -> 1 <= step ->
  exists more, py_range_step stop step = Ok (0 :: more).
Proof.
  intros A B. unfold py_range_step.
  replace (step =? 0) with false by (symmetry; apply Z.eqb_neq; lia).
  replace (step <? 0) with false by (symmetry; apply Z.ltb_ge; lia).
  replace (stop <=? 0) with false by (symmetry; apply Z.leb_gt; lia).
  cbn [orb].
  assert (N : 1 <= (stop + step - 1) / step)
    by (apply Z.div_le_lower_bound; lia).
  destruct (Z.to_nat ((stop + step - 1) / step)) as [|k] eqn:E; [lia|].
  cbn [seq map]. eexists. reflexivity.
Qed.

Lemma daily_p95_list_ok (lo : Q) (curve : list Q) (ppd : Z) :
  1 <= ppd -> ppd <= Z.of_nat (length curve) ->
  Forall (fun bw => lo <= bw)%Q curve ->
  exists daily,
    daily_p95_list curve ppd = Ok daily /\
    daily <> [] /\
    Forall (fun p => lo <= p)%Q daily.
Proof.
  intros P L F. unfold daily_p95_list.
  destruct (py_range_step_first (Z.of_nat (length curve)) ppd) as [more R];
    [lia | lia |].
  rewrite R.
  destruct (daily_p95_loop_ok lo curve ppd P F (0 :: more)) as [daily [E G]].
  exists daily. split; [exact E|]. split; [|exact G].
  exact (first_day_counted curve ppd more P L daily E).
Qed.

Lemma fold_left_Qplus_lower (lo : Q) (l : list Q) (a : Q) :
  Forall (fun x => lo <= x)%Q l ->
  (a + lo * inject_Z (Z.of_nat (length l)) <= fold_left Qplus l a)%Q.
Proof.
  intro F. revert a. induction F as [|x r Hx F IH]; intro a.
  - cbn [fold_left length]. change (inject_Z (Z.of_nat 0)) with 0%Q. lra.
  - cbn [fold_left length]. rewrite Nat2Z.inj_succ.
    eapply Qle_trans; [|apply IH].
    unfold Z.succ. rewrite inject_Z_plus. change (inject_Z 1) with 1%Q. lra.
Qed.

Lemma mean_lower (lo : Q) (l : list Q) :
  l <> [] ->
  Forall (fun x => lo <= x)%Q l ->
  exists m, mean l = Ok m /\ (lo <= m)%Q.
Proof.
  intros N F. unfold mean.
  assert (Lpos : (0 < inject_Z (Z.of_nat (length l)))%Q).
  { unfold Qlt. cbn. destruct l; [congruence | cbn [length]; lia]. }
  rewrite py_div_ok by (intro E; rewrite E in Lpos; exact (Qlt_irrefl _ Lpos)).
  eexists. split; [reflexivity|].
  apply Qle_shift_div_l; [exact Lpos|].
  pose proof (fold_left_Qplus_lower lo l 0 F) as S.
  unfold py_sum. lra.
Qed.

(** ** C1: the calibration pass *)

Lemma mean_nonempty (l : list Q) : l <> [] -> exists m, mean l = Ok m.
Proof.
  intro N. unfold mean. rewrite py_div_ok; [eexists; reflexivity|].
  apply inject_Z_nonzero. destruct l; [congruence | cbn [length]; lia].
Qed.

Lemma Qabs_zero_ratio (a t : Q) :
  (a == t)%Q -> (Qabs (a - t) / t <= 0.02)%Q.
Proof.
  intro H. assert (Z0 : (Qabs (a - t) == 0)%Q).
  { assert (D : (a - t == 0)%Q) by (rewrite H; ring).
    rewrite D. reflexivity. }
  rewrite Z0. unfold Qdiv. rewrite Qmult_0_l. discriminate.
Qed.

(** What [_adjust_to_target] returns on a curve whose days have a positive
    mean percentile: the curve itself when the deviation is at most 2%, the
    curve times target / mean otherwise; either way the mean percentile of
    what it returns is within 2% of the target. *)
Lemma adjust_to_target_spec (cfg : Config) (curve : list Q) (ppd : Z)
  (daily : list Q) (avg : Q) :
  let target := target_bandwidth_gbps cfg in
  points_per_day_of cfg = Ok ppd ->
  daily_p95_list curve ppd = Ok daily ->
  daily <> [] ->
  mean daily = Ok avg ->
  (0 < avg)%Q ->
  (0 < target)%Q ->
  curve <> [] ->
  exists curve' daily' avg',
    _adjust_to_target cfg curve = Ok curve' /\
    daily_p95_list curve' ppd = Ok daily' /\
    daily' <> [] /\
    mean daily' = Ok avg' /\
    (Qabs (avg' - target) / target <= 0.02)%Q /\
    ((curve' = curve /\ (Qabs (avg - target) / target <= 0.02)%Q) \/
     (curve' = map (fun bw => bw * (target / avg))%Q curve /\
      (0.02 < Qabs (avg - target) / target)%Q)).
Proof.
  intros target Hp Hd Hne Hm Ha Ht Hc.
  assert (Tnz : ~ (target == 0)%Q)
    by (intro E; rewrite E in Ht; exact (Qlt_irrefl _ Ht)).
  assert (Anz : ~ (avg == 0)%Q)
    by (intro E; rewrite E in Ha; exact (Qlt_irrefl _ Ha)).
  unfold _adjust_to_target. fold target. rewrite Hp, Hd.
  destruct daily as [|d0 dr] eqn:Ed; [congruence|]. rewrite <- Ed in *.
  replace (match daily with [] => py_max_list curve | _ :: _ => mean daily end)
    with (mean daily) by (rewrite Ed; reflexivity).
  rewrite Hm. rewrite (py_div_ok _ target Tnz).
  destruct (Qltb 0.02 (Qabs (avg - target) / target)) eqn:G.
  - apply Qltb_true in G.
    rewrite (py_div_ok target avg Anz).
    set (scale := (target / avg)%Q).
    assert (Sp : (0 < scale)%Q).
    { unfold scale. apply Qlt_shift_div_l; [exact Ha|]. lra. }
    destruct (mean_nonempty (map (fun bw => bw * scale)%Q curve)) as [na En].
    { intro E. apply Hc. destruct curve; [reflexivity | discriminate E]. }
    rewrite En.
    destruct (mean_rescale scale daily avg Hm) as [avg' [Em' Eq]].
    exists (map (fun bw => bw * scale)%Q curve),
           (map (fun x => x * scale)%Q daily), avg'.
    split; [reflexivity|].
    split; [exact (daily_p95_list_rescale scale Sp curve ppd daily Hd)|].
    split; [rewrite Ed; discriminate|].
    split; [exact Em'|].
    split; [|right; split; [reflexivity | exact G]].
    apply Qabs_zero_ratio. rewrite Eq. unfold scale. field. exact Anz.
  - apply Qltb_false in G.
    exists curve, daily, avg.
    split; [reflexivity|]. split; [exact Hd|].
    split; [rewrite Ed; discriminate|]. split; [exact Hm|].
    split; [exact G|]. left. split; [reflexivity | exact G].
Qed.

(** The curve [generate] hands to the calibration pass, for a configuration
    of at least one day sampled every 60 to 86400 seconds. *)
Lemma generate_before_calibration (sin_term : Z -> Q) (cfg : Config)
  (s : rng) :
  1 <= duration_days cfg ->
  60 <= interval_seconds cfg <= 86400 ->
  exists raw s' ppd,
    points_per_day_of cfg = Ok ppd /\
    1 <= ppd <= Z.of_nat (length raw) /\
    Forall (fun bw => 0.1 <= bw)%Q raw /\
    generate sin_term cfg (duration_days cfg) (interval_seconds cfg) s =
    match _adjust_to_target cfg raw with
    | Ok curve => Ok (curve, s')
    | Raise e => Raise e
    end.
Proof.
  intros Hd Hi.
  set (step := interval_seconds cfg / 60).
  assert (S1 : 1 <= step <= 1440).
  { unfold step. split.
    - apply Z.div_le_lower_bound; lia.
    - apply Z.div_le_upper_bound; lia. }
  set (total := duration_days cfg * 24 * 60 / step).
  set (ppd := 24 * 60 / step).
  assert (P1 : 1 <= ppd) by (apply Z.div_le_lower_bound; lia).
  assert (PT : ppd <= total) by (apply Z.div_le_mono; lia).
  destruct (generate_loop_ok sin_term cfg (duration_days cfg) step
              (Z.to_nat total) 0 s) as [raw [s' [E [L F]]]].
  exists raw, s', ppd.
  split; [|split; [|split]].
  - unfold points_per_day_of, py_floordiv. fold step.
    change (60 =? 0) with false. cbv iota.
    replace (step =? 0) with false by (symmetry; apply Z.eqb_neq; lia).
    reflexivity.
  - rewrite L. lia.
  - exact F.
  - unfold generate, py_floordiv. fold step.
    change (60 =? 0) with false. rand_unfold.
    replace (step =? 0) with false by (symmetry; apply Z.eqb_neq; lia).
    fold total. rewrite E. reflexivity.
Qed.

(** C1, as the code has it: for a target above zero, a duration of at least
    one day and an interval of 60 to 86400 seconds, [generate], called with
    the configuration's own duration and interval, returns a curve whose mean
    daily 95th percentile deviates from the target by at most 2% relative
    (2% itself included: the pass rescales only above 2%). *)
Theorem calibrated_mean_p95_within_two_percent (sin_term : Z -> Q)
  (cfg : Config) (s : rng) :
  (0 < target_bandwidth_gbps cfg)%Q ->
  1 <= duration_days cfg ->
  60 <= interval_seconds cfg <= 86400 ->
  exists curve s' ppd daily avg,
    generate sin_term cfg (duration_days cfg) (interval_seconds cfg) s
    = Ok (curve, s') /\
    points_per_day_of cfg = Ok ppd /\
    daily_p95_list curve ppd = Ok daily /\
    daily <> [] /\
    mean daily = Ok avg /\
    (Qabs (avg - target_bandwidth_gbps cfg) / target_bandwidth_gbps cfg
     <= 0.02)%Q.
Proof.
  intros Ht Hd Hi.
  destruct (generate_before_calibration sin_term cfg s Hd Hi)
    as [raw [s' [ppd [Hp [[P1 PL] [F G]]]]]].
  destruct (daily_p95_list_ok 0.1 raw ppd P1 PL F) as [daily [Ed [Ne Fd]]].
  destruct (mean_lower 0.1 daily Ne Fd) as [avg [Em Lo]].
  assert (Rne : raw <> [])
    by (intro E; subst raw; cbn [length] in PL; lia).
  destruct (adjust_to_target_spec cfg raw ppd daily avg Hp Ed Ne Em)
    as [curve [daily' [avg' [Ea [Ed' [Ne' [Em' [B _]]]]]]]];
    [lra | exact Ht | exact Rne |].
  exists curve, s', ppd, daily', avg'.
  rewrite G, Ea. repeat split; assumption.
Qed.

Lemma calibrated_mean_p95_within_two_percent_witness :
  exists curve s' ppd daily avg,
    generate sin_term_double round_trip_config 1 300 (constant_rng 0.5 0)
    = Ok (curve, s') /\
    points_per_day_of round_trip_config = Ok ppd /\
    daily_p95_list curve ppd = Ok daily /\
    daily <> [] /\
    mean daily = Ok avg /\
    (Qabs (avg - 20) / 20 <= 0.02)%Q.
Proof.
  apply (calibrated_mean_p95_within_two_percent sin_term_double
           round_trip_config (constant_rng 0.5 0)).
  - reflexivity.
  - cbn. lia.
  - cbn. lia.
Defined.

(** C1, as stated, fails: on the six-hourly run the day's percentile is
    20.4 Gbps, exactly 2% above the target of 20; the pass leaves the curve
    alone, and the deviation is 2%, not less. *)
Lemma boundary_deviation_is_two_percent :
  exists curve s' daily avg,
    generate sin_term_double boundary_config 1 21600 boundary_rng
    = Ok (curve, s') /\
    points_per_day_of boundary_config = Ok 4 /\
    daily_p95_list curve 4 = Ok daily /\
    mean daily = Ok avg /\
    (Qabs (avg - 20) / 20 == 0.02)%Q /\
    ~ (Qabs (avg - 20) / 20 < 0.02)%Q.
Proof.
  eexists; eexists; eexists; eexists.
  split; [vm_compute; reflexivity|].
  split; [reflexivity|].
  split; [vm_compute; reflexivity|].
  split; [vm_compute; reflexivity|].
  split; [reflexivity|].
  intro H. vm_compute in H. discriminate H.
Qed.

(** ** C4: the floor after calibration *)

(** Before calibration every sample is at least 0.1 Gbps. *)
Lemma raw_curve_floor (sin_term : Z -> Q) (cfg : Config)
  (duration step i : Z) (n : nat) (s s' : rng) (raw : list Q) :
  generate_loop sin_term cfg duration step i n s = Ok (raw, s') ->
  Forall (fun bw => 0.1 <= bw)%Q raw.
Proof.
  intro H.
  destruct (generate_loop_ok sin_term cfg duration step n i s)
    as [c [t [E [_ F]]]].
  rewrite H in E. inversion E; subst. exact F.
Qed.

(** C4 on the hourly run with a target of 0.1 Gbps: the curve [generate]
    returns starts with a sample below 0.1 Gbps; the pass scaled the floored
    samples down with the rest. *)
Theorem calibrated_sample_below_floor :
  exists bw rest s',
    generate sin_term_double small_target_config 1 3600 (constant_rng 0.5 0)
    = Ok (bw :: rest, s') /\
    (bw < 0.1)%Q.
Proof.
  eexists; eexists; eexists.
  split; [vm_compute; reflexivity|].
  reflexivity.
Qed.

(** ** C2: generation followed by validation *)

Lemma adjust_without_report_eq (cfg : Config) (curve : list Q) :
  _adjust_to_target cfg curve = adjust_without_report cfg curve.
Proof.
  unfold _adjust_to_target, adjust_without_report.
  destruct (points_per_day_of cfg) as [ppd|e]; [|reflexivity].
  destruct curve as [|x r].
  - unfold daily_p95_list, py_range_step. cbn [length].
    destruct (ppd =? 0); [reflexivity|].
    change (Z.of_nat 0 <=? 0) with true. rewrite orb_true_r. reflexivity.
  - destruct (daily_p95_list (x :: r) ppd) as [daily|e]; [|reflexivity].
    destruct (match daily with [] => _ | _ => _ end) as [avg|e];
      [|reflexivity].
    destruct (py_div (Qabs _) _) as [dev|e]; [|reflexivity].
    destruct (Qltb 0.02 dev); [|reflexivity].
    destruct (py_div _ avg) as [scale|e]; [|reflexivity].
    destruct (mean_nonempty (map (fun bw => bw * scale)%Q (x :: r)))
      as [m E]; [discriminate|].
    rewrite E. reflexivity.
Qed.

Lemma generate_eq (sin_term : Z -> Q) (cfg : Config) (duration interval : Z)
  (s : rng) :
  interval / 60 <> 0 ->
  generate sin_term cfg duration interval s =
  match generate_loop sin_term cfg duration (interval / 60) 0
          (Z.to_nat (duration * 24 * 60 / (interval / 60))) s with
  | Ok (raw, s1) =>
      match adjust_without_report cfg raw with
      | Ok curve => Ok (curve, s1)
      | Raise e => Raise e
      end
  | Raise e => Raise e
  end.
Proof.
  intro H. unfold generate, py_floordiv.
  change (60 =? 0) with false. rand_unfold.
  replace (interval / 60 =? 0) with false
    by (symmetry; apply Z.eqb_neq; exact H).
  destruct (generate_loop _ _ _ _ _ _ _) as [[raw s1]|e]; [|reflexivity].
  rewrite adjust_without_report_eq. reflexivity.
Qed.

(** [round_trip_fails] decides the round trip of [generate_full_month] and
    [validate_logs]. *)
Lemma round_trip_fails_sound (sin_term : Z -> Q) (utc_offset : Z)
  (cfg : Config) (s : rng) (target : Q) :
  interval_seconds cfg / 60 <> 0 ->
  round_trip_fails sin_term utc_offset cfg s target = true ->
  exists logs stats s' report,
    generate_full_month sin_term utc_offset cfg s = Ok ((logs, stats), s') /\
    validate_logs logs target = Ok report /\
    passed (validation report) = false /\
    (5 < deviation_percent (validation report))%Q.
Proof.
  intros Hi H. unfold round_trip_fails in H.
  destruct (generate_loop _ _ _ _ _ _ _) as [[raw s1]|e] eqn:E1;
    [|discriminate H].
  destruct (adjust_without_report cfg raw) as [[|x r]|e] eqn:E2;
    try discriminate H.
  destruct (full_month_loop _ _ _ _ _ _) as [[logs s2]|e] eqn:E3;
    [|discriminate H].
  destruct (validate_logs logs target) as [report|e] eqn:E4;
    [|discriminate H].
  apply andb_true_iff in H. destruct H as [H1 H2].
  destruct (summary_stats_nonempty x r (interval_seconds cfg))
    as [stats [Es _]].
  exists logs, stats, s2, report.
  split; [|split; [exact E4|split]].
  - unfold generate_full_month. unfold bind at 1.
    rewrite (generate_eq sin_term cfg (duration_days cfg)
               (interval_seconds cfg) s Hi).
    rewrite E1, E2. unfold bind at 1. unfold lift. rewrite Es.
    unfold bind, ret. rewrite E3. reflexivity.
  - apply negb_true_iff in H1. exact H1.
  - apply Qltb_true in H2. exact H2.
Qed.

Lemma round_trip_fails_on_sample_run :
  round_trip_fails sin_term_double 0 round_trip_config (constant_rng 0.5 0) 20
  = true.
Proof.
  vm_compute. reflexivity.
Qed.

(** C2 on the run of one day sampled every 300 seconds, target 20 Gbps, one
    region of weight 1, every float drawn 0.5: [generate_full_month] returns
    its logs, [validate_logs] on them with target 20 returns a report, and the
    report has passed = False and a deviation above 5%. *)
Theorem round_trip_does_not_pass :
  exists logs stats s' report,
    generate_full_month sin_term_double 0 round_trip_config
                        (constant_rng 0.5 0) = Ok ((logs, stats), s') /\
    validate_logs logs 20 = Ok report /\
    passed (validation report) = false /\
    (5 < deviation_percent (validation report))%Q.
Proof.
  apply round_trip_fails_sound.
  - intro K. vm_compute in K. discriminate K.
  - exact round_trip_fails_on_sample_run.
Qed.

(* ================================================================== *)
(** * Further properties of the engine *)
(* ================================================================== *)

(** ** The sorted list *)







Lemma sorted_nonempty (l : list Q) : l <> [] -> sorted l <> [].
Proof.
  intros H E. apply (f_equal (@length Q)) in E.
  rewrite sorted_length in E. destruct l; [congruence | discriminate E].
Qed.




(** ** The statistics of the analyzer and of the orchestrator *)

Lemma percentile_indices (n : Z) :
  1 <= n ->
  0 <= n / 2 /\ n / 2 <= n * 95 / 100 /\ n * 95 / 100 <= n * 99 / 100 /\
  n * 99 / 100 <= n - 1.
Proof.
  intro H. Z.div_mod_to_equations. lia.
Qed.




(** The dict of statistics [generate_full_month] builds, field by field. *)
Lemma summary_stats_fields (x : Q) (r : list Q) (interval : Z) :
  let l := x :: r in
  let sv := sorted l in
  let n := Z.of_nat (length l) in
  summary_stats l interval =
  Ok {| summary_total_points := n;
        p50_gbps := nth (Z.to_nat (n / 2)) sv 0%Q;
        p95_gbps := nth (Z.to_nat (n * 95 / 100)) sv 0%Q;
        p99_gbps := nth (Z.to_nat (n * 99 / 100)) sv 0%Q;
        max_gbps := nth (length sv - 1) sv 0%Q;
        min_gbps := nth 0 sv 0%Q;
        avg_gbps := (py_sum l / inject_Z n)%Q;
        total_flux_tb := (py_sum l * inject_Z interval / 8 / 1024)%Q |}.
Proof.
  intros l sv n.
  assert (Hn : 1 <= n) by (unfold n, l; simpl length; lia).
  assert (Hlen : Z.of_nat (length sv) = n)
    by (unfold sv; rewrite sorted_length; reflexivity).
  assert (Hne : sv <> []) by (apply sorted_nonempty; discriminate).
  destruct (percentile_indices n Hn) as [I0 [I1 [I2 I3]]].
  unfold summary_stats. fold l. cbv zeta. fold sv.
  rewrite Hlen. fold n. unfold summary_p95_index.
  rewrite (py_int_95 n) by lia. rewrite (py_int_99 n) by lia.
  rewrite (py_index_in_range sv (n / 2) 0%Q) by lia.
  rewrite (py_index_in_range sv (n * 95 / 100) 0%Q) by lia.
  rewrite (py_index_in_range sv (n * 99 / 100) 0%Q) by lia.
  rewrite (py_index_last sv 0%Q Hne).
  rewrite (py_index_in_range sv 0 0%Q) by lia.
  rewrite (py_div_ok _ (inject_Z n)) by (apply inject_Z_nonzero; lia).
  reflexivity.
Qed.


(** ** validate_logs *)

(** X4. On an empty list of logs [validate_logs] raises KeyError, whatever
    the target: the analyzer hands back its error dict, and the lookup of
    ["avg"] in it fails. *)
Theorem validate_logs_empty (target : Q) :
  validate_logs [] target = Raise KeyError.
Proof.
  reflexivity.
Qed.

Lemma map_outcome_ok {A B : Type} (f : A -> outcome B) (l : list A) :
  Forall (fun x => exists y, f x = Ok y) l ->
  exists ys, map_outcome f l = Ok ys /\ length ys = length l.
Proof.
  intro F. induction F as [|x r [y E] F [ys [Es L]]].
  - exists []. split; reflexivity.
  - exists (y :: ys). cbn [map_outcome]. rewrite E, Es.
    split; [reflexivity | simpl; now rewrite L].
Qed.

Lemma group_append_count (key : value) (x : Q)
  (groups : list (value * list Q)) :
  grouped_count (group_append key x groups) = grouped_count groups + 1.
Proof.
  induction groups as [|[k xs] r IH]; cbn [group_append grouped_count fold_right snd].
  - cbn. lia.
  - destruct (value_eqb key k); cbn [grouped_count fold_right snd].
    + rewrite length_app. cbn [length]. lia.
    + fold (grouped_count (group_append key x r)). fold (grouped_count r).
      lia.
Qed.

Lemma group_append_nonempty (key : value) (x : Q)
  (groups : list (value * list Q)) :
  Forall (fun g => snd g <> []) groups ->
  Forall (fun g => snd g <> []) (group_append key x groups).
Proof.
  intro F. induction F as [|[k xs] r H F IH]; cbn [group_append].
  - constructor; [discriminate | constructor].
  - destruct (value_eqb key k).
    + constructor; [|exact F]. cbn [snd]. destruct xs; discriminate.
    + constructor; assumption.
Qed.

Lemma group_by_ok (field : string) (logs : list dict) :
  Forall (fun log => (exists q, bw_gbps_of log = Ok q) /\
                     (exists v, dict_get field log = Ok v)) logs ->
  forall groups,
  Forall (fun g => snd g <> []) groups ->
  exists groups',
    group_by field logs groups = Ok groups' /\
    Forall (fun g => snd g <> []) groups' /\
    grouped_count groups' = grouped_count groups + Z.of_nat (length logs).
Proof.
  intro F. induction F as [|log more [[q Eq] [v Ev]] F IH]; intros groups G.
  - exists groups. split; [reflexivity|]. split; [exact G|]. cbn. lia.
  - cbn [group_by]. rewrite Eq, Ev.
    destruct (IH (group_append v q groups)) as [g' [E [N C]]].
    { apply group_append_nonempty. exact G. }
    exists g'. split; [exact E|]. split; [exact N|].
    rewrite C, group_append_count. cbn [length]. lia.
Qed.

Lemma group_stats_ok (groups : list (value * list Q)) :
  Forall (fun g => snd g <> []) groups ->
  exists stats,
    group_stats groups = Ok stats /\
    map fst stats = map fst groups /\
    grouped_points stats = grouped_count groups.
Proof.
  unfold group_stats. intro F.
  induction F as [|[k xs] r H F [stats [E [K P]]]].
  - exists []. repeat split.
  - cbn [snd] in H. destruct xs as [|x xs]; [congruence|].
    destruct (calculate_p95_nonempty x xs) as [s [Es [Et _]]].
    exists ((k, StatsOf s) :: stats).
    cbn [map_outcome snd fst]. rewrite Es, E.
    split; [reflexivity|]. split; [cbn [map fst]; now rewrite K|].
    cbn [grouped_points grouped_count fold_right snd stats_points].
    fold (grouped_points stats). fold (grouped_count r). rewrite Et, P.
    reflexivity.
Qed.

(** The report of [validate_logs] on logs it can read. *)
Lemma validate_logs_readable (log : dict) (more : list dict) (target : Q) :
  Forall readable_log (log :: more) ->
  ~ (target == 0)%Q ->
  exists report,
    validate_logs (log :: more) target = Ok report /\
    total_points (overall report) = Z.of_nat (length (log :: more)) /\
    target_gbps (validation report) = target /\
    actual_avg_gbps (validation report) = stats_avg (overall report) /\
    actual_p95_gbps (validation report) = p95 (overall report) /\
    deviation_percent (validation report) =
      (Qabs (stats_avg (overall report) - target) / target * 100)%Q /\
    (passed (validation report) = true <->
     (deviation_percent (validation report) < 5)%Q) /\
    grouped_points (by_region report) = Z.of_nat (length (log :: more)) /\
    grouped_points (by_domain report) = Z.of_nat (length (log :: more)).
Proof.
  intros F T. set (logs := log :: more) in *.
  assert (Fb : Forall (fun l => exists q, bw_gbps_of l = Ok q) logs)
    by (eapply Forall_impl; [|exact F]; intros a [A _]; exact A).
  assert (Fr : Forall (fun l => (exists q, bw_gbps_of l = Ok q) /\
                                (exists v, dict_get "region" l = Ok v)) logs)
    by (eapply Forall_impl; [|exact F]; intros a [A [B _]]; split; assumption).
  assert (Fd : Forall (fun l => (exists q, bw_gbps_of l = Ok q) /\
                                (exists v, dict_get "domain" l = Ok v)) logs)
    by (eapply Forall_impl; [|exact F]; intros a [A [_ B]]; split; assumption).
  destruct (map_outcome_ok bw_gbps_of logs Fb) as [bws [Eb Lb]].
  destruct (group_by_ok "region" logs Fr [] (Forall_nil _))
    as [gr [Egr [Nr Cr]]].
  destruct (group_by_ok "domain" logs Fd [] (Forall_nil _))
    as [gd [Egd [Nd Cd]]].
  destruct (group_stats_ok gr Nr) as [sr [Esr [_ Pr]]].
  destruct (group_stats_ok gd Nd) as [sd [Esd [_ Pd]]].
  destruct bws as [|b bs]; [discriminate Lb|].
  destruct (calculate_p95_nonempty b bs) as [s [Es [Et _]]].
  unfold validate_logs. rewrite Eb, Egr, Egd, Es.
  rewrite (py_div_ok _ target T). rewrite Esr, Esd.
  eexists. split; [reflexivity|].
  cbn [overall validation by_region by_domain target_gbps actual_avg_gbps
       actual_p95_gbps deviation_percent passed].
  split; [rewrite Et, Lb; reflexivity|].
  split; [reflexivity|]. split; [reflexivity|]. split; [reflexivity|].
  split; [reflexivity|].
  split.
  - rewrite Qltb_true. split; intro H.
    + eapply Qlt_le_trans; [exact H|]. discriminate.
    + eapply Qlt_le_trans; [exact H|]. discriminate.
  - split.
    + rewrite Pr, Cr. cbn [grouped_count fold_right]. lia.
    + rewrite Pd, Cd. cbn [grouped_count fold_right]. lia.
Qed.

(** X5. On a non-empty list of logs that each hold a numeric ["bw"], a
    ["region"] and a ["domain"], with a target other than 0, [validate_logs]
    returns a report: the overall statistics count every log, the deviation is
    |avg - target| / target * 100, [passed] is true exactly when the
    deviation is below 5, and the per-region and the per-domain groups each
    account for every log once. *)
Theorem validate_logs_report (log : dict) (more : list dict) (target : Q) :
  Forall readable_log (log :: more) ->
  ~ (target == 0)%Q ->
  exists report,
    validate_logs (log :: more) target = Ok report /\
    total_points (overall report) = Z.of_nat (length (log :: more)) /\
    target_gbps (validation report) = target /\
    actual_avg_gbps (validation report) = stats_avg (overall report) /\
    actual_p95_gbps (validation report) = p95 (overall report) /\
    deviation_percent (validation report) =
      (Qabs (stats_avg (overall report) - target) / target * 100)%Q /\
    (passed (validation report) = true <->
     (deviation_percent (validation report) < 5)%Q) /\
    grouped_points (by_region report) = Z.of_nat (length (log :: more)) /\
    grouped_points (by_domain report) = Z.of_nat (length (log :: more)).
Proof.
  exact (validate_logs_readable log more target).
Qed.

Lemma validate_logs_report_witness :
  exists report,
    validate_logs [[("bw", VInt 20480); ("region", VStr "East");
                    ("domain", VStr "cdn.example.com")]%string] 20
    = Ok report /\
    passed (validation report) = true.
Proof.
  destruct (validate_logs_report
              [("bw", VInt 20480); ("region", VStr "East");
               ("domain", VStr "cdn.example.com")]%string [] 20)
    as [report [E [_ [_ [_ [_ [D [P _]]]]]]]].
  - repeat constructor; eexists; reflexivity.
  - discriminate.
  - exists report. split; [exact E|].
    apply P. rewrite D.
    vm_compute in E. inversion E. vm_compute. reflexivity.
Defined.

Lemma dict_get_raise (k : string) (d : dict) (e : exn) :
  dict_get k d = Raise e -> e = KeyError.
Proof.
  induction d as [|[k' v'] r IH]; cbn [dict_get].
  - intro H. now inversion H.
  - destruct (String.eqb k k'); [discriminate | exact IH].
Qed.

Lemma bw_gbps_of_raise (log : dict) (e : exn) :
  bw_not_text log ->
  bw_gbps_of log = Raise e ->
  e = KeyError /\ dict_get "bw" log = Raise KeyError.
Proof.
  unfold bw_gbps_of. intros T H.
  destruct (dict_get "bw" log) as [[z|q|x]|e'] eqn:E; try discriminate H.
  - exfalso. exact (T x E).
  - pose proof (dict_get_raise _ _ _ E). subst e'.
    inversion H. split; reflexivity.
Qed.

Lemma map_outcome_inv {A B : Type} (f : A -> outcome B) (l : list A) :
  match map_outcome f l with
  | Ok _ => Forall (fun x => exists y, f x = Ok y) l
  | Raise e => Exists (fun x => f x = Raise e) l
  end.
Proof.
  induction l as [|x r IH]; cbn [map_outcome]; [constructor|].
  destruct (f x) as [y|e] eqn:E.
  - destruct (map_outcome f r) as [ys|e].
    + constructor; [exists y; exact E | exact IH].
    + apply Exists_cons_tl. exact IH.
  - apply Exists_cons_hd. exact E.
Qed.

Lemma group_by_inv (field : string) (logs : list dict) :
  Forall (fun log => exists q, bw_gbps_of log = Ok q) logs ->
  forall groups,
  match group_by field logs groups with
  | Ok _ => Forall (fun log => exists v, dict_get field log = Ok v) logs
  | Raise e => e = KeyError /\
               Exists (fun log => dict_get field log = Raise KeyError) logs
  end.
Proof.
  intro F. induction F as [|log more [q Eq] F IH]; intro groups;
    cbn [group_by]; [constructor|].
  rewrite Eq. destruct (dict_get field log) as [v|e] eqn:E.
  - specialize (IH (group_append v q groups)).
    destruct (group_by field more _) as [g|e].
    + constructor; [exists v; exact E | exact IH].
    + destruct IH as [K X]. split; [exact K | now apply Exists_cons_tl].
  - pose proof (dict_get_raise _ _ _ E). subst e.
    split; [reflexivity | now apply Exists_cons_hd].
Qed.

(** X6. If no log holds a text ["bw"] and some log lacks one of ["bw"],
    ["region"], ["domain"], [validate_logs] raises KeyError. *)
Theorem validate_logs_missing_key (logs : list dict) (target : Q) :
  Forall bw_not_text logs ->
  Exists misses_key logs ->
  validate_logs logs target = Raise KeyError.
Proof.
  intros T M. unfold validate_logs.
  pose proof (map_outcome_inv bw_gbps_of logs) as Hb.
  destruct (map_outcome bw_gbps_of logs) as [bws|e].
  - pose proof (group_by_inv "region" logs Hb []) as Hr.
    destruct (group_by "region" logs []) as [gr|e];
      [|destruct Hr as [-> _]; reflexivity].
    pose proof (group_by_inv "domain" logs Hb []) as Hd.
    destruct (group_by "domain" logs []) as [gd|e];
      [|destruct Hd as [-> _]; reflexivity].
    exfalso. rewrite Forall_forall in Hb, Hr, Hd.
    apply Exists_exists in M. destruct M as [log [I [K|[K|K]]]].
    + destruct (Hb log I) as [q Eq]. unfold bw_gbps_of in Eq.
      rewrite K in Eq. discriminate Eq.
    + destruct (Hr log I) as [v Ev]. rewrite K in Ev. discriminate Ev.
    + destruct (Hd log I) as [v Ev]. rewrite K in Ev. discriminate Ev.
  - apply Exists_exists in Hb. destruct Hb as [log [I E]].
    rewrite Forall_forall in T.
    destruct (bw_gbps_of_raise log e (T log I) E) as [-> _]. reflexivity.
Qed.

Lemma validate_logs_missing_key_witness :
  validate_logs [[("bw", VInt 20480); ("region", VStr "East");
                  ("domain", VStr "cdn.example.com")];
                 [("bw", VInt 10240); ("domain", VStr "cdn.example.com")]
                ]%string 20
  = Raise KeyError.
Proof.
  apply validate_logs_missing_key.
  - repeat constructor; intros x H; vm_compute in H; discriminate H.
  - apply Exists_cons_tl. apply Exists_cons_hd.
    right. left. reflexivity.
Defined.

(** X7. With a target of 0, [validate_logs] raises ZeroDivisionError on every
    non-empty list of logs it can read. *)
Theorem validate_logs_zero_target (log : dict) (more : list dict)
  (target : Q) :
  Forall readable_log (log :: more) ->
  (target == 0)%Q ->
  validate_logs (log :: more) target = Raise ZeroDivisionError.
Proof.
  intros F T. set (logs := log :: more) in *.
  assert (Fb : Forall (fun l => exists q, bw_gbps_of l = Ok q) logs)
    by (eapply Forall_impl; [|exact F]; intros a [A _]; exact A).
  assert (Fr : Forall (fun l => (exists q, bw_gbps_of l = Ok q) /\
                                (exists v, dict_get "region" l = Ok v)) logs)
    by (eapply Forall_impl; [|exact F]; intros a [A [B _]]; split; assumption).
  assert (Fd : Forall (fun l => (exists q, bw_gbps_of l = Ok q) /\
                                (exists v, dict_get "domain" l = Ok v)) logs)
    by (eapply Forall_impl; [|exact F]; intros a [A [_ B]]; split; assumption).
  destruct (map_outcome_ok bw_gbps_of logs Fb) as [bws [Eb Lb]].
  destruct (group_by_ok "region" logs Fr [] (Forall_nil _)) as [gr [Egr _]].
  destruct (group_by_ok "domain" logs Fd [] (Forall_nil _)) as [gd [Egd _]].
  destruct bws as [|b bs]; [discriminate Lb|].
  destruct (calculate_p95_nonempty b bs) as [s [Es _]].
  unfold validate_logs. rewrite Eb, Egr, Egd, Es.
  unfold py_div. apply Qeq_bool_iff in T. rewrite T. reflexivity.
Qed.

Lemma validate_logs_zero_target_witness :
  validate_logs [[("bw", VInt 20480); ("region", VStr "East");
                  ("domain", VStr "cdn.example.com")]%string] 0
  = Raise ZeroDivisionError.
Proof.
  apply validate_logs_zero_target.
  - repeat constructor; eexists; reflexivity.
  - reflexivity.
Defined.

(** ** BillingCalculator *)

(** X8. On an empty curve [calculate_95_billing] raises KeyError, whatever
    the unit price: the analyzer's error dict has no ["p95"]. *)
Theorem billing_empty_curve (price : Q) :
  calculate_95_billing [] price = Raise KeyError.
Proof.
  reflexivity.
Qed.

(** The estimate of [calculate_95_billing] on a non-empty curve. *)
Lemma billing_fields (x : Q) (r : list Q) (price : Q) :
  exists b s,
    calculate_95_billing (x :: r) price = Ok b /\
    calculate_p95 (x :: r) = Ok (StatsOf s) /\
    billing_stats b = s /\
    p95_bandwidth_gbps b = p95 s /\
    monthly_cost b = (p95 s * price)%Q /\
    (flux_cost_comparison b == 30 * py_sum (x :: r))%Q /\
    saving b = (flux_cost_comparison b - monthly_cost b)%Q /\
    ((0 < flux_cost_comparison b)%Q ->
     saving_percent b = (saving b / flux_cost_comparison b * 100)%Q) /\
    ((flux_cost_comparison b <= 0)%Q -> saving_percent b = 0%Q).
Proof.
  destruct (calculate_p95_nonempty x r) as [s [Es _]].
  unfold calculate_95_billing. rewrite Es. cbv zeta.
  set (cost := (py_sum (x :: r) * 300 / 8 * 0.8)%Q).
  destruct (Qltb 0 cost) eqn:G.
  - apply Qltb_true in G.
    rewrite py_div_ok
      by (intro E; rewrite E in G; exact (Qlt_irrefl _ G)).
    eexists; exists s. split; [reflexivity|].
    cbn [billing_stats p95_bandwidth_gbps monthly_cost flux_cost_comparison
         saving saving_percent].
    repeat split; try reflexivity.
    + unfold cost. field.
    + intro H. exfalso. exact (Qlt_not_le _ _ G H).
  - apply Qltb_false in G.
    eexists; exists s. split; [reflexivity|].
    cbn [billing_stats p95_bandwidth_gbps monthly_cost flux_cost_comparison
         saving saving_percent].
    repeat split; try reflexivity.
    + unfold cost. field.
    + intro H. exfalso. exact (Qlt_not_le _ _ H G).
Qed.

(** X9. On a non-empty curve [calculate_95_billing] returns an estimate and
    never divides by zero: the monthly cost is the analyzer's p95 times the
    unit price, the comparison cost is the sum of the curve times 300 / 8
    times 0.8, the saving is the comparison cost minus the monthly cost, and
    the saving percentage is saving / comparison * 100 when the comparison
    cost is positive and 0 otherwise. *)
Theorem billing_estimate (x : Q) (r : list Q) (price : Q) :
  exists b s,
    calculate_95_billing (x :: r) price = Ok b /\
    calculate_p95 (x :: r) = Ok (StatsOf s) /\
    billing_stats b = s /\
    p95_bandwidth_gbps b = p95 s /\
    monthly_cost b = (p95 s * price)%Q /\
    (flux_cost_comparison b == 30 * py_sum (x :: r))%Q /\
    saving b = (flux_cost_comparison b - monthly_cost b)%Q /\
    ((0 < flux_cost_comparison b)%Q ->
     saving_percent b = (saving b / flux_cost_comparison b * 100)%Q) /\
    ((flux_cost_comparison b <= 0)%Q -> saving_percent b = 0%Q).
Proof.
  exact (billing_fields x r price).
Qed.

Lemma py_index_ok_in {A : Type} (l : list A) (i : Z) (x : A) :
  py_index l i = Ok x -> In x l.
Proof.
  unfold py_index. destruct (_ && _); [|discriminate].
  destruct (nth_error l _) as [y|] eqn:E; [|discriminate].
  intro H. inversion H; subst y. exact (nth_error_In _ _ E).
Qed.

(** X10. On a constant curve of one or more samples the billed bandwidth is
    that constant, for every unit price: the monthly cost is the constant
    times the unit price. *)
Theorem billing_constant_curve (c price : Q) (n : nat) :
  exists b,
    calculate_95_billing (repeat c (S n)) price = Ok b /\
    p95_bandwidth_gbps b = c /\
    monthly_cost b = (c * price)%Q.
Proof.
  destruct (billing_fields c (repeat c n) price)
    as [b [s [Eb [Es [_ [Ep [Em _]]]]]]].
  exists b. split; [exact Eb|].
  assert (P : p95 s = c).
  { destruct (calculate_p95_nonempty c (repeat c n)) as [s' [Es' [_ Hp]]].
    rewrite Es in Es'. inversion Es'; subst s'.
    apply py_index_ok_in, sorted_in in Hp.
    exact (repeat_spec (S n) c _ Hp). }
  rewrite Ep, Em, P. split; reflexivity.
Qed.

(** ** MetricsDerivator: failures, histograms, ranges *)

Lemma py_div_zero (a b : Q) : (b == 0)%Q -> py_div a b = Raise ZeroDivisionError.
Proof.
  intro H. unfold py_div. apply Qeq_bool_iff in H. now rewrite H.
Qed.

(** X11. [derive] fails exactly when the object size it draws is 0 or the
    interval is 0, and then with ZeroDivisionError; otherwise it returns a
    record. *)
Theorem derive_fails_iff (cfg : Config) (bandwidth_gbps : Q) (interval : Z)
  (s : rng) :
  ((exists e, derive cfg bandwidth_gbps interval s = Raise e) <->
   ((drawn_object_size cfg s == 0)%Q \/ interval = 0)) /\
  (forall e, derive cfg bandwidth_gbps interval s = Raise e ->
             e = ZeroDivisionError).
Proof.
  assert (Fail : (drawn_object_size cfg s == 0)%Q \/ interval = 0 ->
                 derive cfg bandwidth_gbps interval s = Raise ZeroDivisionError).
  { intro H. unfold derive. rand_unfold.
    change (advance s O) with (s 1%nat).
    fold (drawn_object_size cfg s).
    destruct (Qeq_dec (drawn_object_size cfg s) 0) as [Z0|NZ].
    - rewrite (py_div_zero _ _ Z0). reflexivity.
    - rewrite (py_div_ok _ _ NZ).
      destruct H as [H|H]; [contradiction|].
      match goal with
      | |- context [derive_origin_codes ?n ?t] =>
          destruct (derive_origin_codes_ok n t) as [[[[c2 c3] c4] c5] [s1 E]];
          rewrite E
      end.
      rewrite py_div_zero; [reflexivity|].
      subst interval. reflexivity. }
  assert (Dec : ((drawn_object_size cfg s == 0)%Q \/ interval = 0) \/
                (~ (drawn_object_size cfg s == 0)%Q /\ interval <> 0)).
  { destruct (Qeq_dec (drawn_object_size cfg s) 0) as [Z0|NZ];
      [left; left; exact Z0|].
    destruct (Z.eq_dec interval 0) as [I0|NI]; [left; right; exact I0|].
    right. split; assumption. }
  split; [split|].
  - intros [e H]. destruct Dec as [D|[NZ NI]]; [exact D|].
    destruct (derive_returns cfg bandwidth_gbps interval s NI NZ)
      as [m [s' E]].
    rewrite E in H. discriminate H.
  - intro H. exists ZeroDivisionError. exact (Fail H).
  - intros e H. destruct Dec as [D|[NZ NI]].
    + rewrite (Fail D) in H. now inversion H.
    + destruct (derive_returns cfg bandwidth_gbps interval s NI NZ)
        as [m [s' E]].
      rewrite E in H. discriminate H.
Qed.

Lemma derive_origin_codes_inv (n : Z) (s s' : rng) (c2 c3 c4 c5 : Z) :
  derive_origin_codes n s = Ok ((c2, c3, c4, c5), s') ->
  (n <= 0 -> c2 = 0 /\ c3 = 0 /\ c4 = 0 /\ c5 = 0 /\ s' = s) /\
  (0 < n -> c5 = Z.max 0 (n - c2 - c4 - c3)).
Proof.
  unfold derive_origin_codes. destruct (0 <? n) eqn:E.
  - apply Z.ltb_lt in E. rand_unfold. intro H. inversion H; subst.
    split; [lia|]. intros _. apply py_maxz_spec.
  - apply Z.ltb_ge in E. rand_unfold. intro H. inversion H; subst.
    split; [repeat split | lia].
Qed.

(** X12. In every record [derive] returns, the four client status buckets sum
    to max(req_num, 2xx + 3xx + 4xx): to req_num exactly when the three drawn
    shares fit, to more when they overshoot.  The origin buckets are all 0
    when bs_num is 0 and sum to max(bs_num, 2xx + 3xx + 4xx) otherwise. *)
Theorem derive_status_buckets (cfg : Config) (bandwidth_gbps : Q)
  (interval : Z) (s s' : rng) (m : MetricRecord) :
  derive cfg bandwidth_gbps interval s = Ok (m, s') ->
  http_code_2xx m + http_code_3xx m + http_code_4xx m + http_code_5xx m
  = Z.max (req_num m)
          (http_code_2xx m + http_code_3xx m + http_code_4xx m) /\
  (bs_num m <= 0 ->
   bs_http_code_2xx m = 0 /\ bs_http_code_3xx m = 0 /\
   bs_http_code_4xx m = 0 /\ bs_http_code_5xx m = 0) /\
  (0 < bs_num m ->
   bs_http_code_2xx m + bs_http_code_3xx m + bs_http_code_4xx m
   + bs_http_code_5xx m
   = Z.max (bs_num m)
           (bs_http_code_2xx m + bs_http_code_3xx m + bs_http_code_4xx m)).
Proof.
  intro H. unfold derive in H. rand_unfold_in H.
  destruct (py_div _ _) as [per_obj|e] in H; [|discriminate H].
  destruct (derive_origin_codes _ _) as [[[[[c2 c3] c4] c5] s1]|e] eqn:Eo in H;
    [|discriminate H].
  destruct (py_div _ _) as [bs_rate|e] in H; [|discriminate H].
  apply derive_origin_codes_inv in Eo. destruct Eo as [Z0 P0].
  inversion H; subst; clear H.
  cbn [http_code_2xx http_code_3xx http_code_4xx http_code_5xx req_num bs_num
       bs_http_code_2xx bs_http_code_3xx bs_http_code_4xx bs_http_code_5xx]
    in *.
  rewrite ?py_maxz_spec in *.
  split; [lia|]. split.
  - intro N. destruct (Z0 N) as [A [B [C [D _]]]]. repeat split; assumption.
  - intro N. specialize (P0 N). lia.
Qed.

Lemma derive_status_buckets_witness :
  exists m s',
    derive (sample_config 20 1 300) 20 300 (constant_rng 0.5 0) = Ok (m, s') /\
    http_code_2xx m + http_code_3xx m + http_code_4xx m + http_code_5xx m
    = Z.max (req_num m)
            (http_code_2xx m + http_code_3xx m + http_code_4xx m).
Proof.
  destruct (derive_returns (sample_config 20 1 300) 20 300 (constant_rng 0.5 0))
    as [m [s' E]]; [lia | vm_compute; discriminate |].
  exists m, s'. split; [exact E|].
  exact (proj1 (derive_status_buckets _ _ _ _ _ _ E)).
Defined.

Lemma py_div_inv (a b r : Q) :
  py_div a b = Ok r -> r = (a / b)%Q /\ ~ (b == 0)%Q.
Proof.
  unfold py_div. destruct (Qeq_bool b 0) eqn:E; [discriminate|].
  intro H. inversion H. split; [reflexivity|].
  apply Qeq_bool_neq. exact E.
Qed.

Lemma Qdiv_nonneg (a b : Q) : (0 <= a)%Q -> (0 < b)%Q -> (0 <= a / b)%Q.
Proof.
  intros A B. apply Qle_shift_div_l; [exact B | lra].
Qed.

Lemma derive_origin_codes_range (n : Z) (t t' : rng) (c2 c3 c4 c5 : Z) :
  derive_origin_codes n t = Ok ((c2, c3, c4, c5), t') ->
  unit_draws t -> 0 <= n ->
  0 <= c2 /\ 0 <= c3 /\ 0 <= c4 /\ 0 <= c5 /\ unit_draws t'.
Proof.
  unfold derive_origin_codes. intros H U N.
  destruct (0 <? n); rand_unfold_in H; inversion H; subst; clear H.
  - cbv beta delta [advance].
    destruct (U 0%nat) as [a0 a1]. destruct (U 1%nat) as [b0 b1].
    destruct (U 2%nat) as [c0 c1].
    rewrite py_maxz_spec.
    split; [apply py_int_mul_nonneg; [exact N | lra]|].
    split; [apply py_int_mul_nonneg; [exact N | lra]|].
    split; [apply py_int_mul_nonneg; [exact N | lra]|].
    split; [lia|]. intro k. apply U.
  - split; [lia|]. split; [lia|]. split; [lia|]. split; [lia|]. exact U.
Qed.

(** The record of [derive] under well-formed inputs. *)
Lemma derive_ranges (cfg : Config) (bandwidth_gbps : Q)
  (interval : Z) (s : rng) :
  (0 <= bandwidth_gbps)%Q ->
  0 < interval ->
  realism_ranges_ok cfg ->
  unit_draws s ->
  exists m s',
    derive cfg bandwidth_gbps interval s = Ok (m, s') /\
    unit_draws s' /\
    nonneg_counts m /\
    hit_num m <= req_num m /\
    bs_fail_num m <= bs_num m /\
    bs_flux m <= flux m.
Proof.
  intros B I [[h0 [h1 h2]] [[o0 o1] [f0 [f1 f2]]]] U.
  destruct (U 0%nat) as [u00 u01]. destruct (U 1%nat) as [u10 u11].
  destruct (U 2%nat) as [u20 u21]. destruct (U 3%nat) as [u30 u31].
  destruct (U 4%nat) as [u40 u41]. destruct (U 5%nat) as [u50 u51].
  destruct (derive_returns cfg bandwidth_gbps interval s) as [m [s' E]].
  { lia. }
  { assert (R : (fst (avg_object_size_kb cfg) * 1024 <=
                 snd (avg_object_size_kb cfg) * 1024)%Q) by lra.
    destruct (uniform_range _ _ _ R u10 u11) as [L _].
    intro Z0. rewrite Z0 in L. lra. }
  exists m, s'. split; [exact E|].
  unfold derive in E. rand_unfold_in E.
  destruct (py_div _ _) as [per_obj|e] in E; [|discriminate E].
  destruct (derive_origin_codes _ _) as [[[[[c2 c3] c4] c5] s1]|e] eqn:Eo in E;
    [|discriminate E].
  destruct (py_div _ _) as [bs_rate|e] eqn:Er in E; [|discriminate E].
  apply py_div_inv in Er. destruct Er as [Er _].
  inversion E; subst m s1; clear E.
  cbv beta delta [advance] in *.
  set (chr := (fst (cache_hit_rate cfg) +
               (snd (cache_hit_rate cfg) - fst (cache_hit_rate cfg)) *
               unit_draw (s 0%nat))%Q) in *.
  set (fr := (fst (origin_fail_rate cfg) +
              (snd (origin_fail_rate cfg) - fst (origin_fail_rate cfg)) *
              unit_draw (s 2%nat))%Q) in *.
  destruct (uniform_range _ _ _ h1 u00 u01) as [C0 C1]. fold chr in C0, C1.
  destruct (uniform_range _ _ _ f1 u20 u21) as [F0 F1]. fold fr in F0, F1.
  set (fx := py_int (bandwidth_gbps * 1024 * 1024 * 1024 * inject_Z interval / 8))
    in *.
  assert (Fx : 0 <= fx).
  { unfold fx. apply py_int_nonneg. apply Qdiv_nonneg; [|reflexivity].
    apply Qmult_le_0_compat; [|apply inject_Z_nonneg; lia].
    repeat (apply Qmult_le_0_compat; [|discriminate]). exact B. }
  set (req := py_maxz 1 (py_int per_obj)) in *.
  assert (Rq : 1 <= req) by (unfold req; rewrite py_maxz_spec; lia).
  set (hits := py_int (inject_Z req * chr)) in *.
  assert (H0 : 0 <= hits <= req).
  { unfold hits. split; [apply py_int_mul_nonneg | apply py_int_mul_le];
      try lia; lra. }
  set (bsf := py_int (inject_Z fx * (1 - chr))) in *.
  assert (Bf : 0 <= bsf <= fx).
  { unfold bsf. split; [apply py_int_mul_nonneg | apply py_int_mul_le];
      try lia; lra. }
  assert (Fl : 0 <= py_int (inject_Z (req - hits) * fr) <= req - hits).
  { split; [apply py_int_mul_nonneg | apply py_int_mul_le]; try lia; lra. }
  destruct (derive_origin_codes_range _ _ _ _ _ _ _ Eo) as [P2 [P3 [P4 [P5 U']]]].
  { intro k. apply U. }
  { lia. }
  split; [exact U'|].
  unfold nonneg_counts.
  cbn [bw flux bs_bw bs_flux req_num hit_num bs_num bs_fail_num hit_flux
       http_code_2xx http_code_3xx http_code_4xx http_code_5xx
       bs_http_code_2xx bs_http_code_3xx bs_http_code_4xx bs_http_code_5xx].
  rewrite ?py_maxz_spec.
  assert (A1 : 0 <= py_int (bandwidth_gbps * 1024)).
  { apply py_int_nonneg. apply Qmult_le_0_compat; [exact B | discriminate]. }
  assert (A2 : 0 <= py_int (bs_rate / 1024 / 1024)).
  { apply py_int_nonneg. rewrite Er.
    apply Qdiv_nonneg; [|reflexivity]. apply Qdiv_nonneg; [|reflexivity].
    apply Qdiv_nonneg.
    - apply Qmult_le_0_compat; [apply inject_Z_nonneg; lia | discriminate].
    - unfold Qlt. cbn. lia. }
  assert (A3 : 0 <= py_int (inject_Z req * (0.75 + (0.90 - 0.75) * unit_draw (s 3%nat))))
    by (apply py_int_mul_nonneg; [lia | lra]).
  assert (A4 : 0 <= py_int (inject_Z req * (0.05 + (0.15 - 0.05) * unit_draw (s 4%nat))))
    by (apply py_int_mul_nonneg; [lia | lra]).
  assert (A5 : 0 <= py_int (inject_Z req * (0.02 + (0.08 - 0.02) * unit_draw (s 5%nat))))
    by (apply py_int_mul_nonneg; [lia | lra]).
  repeat split; lia.
Qed.

(** X13. For a bandwidth of at least 0, a positive interval, realism ranges
    that are ordered with rates in [0, 1] and a positive object size, and a
    generator yielding floats of [0, 1), [derive] returns a record with no
    negative count, in which hit_num <= req_num, bs_fail_num <= bs_num and
    bs_flux <= flux. *)
Theorem derive_counts_in_range (cfg : Config) (bandwidth_gbps : Q)
  (interval : Z) (s : rng) :
  (0 <= bandwidth_gbps)%Q ->
  0 < interval ->
  realism_ranges_ok cfg ->
  unit_draws s ->
  exists m s',
    derive cfg bandwidth_gbps interval s = Ok (m, s') /\
    unit_draws s' /\
    nonneg_counts m /\
    hit_num m <= req_num m /\
    bs_fail_num m <= bs_num m /\
    bs_flux m <= flux m.
Proof.
  exact (derive_ranges cfg bandwidth_gbps interval s).
Qed.

Lemma derive_counts_in_range_witness :
  exists m s',
    derive (sample_config 20 1 300) 20 300 (constant_rng 0.5 0) = Ok (m, s') /\
    nonneg_counts m /\ hit_num m <= req_num m.
Proof.
  destruct (derive_counts_in_range (sample_config 20 1 300) 20 300
              (constant_rng 0.5 0)) as [m [s' [E [_ [N [H _]]]]]].
  - discriminate.
  - lia.
  - unfold realism_ranges_ok. cbn.
    repeat split; try discriminate; reflexivity.
  - intro n. vm_compute. split; discriminate || reflexivity.
  - exists m, s'. split; [exact E | split; [exact N | exact H]].
Defined.

(** ** AnomalyInjector: what it leaves alone *)

(** The four perturbations of [inject] in sequence, each either skipped or
    applied with a float of the stream. *)
Lemma inject_chain (utc_offset : Z) (cfg : Config) (m : MetricRecord)
  (timestamp_ms : Z) (s : rng) :
  exists m1 m2 m3 m4 s4,
    inject utc_offset cfg m timestamp_ms s = Ok (m4, s4) /\
    (m1 = m \/
     (maintenance_hour (local_hour utc_offset timestamp_ms) = true /\
      exists u, (unit_draws s -> (0 <= u /\ u < 1)%Q) /\
                m1 = maintenance_result m u)) /\
    (m2 = m1 \/
     exists u, (unit_draws s -> (0 <= u /\ u < 1)%Q) /\
               m2 = outage_result m1 u) /\
    (m3 = m2 \/
     exists u, (unit_draws s -> (0 <= u /\ u < 1)%Q) /\
               m3 = purge_result m2 u) /\
    (m4 = m3 \/
     exists u, (unit_draws s -> (0 <= u /\ u < 1)%Q) /\
               m4 = abuse_result m3 u) /\
    (unit_draws s -> unit_draws s4).
Proof.
  destruct (inject_steps utc_offset cfg m timestamp_ms s)
    as [m1 [s1 [m2 [s2 [m3 [s3 [m4 [s4 [E1 [E2 [E3 [E4 E]]]]]]]]]]]].
  exists m1, m2, m3, m4, s4. split; [exact E|].
  assert (C1 : (unit_draws s -> unit_draws s1) /\
               (m1 = m \/
                (maintenance_hour (local_hour utc_offset timestamp_ms) = true /\
                 exists u, (unit_draws s -> (0 <= u /\ u < 1)%Q) /\
                           m1 = maintenance_result m u))).
  { rewrite maintenance_window_eq in E1.
    destruct (maintenance_hour _); [destruct (Qltb _ _)|];
      inversion E1; subst; (split; [auto using unit_draws_advance|]);
      try (left; reflexivity).
    right. split; [reflexivity|].
    exists (unit_draw (s 1%nat)). split; [intro U; apply U | reflexivity]. }
  destruct C1 as [U1 C1].
  destruct (origin_outage_cases cfg m1 s1) as [x [y [F2 [U2 C2]]]].
  rewrite E2 in F2. inversion F2; subst x y; clear F2.
  destruct (cache_purge_cases m2 s2) as [x [y [F3 [U3 C3]]]].
  rewrite E3 in F3. inversion F3; subst x y; clear F3.
  destruct (abuse_spike_cases m3 s3) as [x [y [F4 [U4 C4]]]].
  rewrite E4 in F4. inversion F4; subst x y; clear F4.
  split; [exact C1|].
  split; [destruct C2 as [C2|[u [B C2]]]; [left; exact C2|];
          right; exists u; split; [auto | exact C2]|].
  split; [destruct C3 as [C3|[u [B C3]]]; [left; exact C3|];
          right; exists u; split; [auto | exact C3]|].
  split; [destruct C4 as [C4|[u [B C4]]]; [left; exact C4|];
          right; exists u; split; [auto | exact C4]|].
  auto.
Qed.

(** X14. [inject] never changes the bandwidth, the traffic bytes, the origin
    bandwidth, the request count, nor the 3xx bucket and the origin 3xx and
    4xx buckets, whatever the hour and the draws. *)
Theorem inject_leaves_totals (utc_offset : Z) (cfg : Config)
  (m : MetricRecord) (timestamp_ms : Z) (s : rng) :
  exists m' s',
    inject utc_offset cfg m timestamp_ms s = Ok (m', s') /\
    bw m' = bw m /\ flux m' = flux m /\ bs_bw m' = bs_bw m /\
    req_num m' = req_num m /\
    http_code_3xx m' = http_code_3xx m /\
    bs_http_code_3xx m' = bs_http_code_3xx m /\
    bs_http_code_4xx m' = bs_http_code_4xx m.
Proof.
  destruct (inject_chain utc_offset cfg m timestamp_ms s)
    as [m1 [m2 [m3 [m4 [s4 [E [C1 [C2 [C3 [C4 _]]]]]]]]]].
  exists m4, s4. split; [exact E|].
  destruct C1 as [->|[_ [u1 [_ ->]]]];
    destruct C2 as [->|[u2 [_ ->]]];
    destruct C3 as [->|[u3 [_ ->]]];
    destruct C4 as [->|[u4 [_ ->]]];
    repeat split; reflexivity.
Qed.

(** X15. [inject] keeps hit_num + bs_num = req_num: the cache purge, the only
    perturbation that writes either count, recomputes bs_num as
    req_num - hit_num. *)
Theorem inject_keeps_request_split (utc_offset : Z) (cfg : Config)
  (m : MetricRecord) (timestamp_ms : Z) (s : rng) :
  hit_num m + bs_num m = req_num m ->
  exists m' s',
    inject utc_offset cfg m timestamp_ms s = Ok (m', s') /\
    hit_num m' + bs_num m' = req_num m'.
Proof.
  intro H.
  destruct (inject_chain utc_offset cfg m timestamp_ms s)
    as [m1 [m2 [m3 [m4 [s4 [E [C1 [C2 [C3 [C4 _]]]]]]]]]].
  exists m4, s4. split; [exact E|].
  destruct C1 as [->|[_ [u1 [_ ->]]]];
    destruct C2 as [->|[u2 [_ ->]]];
    destruct C3 as [->|[u3 [_ ->]]];
    destruct C4 as [->|[u4 [_ ->]]];
    cbn [maintenance_result outage_result purge_result abuse_result
         set_http_code_2xx set_http_code_4xx set_http_code_5xx
         set_bs_fail_num set_bs_http_code_2xx set_bs_http_code_5xx
         set_hit_num set_bs_num set_hit_flux set_bs_flux
         hit_num bs_num req_num];
    lia.
Qed.

Lemma inject_keeps_request_split_witness :
  exists m' s',
    inject 0 (sample_config 20 1 300) record_9000 10800000
           (constant_rng 0.005 0) = Ok (m', s') /\
    hit_num m' + bs_num m' = req_num m'.
Proof.
  apply (inject_keeps_request_split 0 (sample_config 20 1 300) record_9000
           10800000 (constant_rng 0.005 0)).
  reflexivity.
Defined.

(** X16. Outside the local hours 2, 3 and 4 [inject] never changes
    http_code_5xx. *)
Theorem inject_5xx_outside_maintenance (utc_offset : Z) (cfg : Config)
  (m : MetricRecord) (timestamp_ms : Z) (s : rng) :
  local_hour utc_offset timestamp_ms <> 2 ->
  local_hour utc_offset timestamp_ms <> 3 ->
  local_hour utc_offset timestamp_ms <> 4 ->
  exists m' s',
    inject utc_offset cfg m timestamp_ms s = Ok (m', s') /\
    http_code_5xx m' = http_code_5xx m.
Proof.
  intros H2 H3 H4.
  destruct (inject_chain utc_offset cfg m timestamp_ms s)
    as [m1 [m2 [m3 [m4 [s4 [E [C1 [C2 [C3 [C4 _]]]]]]]]]].
  exists m4, s4. split; [exact E|].
  assert (M : m1 = m).
  { destruct C1 as [C1|[Hh _]]; [exact C1|].
    unfold maintenance_hour in Hh.
    apply orb_true_iff in Hh. destruct Hh as [Hh|Hh].
    - apply orb_true_iff in Hh. destruct Hh as [Hh|Hh];
        apply Z.eqb_eq in Hh; contradiction.
    - apply Z.eqb_eq in Hh. contradiction. }
  subst m1.
  destruct C2 as [->|[u2 [_ ->]]];
    destruct C3 as [->|[u3 [_ ->]]];
    destruct C4 as [->|[u4 [_ ->]]];
    reflexivity.
Qed.

Lemma inject_5xx_outside_maintenance_witness :
  exists m' s',
    inject 0 (sample_config 20 1 300) record_9000 43200000
           (constant_rng 0.004 0) = Ok (m', s') /\
    http_code_5xx m' = http_code_5xx record_9000.
Proof.
  apply (inject_5xx_outside_maintenance 0 (sample_config 20 1 300)
           record_9000 43200000 (constant_rng 0.004 0));
    vm_compute; discriminate.
Defined.

(** [inject] on a record without negative counts, keeping track of the
    stream. *)
Lemma inject_nonneg_and_draws (utc_offset : Z) (cfg : Config)
  (m : MetricRecord) (timestamp_ms : Z) (s : rng) :
  nonneg_counts m ->
  unit_draws s ->
  exists m' s',
    inject utc_offset cfg m timestamp_ms s = Ok (m', s') /\
    nonneg_counts m' /\
    unit_draws s'.
Proof.
  intros N U.
  destruct (inject_chain utc_offset cfg m timestamp_ms s)
    as [m1 [m2 [m3 [m4 [s4 [E [C1 [C2 [C3 [C4 U4]]]]]]]]]].
  exists m4, s4. split; [exact E|]. split; [|auto].
  assert (N1 : nonneg_counts m1).
  { destruct C1 as [->|[_ [u [B ->]]]]; [exact N|].
    apply nonneg_maintenance; auto. }
  assert (N2 : nonneg_counts m2).
  { destruct C2 as [->|[u [B ->]]]; [exact N1|].
    apply nonneg_outage; auto. }
  assert (N3 : nonneg_counts m3).
  { destruct C3 as [->|[u [B ->]]]; [exact N2|].
    apply nonneg_purge; auto. }
  destruct C4 as [->|[u [B ->]]]; [exact N3|].
  apply nonneg_abuse; auto.
Qed.

(** X17. [derive] followed by [inject], for a bandwidth of at least 0, a
    positive interval, ordered realism ranges with rates in [0, 1] and a
    positive object size, and floats of [0, 1), returns a record with no
    negative count in which hit_num + bs_num = req_num and
    hit_flux + bs_flux = flux still hold. *)
Theorem derive_then_inject_nonneg (utc_offset : Z) (cfg : Config)
  (bandwidth_gbps : Q) (interval timestamp_ms : Z) (s : rng) :
  (0 <= bandwidth_gbps)%Q ->
  0 < interval ->
  realism_ranges_ok cfg ->
  unit_draws s ->
  exists m s1 m' s2,
    derive cfg bandwidth_gbps interval s = Ok (m, s1) /\
    inject utc_offset cfg m timestamp_ms s1 = Ok (m', s2) /\
    nonneg_counts m' /\
    hit_num m' + bs_num m' = req_num m' /\
    hit_flux m' + bs_flux m' = flux m' /\
    unit_draws s2.
Proof.
  intros B I R U.
  destruct (derive_ranges cfg bandwidth_gbps interval s B I R U)
    as [m [s1 [E [U1 [N _]]]]].
  destruct (derive_shape _ _ _ _ _ _ E) as [Hb [_ Hf]].
  destruct (inject_chain utc_offset cfg m timestamp_ms s1)
    as [m1 [m2 [m3 [m4 [s4 [Ei [C1 [C2 [C3 [C4 U4]]]]]]]]]].
  destruct (inject_nonneg_and_draws utc_offset cfg m timestamp_ms s1 N U1)
    as [m' [s2 [Ei' [N' U2]]]].
  rewrite Ei in Ei'. inversion Ei'; subst m' s2; clear Ei'.
  exists m, s1, m4, s4.
  split; [exact E|]. split; [exact Ei|]. split; [exact N'|].
  split; [|split; [|exact U2]].
  - destruct C1 as [->|[_ [u1 [_ ->]]]];
      destruct C2 as [->|[u2 [_ ->]]];
      destruct C3 as [->|[u3 [_ ->]]];
      destruct C4 as [->|[u4 [_ ->]]];
      cbn [maintenance_result outage_result purge_result abuse_result
           set_http_code_2xx set_http_code_4xx set_http_code_5xx
           set_bs_fail_num set_bs_http_code_2xx set_bs_http_code_5xx
           set_hit_num set_bs_num set_hit_flux set_bs_flux
           hit_num bs_num req_num];
      lia.
  - destruct C1 as [->|[_ [u1 [_ ->]]]];
      destruct C2 as [->|[u2 [_ ->]]];
      destruct C3 as [->|[u3 [_ ->]]];
      destruct C4 as [->|[u4 [_ ->]]];
      cbn [maintenance_result outage_result purge_result abuse_result
           set_http_code_2xx set_http_code_4xx set_http_code_5xx
           set_bs_fail_num set_bs_http_code_2xx set_bs_http_code_5xx
           set_hit_num set_bs_num set_hit_flux set_bs_flux
           hit_flux bs_flux flux];
      lia.
Qed.

Lemma derive_then_inject_nonneg_witness :
  exists m s1 m' s2,
    derive (sample_config 20 1 300) 20 300 (constant_rng 0.005 0) = Ok (m, s1) /\
    inject 0 (sample_config 20 1 300) m 10800000 s1 = Ok (m', s2) /\
    nonneg_counts m'.
Proof.
  destruct (derive_then_inject_nonneg 0 (sample_config 20 1 300) 20 300
              10800000 (constant_rng 0.005 0))
    as [m [s1 [m' [s2 [E [Ei [N _]]]]]]].
  - discriminate.
  - lia.
  - unfold realism_ranges_ok. cbn.
    repeat split; try discriminate; reflexivity.
  - intro n. vm_compute. split; discriminate || reflexivity.
  - exists m, s1, m', s2. split; [exact E | split; [exact Ei | exact N]].
Defined.

(** ** BandwidthCurveGenerator: failures, length, calibration *)

(** X18. Called with an interval of 0 to 59 seconds, [generate] raises
    ZeroDivisionError before drawing anything: interval_seconds // 60 is 0. *)
Theorem generate_interval_below_minute (sin_term : Z -> Q) (cfg : Config)
  (duration interval : Z) (s : rng) :
  0 <= interval < 60 ->
  generate sin_term cfg duration interval s = Raise ZeroDivisionError.
Proof.
  intro H. unfold generate, py_floordiv.
  change (60 =? 0) with false. rand_unfold.
  replace (interval / 60) with 0 by (symmetry; apply Z.div_small; exact H).
  reflexivity.
Qed.

Lemma generate_interval_below_minute_witness :
  generate sin_term_double (sample_config 20 1 30) 1 30 (constant_rng 0.5 0)
  = Raise ZeroDivisionError.
Proof.
  apply generate_interval_below_minute. lia.
Defined.

Lemma adjust_empty_curve (cfg : Config) :
  interval_seconds cfg / 60 <> 0 ->
  _adjust_to_target cfg [] = Raise ValueError.
Proof.
  intro H. unfold _adjust_to_target, points_per_day_of, py_floordiv.
  change (60 =? 0) with false. cbv iota.
  replace (interval_seconds cfg / 60 =? 0) with false
    by (symmetry; apply Z.eqb_neq; exact H).
  unfold daily_p95_list, py_range_step. cbn [length].
  destruct (24 * 60 / (interval_seconds cfg / 60) =? 0); [reflexivity|].
  change (Z.of_nat 0 <=? 0) with true. rewrite orb_true_r. reflexivity.
Qed.

(** X19. Called with a duration of 0 days or less and an interval of a
    minute or more, [generate] raises ValueError: the curve is empty, no day
    is counted, and the fallback max(curve) has nothing to take (with a
    configured interval above a day it is range() that refuses a step
    of 0). *)
Theorem generate_no_days (sin_term : Z -> Q) (cfg : Config)
  (duration interval : Z) (s : rng) :
  duration <= 0 ->
  60 <= interval ->
  interval_seconds cfg / 60 <> 0 ->
  generate sin_term cfg duration interval s = Raise ValueError.
Proof.
  intros D I C.
  assert (S1 : 1 <= interval / 60) by (apply Z.div_le_lower_bound; lia).
  unfold generate, py_floordiv.
  change (60 =? 0) with false. rand_unfold.
  replace (interval / 60 =? 0) with false by (symmetry; apply Z.eqb_neq; lia).
  assert (T : duration * 24 * 60 / (interval / 60) <= 0).
  { apply Z.div_le_upper_bound; lia. }
  replace (Z.to_nat (duration * 24 * 60 / (interval / 60))) with O by lia.
  cbn [generate_loop]. unfold ret.
  rewrite (adjust_empty_curve cfg C). reflexivity.
Qed.

Lemma generate_no_days_witness :
  generate sin_term_double (sample_config 20 0 300) 0 300 (constant_rng 0.5 0)
  = Raise ValueError.
Proof.
  apply generate_no_days; [lia | lia |].
  vm_compute. discriminate.
Defined.

(** The calibration pass on a curve whose first day is complete and whose
    samples are bounded below by a positive number. *)
Lemma adjust_to_target_cases (cfg : Config) (curve : list Q) (ppd : Z)
  (lo : Q) :
  let target := target_bandwidth_gbps cfg in
  points_per_day_of cfg = Ok ppd ->
  1 <= ppd <= Z.of_nat (length curve) ->
  (0 < lo)%Q ->
  Forall (fun bw => lo <= bw)%Q curve ->
  (0 < target)%Q ->
  exists daily avg curve' daily' avg',
    daily_p95_list curve ppd = Ok daily /\
    mean daily = Ok avg /\
    (0 < avg)%Q /\
    _adjust_to_target cfg curve = Ok curve' /\
    daily_p95_list curve' ppd = Ok daily' /\
    daily' <> [] /\
    mean daily' = Ok avg' /\
    ((curve' = curve /\ daily' = daily /\ avg' = avg /\
      (Qabs (avg - target) / target <= 0.02)%Q) \/
     (curve' = map (fun bw => bw * (target / avg))%Q curve /\
      (0.02 < Qabs (avg - target) / target)%Q /\
      (avg' == target)%Q)).
Proof.
  intros target Hp [P1 PL] Lo F Ht.
  destruct (daily_p95_list_ok lo curve ppd P1 PL F) as [daily [Hd [Hne Fd]]].
  destruct (mean_lower lo daily Hne Fd) as [avg [Hm La]].
  assert (Ha : (0 < avg)%Q) by lra.
  assert (Hc : curve <> [])
    by (intro E; subst curve; cbn [length] in PL; lia).
  assert (Tnz : ~ (target == 0)%Q)
    by (intro E; rewrite E in Ht; exact (Qlt_irrefl _ Ht)).
  assert (Anz : ~ (avg == 0)%Q)
    by (intro E; rewrite E in Ha; exact (Qlt_irrefl _ Ha)).
  exists daily, avg.
  unfold _adjust_to_target. fold target. rewrite Hp, Hd.
  destruct daily as [|d0 dr] eqn:Ed; [congruence|]. rewrite <- Ed in *.
  replace (match daily with [] => py_max_list curve | _ :: _ => mean daily end)
    with (mean daily) by (rewrite Ed; reflexivity).
  rewrite Hm. rewrite (py_div_ok _ target Tnz).
  destruct (Qltb 0.02 (Qabs (avg - target) / target)) eqn:G.
  - apply Qltb_true in G.
    rewrite (py_div_ok target avg Anz).
    set (scale := (target / avg)%Q).
    assert (Sp : (0 < scale)%Q).
    { unfold scale. apply Qlt_shift_div_l; [exact Ha|]. lra. }
    destruct (mean_nonempty (map (fun bw => bw * scale)%Q curve)) as [na En].
    { intro E. apply Hc. destruct curve; [reflexivity | discriminate E]. }
    rewrite En.
    destruct (mean_rescale scale daily avg Hm) as [avg' [Em' Eq]].
    exists (map (fun bw => bw * scale)%Q curve),
           (map (fun x => x * scale)%Q daily), avg'.
    split; [reflexivity|]. split; [reflexivity|]. split; [exact Ha|].
    split; [reflexivity|].
    split; [exact (daily_p95_list_rescale scale Sp curve ppd daily Hd)|].
    split; [rewrite Ed; discriminate|].
    split; [exact Em'|].
    right. split; [reflexivity|]. split; [exact G|].
    rewrite Eq. unfold scale. field. exact Anz.
  - apply Qltb_false in G.
    exists curve, daily, avg.
    split; [reflexivity|]. split; [reflexivity|]. split; [exact Ha|].
    split; [reflexivity|]. split; [exact Hd|].
    split; [rewrite Ed; discriminate|]. split; [exact Hm|].
    left. repeat split; try reflexivity. exact G.
Qed.

(** X20. [_adjust_to_target] on a curve of samples that are at least some
    positive bound, with at least one full day of points and a target above
    0: when the mean daily p95 is within 2% of the target it returns the curve
    as it is; otherwise it returns every sample times target / mean, and the
    mean daily p95 of the result equals the target exactly. *)
Theorem adjust_to_target_exact (cfg : Config) (curve : list Q) (ppd : Z)
  (lo : Q) :
  points_per_day_of cfg = Ok ppd ->
  1 <= ppd <= Z.of_nat (length curve) ->
  (0 < lo)%Q ->
  Forall (fun bw => lo <= bw)%Q curve ->
  (0 < target_bandwidth_gbps cfg)%Q ->
  exists daily avg curve' daily' avg',
    daily_p95_list curve ppd = Ok daily /\
    mean daily = Ok avg /\
    _adjust_to_target cfg curve = Ok curve' /\
    daily_p95_list curve' ppd = Ok daily' /\
    mean daily' = Ok avg' /\
    ((curve' = curve /\
      (Qabs (avg - target_bandwidth_gbps cfg) / target_bandwidth_gbps cfg
       <= 0.02)%Q) \/
     (curve' = map (fun bw => bw * (target_bandwidth_gbps cfg / avg))%Q curve /\
      (0.02 <
       Qabs (avg - target_bandwidth_gbps cfg) / target_bandwidth_gbps cfg)%Q /\
      (avg' == target_bandwidth_gbps cfg)%Q)).
Proof.
  intros Hp P Lo F Ht.
  destruct (adjust_to_target_cases cfg curve ppd lo Hp P Lo F Ht)
    as [daily [avg [curve' [daily' [avg' [Hd [Hm [_ [Ea [Hd' [_ [Hm' C]]]]]]]]]]]].
  exists daily, avg, curve', daily', avg'.
  repeat (split; [assumption|]).
  destruct C as [[C1 [_ [_ C2]]]|[C1 [C2 C3]]];
    [left; split; assumption | right; repeat split; assumption].
Qed.

Lemma adjust_to_target_exact_witness :
  exists curve' daily' avg',
    _adjust_to_target boundary_config [30; 40; 50; 60]%Q = Ok curve' /\
    daily_p95_list curve' 4 = Ok daily' /\
    mean daily' = Ok avg' /\
    (avg' == 20)%Q.
Proof.
  destruct (adjust_to_target_exact boundary_config [30; 40; 50; 60]%Q 4 30)
    as [daily [avg [curve' [daily' [avg' [Hd [Hm [Ea [Hd' [Hm' C]]]]]]]]]].
  - reflexivity.
  - cbn. lia.
  - reflexivity.
  - repeat constructor; discriminate.
  - reflexivity.
  - exists curve', daily', avg'. repeat (split; [assumption|]).
    destruct C as [[_ C]|[_ [_ C]]]; [|exact C].
    exfalso. vm_compute in Hd. inversion Hd; subst daily.
    vm_compute in Hm. inversion Hm; subst avg.
    vm_compute in C. apply C. reflexivity.
Defined.

(** X21. [_adjust_to_target] is idempotent on a curve of samples that are at
    least some positive bound, with at least one full day of points and a
    target above 0: run on its own result it returns that result unchanged. *)
Theorem adjust_to_target_idempotent (cfg : Config) (curve : list Q) (ppd : Z)
  (lo : Q) :
  points_per_day_of cfg = Ok ppd ->
  1 <= ppd <= Z.of_nat (length curve) ->
  (0 < lo)%Q ->
  Forall (fun bw => lo <= bw)%Q curve ->
  (0 < target_bandwidth_gbps cfg)%Q ->
  exists curve',
    _adjust_to_target cfg curve = Ok curve' /\
    _adjust_to_target cfg curve' = Ok curve'.
Proof.
  intros Hp P Lo F Ht.
  destruct (adjust_to_target_cases cfg curve ppd lo Hp P Lo F Ht)
    as [daily [avg [curve' [daily' [avg' [Hd [Hm [Ha [Ea [Hd' [Ne' [Hm' C]]]]]]]]]]]].
  exists curve'. split; [exact Ea|].
  assert (Tnz : ~ (target_bandwidth_gbps cfg == 0)%Q)
    by (intro E; rewrite E in Ht; exact (Qlt_irrefl _ Ht)).
  assert (B : (Qabs (avg' - target_bandwidth_gbps cfg)
               / target_bandwidth_gbps cfg <= 0.02)%Q).
  { destruct C as [[_ [_ [-> C]]]|[_ [_ C]]]; [exact C|].
    apply Qabs_zero_ratio. exact C. }
  unfold _adjust_to_target. rewrite Hp, Hd'.
  destruct daily' as [|d0 dr] eqn:Ed; [congruence|]. rewrite <- Ed in *.
  replace (match daily' with [] => py_max_list curve' | _ :: _ => mean daily' end)
    with (mean daily') by (rewrite Ed; reflexivity).
  rewrite Hm'. rewrite (py_div_ok _ _ Tnz).
  apply Qltb_false in B. rewrite B. reflexivity.
Qed.

Lemma adjust_to_target_idempotent_witness :
  exists curve',
    _adjust_to_target boundary_config [30; 40; 50; 60]%Q = Ok curve' /\
    _adjust_to_target boundary_config curve' = Ok curve'.
Proof.
  apply (adjust_to_target_idempotent boundary_config [30; 40; 50; 60]%Q 4 30).
  - reflexivity.
  - cbn. lia.
  - reflexivity.
  - repeat constructor; discriminate.
  - reflexivity.
Defined.

(** ** A full run *)

Lemma generate_point_draws (sin_term : Z -> Q) (cfg : Config)
  (duration step i : Z) (s : rng) :
  exists bw s',
    generate_point sin_term cfg duration step i s = Ok (bw, s') /\
    (0.1 <= bw)%Q /\
    (unit_draws s -> unit_draws s').
Proof.
  unfold generate_point. rand_unfold.
  destruct (Qltb _ (burst_probability cfg)); rand_unfold;
    eexists; eexists;
    (split; [reflexivity | split; [apply py_max_floor|]]);
    intros U n; apply U.
Qed.

Lemma generate_loop_draws (sin_term : Z -> Q) (cfg : Config)
  (duration step : Z) (n : nat) :
  forall (i : Z) (s : rng),
  exists curve s',
    generate_loop sin_term cfg duration step i n s = Ok (curve, s') /\
    length curve = n /\
    Forall (fun bw => 0.1 <= bw)%Q curve /\
    (unit_draws s -> unit_draws s').
Proof.
  induction n as [|n IH]; intros i s.
  - exists [], s. split; [reflexivity|]. split; [reflexivity|].
    split; [constructor | auto].
  - destruct (generate_point_draws sin_term cfg duration step i s)
      as [bw [s1 [E1 [B U1]]]].
    destruct (IH (i + 1) s1) as [rest [s2 [E2 [L [F U2]]]]].
    exists (bw :: rest), s2. split; [|split; [|split]].
    + cbn [generate_loop]. unfold bind at 1. rewrite E1.
      unfold bind at 1. rewrite E2. reflexivity.
    + simpl. now rewrite L.
    + constructor; assumption.
    + auto.
Qed.

(** The curve of [generate] for a well-formed configuration. *)
Lemma generate_result (sin_term : Z -> Q) (cfg : Config) (s : rng) :
  (0 < target_bandwidth_gbps cfg)%Q ->
  1 <= duration_days cfg ->
  60 <= interval_seconds cfg <= 86400 ->
  exists curve s',
    generate sin_term cfg (duration_days cfg) (interval_seconds cfg) s
    = Ok (curve, s') /\
    Z.of_nat (length curve)
    = duration_days cfg * 24 * 60 / (interval_seconds cfg / 60) /\
    Forall (fun bw => 0 < bw)%Q curve /\
    (unit_draws s -> unit_draws s').
Proof.
  intros Ht Hd Hi.
  set (step := interval_seconds cfg / 60).
  assert (S1 : 1 <= step <= 1440).
  { unfold step. split.
    - apply Z.div_le_lower_bound; lia.
    - apply Z.div_le_upper_bound; lia. }
  set (total := duration_days cfg * 24 * 60 / step).
  set (ppd := 24 * 60 / step).
  assert (P1 : 1 <= ppd) by (apply Z.div_le_lower_bound; lia).
  assert (PT : ppd <= total) by (apply Z.div_le_mono; lia).
  destruct (generate_loop_draws sin_term cfg (duration_days cfg) step
              (Z.to_nat total) 0 s) as [raw [s' [E [L [F U]]]]].
  assert (Hp : points_per_day_of cfg = Ok ppd).
  { unfold points_per_day_of, py_floordiv. fold step.
    change (60 =? 0) with false. cbv iota.
    replace (step =? 0) with false by (symmetry; apply Z.eqb_neq; lia).
    reflexivity. }
  destruct (adjust_to_target_cases cfg raw ppd 0.1 Hp)
    as [daily [avg [curve [daily' [avg' [_ [_ [Ha [Ea [_ [_ [_ C]]]]]]]]]]]];
    [rewrite L; lia | reflexivity | exact F | exact Ht |].
  exists curve, s'. split; [|split; [|split; [|exact U]]].
  - unfold generate, py_floordiv. fold step.
    change (60 =? 0) with false. rand_unfold.
    replace (step =? 0) with false by (symmetry; apply Z.eqb_neq; lia).
    fold total. rewrite E, Ea. reflexivity.
  - destruct C as [[-> _]|[-> _]]; rewrite ?length_map, L; lia.
  - destruct C as [[-> _]|[-> _]].
    + eapply Forall_impl; [|exact F]. intros a A. cbv beta in A. lra.
    + apply Forall_map. eapply Forall_impl; [|exact F].
      intros a A. cbv beta in A.
      apply Qmult_lt_0_compat; [lra|].
      apply Qlt_shift_div_l; [exact Ha | lra].
Qed.

(** X22. For a target above 0, a duration of at least one day and an interval
    of 60 to 86400 seconds, [generate] returns
    duration_days * 24 * 60 // (interval_seconds // 60) samples, every one
    above 0. *)
Theorem generate_curve_length (sin_term : Z -> Q) (cfg : Config) (s : rng) :
  (0 < target_bandwidth_gbps cfg)%Q ->
  1 <= duration_days cfg ->
  60 <= interval_seconds cfg <= 86400 ->
  exists curve s',
    generate sin_term cfg (duration_days cfg) (interval_seconds cfg) s
    = Ok (curve, s') /\
    Z.of_nat (length curve)
    = duration_days cfg * 24 * 60 / (interval_seconds cfg / 60) /\
    Forall (fun bw => 0 < bw)%Q curve.
Proof.
  intros Ht Hd Hi.
  destruct (generate_result sin_term cfg s Ht Hd Hi)
    as [curve [s' [E [L [F _]]]]].
  exists curve, s'. repeat split; assumption.
Qed.

Lemma generate_curve_length_witness :
  exists curve s',
    generate sin_term_double round_trip_config 1 300 (constant_rng 0.5 0)
    = Ok (curve, s') /\
    Z.of_nat (length curve) = 288.
Proof.
  destruct (generate_curve_length sin_term_double round_trip_config
              (constant_rng 0.5 0)) as [curve [s' [E [L _]]]].
  - reflexivity.
  - cbn. lia.
  - cbn. lia.
  - exists curve, s'. split; [exact E | exact L].
Defined.

Lemma metrics_dict_keys (m : MetricRecord) :
  NoDup (map fst (metrics_dict m)) /\
  (forall k, In k tag_keys -> ~ In k (map fst (metrics_dict m))).
Proof.
  split.
  - cbn [metrics_dict map fst].
    repeat constructor; simpl; intuition discriminate.
  - intros k I J. cbn [metrics_dict map fst] in J. simpl in I.
    repeat (destruct I as [I|I]; [subst k; simpl in J; intuition discriminate|]).
    exact I.
Qed.

Lemma metrics_entry_readable (cfg : Config) (timestamp_ms : Z)
  (region_info : Region) (domain : string) (a : Q) (m : MetricRecord) :
  readable_log (entry_tags cfg timestamp_ms region_info domain
                ++ region_metrics_of a (metrics_dict m)).
Proof.
  unfold readable_log. repeat split; eexists; reflexivity.
Qed.

Lemma distribute_loop_metrics (cfg : Config) (m : MetricRecord)
  (timestamp_ms : Z) :
  domains cfg <> [] ->
  forall (todo : list Region) (s : rng),
  exists entries s',
    distribute_loop cfg (metrics_dict m) timestamp_ms todo s
    = Ok (entries, s') /\
    length entries = length todo /\
    Forall readable_log entries /\
    (unit_draws s -> unit_draws s').
Proof.
  intros D todo. destruct (metrics_dict_keys m) as [N F].
  induction todo as [|r more IH]; intro s.
  - exists [], s. split; [reflexivity|]. split; [reflexivity|].
    split; [constructor | auto].
  - destruct (IH (advance (advance s))) as [rest [s' [E [L [R U]]]]].
    destruct (choice_nonempty (domains cfg) EmptyString (advance s) D)
      as [C _].
    eexists; exists s'. split; [|split; [|split]].
    + cbn [distribute_loop]. rand_unfold. rewrite C, E. reflexivity.
    + simpl. now rewrite L.
    + constructor; [|exact R].
      rewrite (log_entry_of_fresh _ _ _ _ _ _ N F).
      apply metrics_entry_readable.
    + intro V. apply U. intro n. apply V.
Qed.

Lemma full_month_loop_ok (utc_offset : Z) (cfg : Config) (interval : Z)
  (curve : list Q) :
  0 < interval ->
  realism_ranges_ok cfg ->
  domains cfg <> [] ->
  Forall (fun bw => 0 < bw)%Q curve ->
  forall (i : Z) (s : rng),
  unit_draws s ->
  exists logs s',
    full_month_loop utc_offset cfg interval i curve s = Ok (logs, s') /\
    length logs = (length curve * length (regions cfg))%nat /\
    Forall readable_log logs /\
    unit_draws s'.
Proof.
  intros I R D F. induction F as [|bw more B F IH]; intros i s U.
  - exists [], s. split; [reflexivity|]. split; [reflexivity|].
    split; [constructor | exact U].
  - destruct (derive_ranges cfg bw interval s) as [m [s1 [E1 [U1 [N _]]]]];
      [lra | exact I | exact R | exact U |].
    destruct (inject_nonneg_and_draws utc_offset cfg m
                (timestamp_ms_of utc_offset cfg interval i) s1 N U1)
      as [m' [s2 [E2 [_ U2]]]].
    destruct (distribute_loop_metrics cfg m'
                (timestamp_ms_of utc_offset cfg interval i) D (regions cfg) s2)
      as [entries [s3 [E3 [L3 [R3 U3]]]]].
    destruct (IH (i + 1) s3 (U3 U2)) as [rest [s4 [E4 [L4 [R4 U4]]]]].
    exists (entries ++ rest), s4. split; [|split; [|split]].
    + cbn [full_month_loop]. unfold bind at 1. rewrite E1.
      unfold bind at 1. rewrite E2.
      unfold bind at 1. unfold distribute. rewrite E3.
      unfold bind at 1. rewrite E4. reflexivity.
    + rewrite length_app, L3, L4. cbn [length]. lia.
    + apply Forall_app. split; assumption.
    + exact U4.
Qed.

(** A full run of [generate_full_month] for a well-formed configuration. *)
Lemma full_month_result (sin_term : Z -> Q) (utc_offset : Z)
  (cfg : Config) (s : rng) :
  (0 < target_bandwidth_gbps cfg)%Q ->
  1 <= duration_days cfg ->
  60 <= interval_seconds cfg <= 86400 ->
  realism_ranges_ok cfg ->
  domains cfg <> [] ->
  unit_draws s ->
  exists logs stats s',
    generate_full_month sin_term utc_offset cfg s = Ok ((logs, stats), s') /\
    Z.of_nat (length logs)
    = duration_days cfg * 24 * 60 / (interval_seconds cfg / 60)
      * Z.of_nat (length (regions cfg)) /\
    summary_total_points stats
    = duration_days cfg * 24 * 60 / (interval_seconds cfg / 60) /\
    Forall readable_log logs /\
    unit_draws s'.
Proof.
  intros Ht Hd Hi R D U.
  destruct (generate_result sin_term cfg s Ht Hd Hi)
    as [curve [s1 [E1 [L1 [F1 U1]]]]].
  assert (T1 : 1 <= duration_days cfg * 24 * 60 / (interval_seconds cfg / 60)).
  { assert (S1 : 1 <= interval_seconds cfg / 60 <= 1440).
    { split; [apply Z.div_le_lower_bound | apply Z.div_le_upper_bound]; lia. }
    apply Z.div_le_lower_bound; lia. }
  destruct curve as [|x r]; [cbn [length] in L1; lia|].
  destruct (summary_stats_nonempty x r (interval_seconds cfg))
    as [stats [Es _]].
  destruct (full_month_loop_ok utc_offset cfg (interval_seconds cfg) (x :: r))
    with (i := 0) (s := s1) as [logs [s2 [E2 [L2 [R2 U2]]]]];
    [lia | exact R | exact D | exact F1 | exact (U1 U) |].
  assert (Ts : summary_total_points stats = Z.of_nat (length (x :: r))).
  { pose proof (summary_stats_fields x r (interval_seconds cfg)) as Fs.
    cbv zeta in Fs. rewrite Es in Fs. inversion Fs. reflexivity. }
  exists logs, stats, s2. split; [|split; [|split; [|split]]].
  - unfold generate_full_month. unfold bind at 1. rewrite E1.
    unfold bind at 1. unfold lift. rewrite Es.
    unfold bind, ret. rewrite E2. reflexivity.
  - rewrite L2, Nat2Z.inj_mul, L1. reflexivity.
  - rewrite Ts. exact L1.
  - exact R2.
  - exact U2.
Qed.

(** X23. For a well-formed configuration (target above 0, at least one day,
    interval of 60 to 86400 seconds, ordered realism ranges with rates in
    [0, 1] and a positive object size, a non-empty domain list) and floats of
    [0, 1), [generate_full_month] returns; it yields one log per sample and
    region, total_points * len(regions) in all, and its summary counts
    total_points = duration_days * 24 * 60 // (interval_seconds // 60)
    samples. *)
Theorem generate_full_month_log_count (sin_term : Z -> Q) (utc_offset : Z)
  (cfg : Config) (s : rng) :
  (0 < target_bandwidth_gbps cfg)%Q ->
  1 <= duration_days cfg ->
  60 <= interval_seconds cfg <= 86400 ->
  realism_ranges_ok cfg ->
  domains cfg <> [] ->
  unit_draws s ->
  exists logs stats s',
    generate_full_month sin_term utc_offset cfg s = Ok ((logs, stats), s') /\
    Z.of_nat (length logs)
    = duration_days cfg * 24 * 60 / (interval_seconds cfg / 60)
      * Z.of_nat (length (regions cfg)) /\
    summary_total_points stats
    = duration_days cfg * 24 * 60 / (interval_seconds cfg / 60).
Proof.
  intros Ht Hd Hi R D U.
  destruct (full_month_result sin_term utc_offset cfg s Ht Hd Hi R D U)
    as [logs [stats [s' [E [L [T _]]]]]].
  exists logs, stats, s'. repeat split; assumption.
Qed.

Lemma generate_full_month_log_count_witness :
  exists logs stats s',
    generate_full_month sin_term_double 0 three_region_config
                        (constant_rng 0.5 0) = Ok ((logs, stats), s') /\
    Z.of_nat (length logs) = 864 /\
    summary_total_points stats = 288.
Proof.
  destruct (generate_full_month_log_count sin_term_double 0
              three_region_config (constant_rng 0.5 0))
    as [logs [stats [s' [E [L T]]]]].
  - reflexivity.
  - cbn. lia.
  - cbn. lia.
  - unfold realism_ranges_ok. cbn.
    repeat split; try discriminate; reflexivity.
  - discriminate.
  - intro n. vm_compute. split; discriminate || reflexivity.
  - exists logs, stats, s'. split; [exact E | split; [exact L | exact T]].
Defined.

(** X24. The logs of a full run are always readable by the validator: for a
    well-formed configuration (target above 0, at least one day, interval of
    60 to 86400 seconds, ordered realism ranges, non-empty domain and region
    lists), floats of [0, 1) and a validation target other than 0,
    [validate_logs] on the logs of [generate_full_month] returns a report
    whose overall statistics, per-region groups and per-domain groups each
    count every log. *)
Theorem full_run_is_validated (sin_term : Z -> Q) (utc_offset : Z)
  (cfg : Config) (s : rng) (target : Q) :
  (0 < target_bandwidth_gbps cfg)%Q ->
  1 <= duration_days cfg ->
  60 <= interval_seconds cfg <= 86400 ->
  realism_ranges_ok cfg ->
  domains cfg <> [] ->
  regions cfg <> [] ->
  unit_draws s ->
  ~ (target == 0)%Q ->
  exists logs stats s' report,
    generate_full_month sin_term utc_offset cfg s = Ok ((logs, stats), s') /\
    validate_logs logs target = Ok report /\
    total_points (overall report) = Z.of_nat (length logs) /\
    grouped_points (by_region report) = Z.of_nat (length logs) /\
    grouped_points (by_domain report) = Z.of_nat (length logs).
Proof.
  intros Ht Hd Hi R D G U T.
  destruct (full_month_result sin_term utc_offset cfg s Ht Hd Hi R D U)
    as [logs [stats [s' [E [L [_ [F _]]]]]]].
  assert (T1 : 1 <= duration_days cfg * 24 * 60 / (interval_seconds cfg / 60)).
  { assert (S1 : 1 <= interval_seconds cfg / 60 <= 1440).
    { split; [apply Z.div_le_lower_bound | apply Z.div_le_upper_bound]; lia. }
    apply Z.div_le_lower_bound; lia. }
  assert (G1 : 1 <= Z.of_nat (length (regions cfg)))
    by (destruct (regions cfg); [congruence | cbn [length]; lia]).
  destruct logs as [|log more]; [cbn [length] in L; nia|].
  destruct (validate_logs_readable log more target F T)
    as [report [Ev [Tp [_ [_ [_ [_ [_ [Pr Pd]]]]]]]]].
  exists (log :: more), stats, s', report.
  repeat split; assumption.
Qed.

Lemma full_run_is_validated_witness :
  exists logs stats s' report,
    generate_full_month sin_term_double 0 three_region_config
                        (constant_rng 0.5 0) = Ok ((logs, stats), s') /\
    validate_logs logs 20 = Ok report /\
    total_points (overall report) = Z.of_nat (length logs).
Proof.
  destruct (full_run_is_validated sin_term_double 0 three_region_config
              (constant_rng 0.5 0) 20)
    as [logs [stats [s' [report [E [V [T _]]]]]]].
  - reflexivity.
  - cbn. lia.
  - cbn. lia.
  - unfold realism_ranges_ok. cbn.
    repeat split; try discriminate; reflexivity.
  - discriminate.
  - discriminate.
  - intro n. vm_compute. split; discriminate || reflexivity.
  - discriminate.
  - exists logs, stats, s', report.
    split; [exact E | split; [exact V | exact T]].
Defined.

(** ** MultiDimensionDistributor: the edges *)

(** X25. With an empty domain list and at least one region, [distribute]
    raises IndexError (random.choice on an empty list); with no region it
    returns no entry and draws nothing. *)
Theorem distribute_empty_lists (cfg : Config) (gm : dict) (timestamp_ms : Z)
  (s : rng) :
  (domains cfg = [] -> regions cfg <> [] ->
   distribute cfg gm timestamp_ms s = Raise IndexError) /\
  (regions cfg = [] -> distribute cfg gm timestamp_ms s = Ok ([], s)).
Proof.
  unfold distribute. split.
  - intros D R. destruct (regions cfg) as [|r more]; [congruence|].
    cbn [distribute_loop]. rand_unfold. unfold choice. rewrite D.
    destruct (index_draw _ mod length (@nil string))%nat; reflexivity.
  - intros ->. reflexivity.
Qed.

Lemma distribute_empty_lists_witness :
  distribute no_domain_config (metrics_dict record_9000) 0
             (constant_rng 0.5 0)
  = Raise IndexError.
Proof.
  apply (distribute_empty_lists no_domain_config
           (metrics_dict record_9000) 0 (constant_rng 0.5 0)).
  - reflexivity.
  - discriminate.
Defined.

Lemma dict_get_set (k k' : string) (v : value) (d : dict) :
  dict_get k (dict_set k' v d) =
  if String.eqb k k' then Ok v else dict_get k d.
Proof.
  induction d as [|[k0 v0] r IH]; cbn [dict_set dict_get].
  - destruct (String.eqb k k'); reflexivity.
  - destruct (String.eqb k' k0) eqn:E; cbn [dict_get].
    + apply String.eqb_eq in E. subst k0.
      destruct (String.eqb k k'); reflexivity.
    + destruct (String.eqb k k0) eqn:E0.
      * apply String.eqb_eq in E0. subst k0.
        rewrite String.eqb_sym in E. rewrite E. reflexivity.
      * exact IH.
Qed.

Lemma dict_get_absent (k : string) (d : dict) :
  ~ In k (map fst d) -> dict_get k d = Raise KeyError.
Proof.
  induction d as [|[k0 v0] r IH]; cbn [dict_get map fst]; [reflexivity|].
  intro H. destruct (String.eqb k k0) eqn:E.
  - apply String.eqb_eq in E. exfalso. apply H. left. now symmetry.
  - apply IH. intro I. apply H. now right.
Qed.

(** [{**d, **e}[k]]: the value of [e] when it has the key, else that of
    [d]. *)
Lemma dict_get_update (k : string) (e : dict) :
  NoDup (map fst e) ->
  forall d,
  dict_get k (dict_update d e) =
  match dict_get k e with
  | Ok v => Ok v
  | Raise _ => dict_get k d
  end.
Proof.
  unfold dict_update. intro N.
  induction e as [|[k0 v0] r IH]; intro d; cbn [fold_left dict_get fst snd].
  - reflexivity.
  - inversion N as [|x l Hx Nr]; subst.
    rewrite (IH Nr). rewrite dict_get_set.
    destruct (String.eqb k k0) eqn:E.
    + apply String.eqb_eq in E. subst k0.
      rewrite (dict_get_absent k r Hx). reflexivity.
    + reflexivity.
Qed.

Lemma dict_get_region_metrics (k : string) (a : Q) (gm : dict) :
  dict_get k (region_metrics_of a gm) =
  match dict_get k gm with
  | Ok v => Ok (scale_value a v)
  | Raise e => Raise e
  end.
Proof.
  unfold region_metrics_of.
  induction gm as [|[k0 v0] r IH]; cbn [map dict_get fst snd]; [reflexivity|].
  destruct (String.eqb k k0); [reflexivity | exact IH].
Qed.

(** X26. In a log entry the fields of the source record win over the tags:
    for a source dict with distinct keys, every key of the source reads, in
    the entry, as the source value scaled (an int) or unchanged (anything
    else), also when the key is one of the six tag keys; a key the source
    lacks reads as in the tags. *)
Theorem log_entry_source_fields_win (cfg : Config) (timestamp_ms : Z)
  (region_info : Region) (domain : string) (a : Q) (gm : dict) (k : string) :
  NoDup (map fst gm) ->
  dict_get k (log_entry_of cfg timestamp_ms region_info domain
                (region_metrics_of a gm)) =
  match dict_get k gm with
  | Ok v => Ok (scale_value a v)
  | Raise _ => dict_get k (entry_tags cfg timestamp_ms region_info domain)
  end.
Proof.
  intro N. unfold log_entry_of. fold (entry_tags cfg timestamp_ms region_info domain).
  rewrite dict_get_update by (rewrite region_metrics_keys; exact N).
  rewrite dict_get_region_metrics.
  destruct (dict_get k gm); reflexivity.
Qed.

Lemma log_entry_source_fields_win_witness :
  dict_get "interval"
    (log_entry_of three_region_config 0 (mkRegion "CN" "East" 0.5) "d"
       (region_metrics_of 0.5 [("interval", VInt 60)]%string))
  = Ok (VInt 30).
Proof.
  rewrite (log_entry_source_fields_win three_region_config 0
             (mkRegion "CN" "East" 0.5) "d" 0.5
             [("interval", VInt 60)]%string "interval").
  - reflexivity.
  - repeat constructor. simpl. tauto.
Defined.

(** ** LogPusher *)

(** One call of [push_single]. *)
Lemma push_single_cases (log_entry : dict) (dry_run : bool) (p : Pusher) :
  let '((success, msg), p') := push_single log_entry dry_run p in
  stat_total (push_stats p') = stat_total (push_stats p) /\
  (dry_run = true -> success = true /\ p' = p) /\
  (dry_run = false ->
   posted p' = posted p ++ [log_entry] /\
   wire p' = (fun n => wire p (S n)) /\
   ((success = true /\ (exists t, wire p O = Response 200 t) /\
     stat_success (push_stats p') = stat_success (push_stats p) + 1 /\
     stat_failed (push_stats p') = stat_failed (push_stats p)) \/
    (success = false /\ (forall t, wire p O <> Response 200 t) /\
     stat_success (push_stats p') = stat_success (push_stats p) /\
     stat_failed (push_stats p') = stat_failed (push_stats p) + 1))).
Proof.
  unfold push_single. destruct dry_run.
  - split; [reflexivity|]. split; [split; reflexivity | discriminate].
  - unfold session_post. destruct (wire p O) as [code text|message] eqn:W.
    + destruct (code =? 200) eqn:C.
      * apply Z.eqb_eq in C. subst code.
        split; [reflexivity|]. split; [discriminate|]. intros _.
        split; [reflexivity|]. split; [reflexivity|]. left.
        split; [reflexivity|]. split; [exists text; reflexivity|].
        split; reflexivity.
      * apply Z.eqb_neq in C.
        split; [reflexivity|]. split; [discriminate|]. intros _.
        split; [reflexivity|]. split; [reflexivity|]. right.
        split; [reflexivity|].
        split; [intros t E; inversion E; contradiction|].
        split; reflexivity.
    + split; [reflexivity|]. split; [discriminate|]. intros _.
      split; [reflexivity|]. split; [reflexivity|]. right.
      split; [reflexivity|]. split; [intros t E; discriminate E|].
      split; reflexivity.
Qed.

Lemma push_batch_loop_spec (log_entries : list dict) (dry_run : bool) :
  forall (i : Z) (r : BatchResult) (p : Pusher),
  let '(r', p') := push_batch_loop log_entries i dry_run r p in
  batch_success r' + batch_failed r'
  = batch_success r + batch_failed r + Z.of_nat (length log_entries) /\
  batch_success r <= batch_success r' /\
  batch_failed r <= batch_failed r' /\
  Z.of_nat (length (batch_errors r')) - Z.of_nat (length (batch_errors r))
  = batch_failed r' - batch_failed r /\
  stat_total (push_stats p') = stat_total (push_stats p) /\
  (dry_run = true -> p' = p /\ batch_failed r' = batch_failed r) /\
  (dry_run = false ->
   posted p' = posted p ++ log_entries /\
   stat_success (push_stats p') - stat_success (push_stats p)
   = batch_success r' - batch_success r /\
   stat_failed (push_stats p') - stat_failed (push_stats p)
   = batch_failed r' - batch_failed r /\
   ((forall n, exists t, wire p n = Response 200 t) ->
    batch_failed r' = batch_failed r /\
    (forall n, exists t, wire p' n = Response 200 t))).
Proof.
  induction log_entries as [|e more IH]; intros i r p.
  - cbn [push_batch_loop length]. rewrite app_nil_r.
    repeat split; try lia; auto.
  - cbn [push_batch_loop].
    pose proof (push_single_cases e dry_run p) as S.
    destruct (push_single e dry_run p) as [[success msg] p1].
    destruct S as [T1 [D1 N1]].
    match goal with
    | |- context [push_batch_loop more (i + 1) dry_run ?r1 p1] =>
        specialize (IH (i + 1) r1 p1);
        destruct (push_batch_loop more (i + 1) dry_run r1 p1) as [r' p'];
        set (rr := r1) in *
    end.
    destruct IH as [A [B [C [E [T [D N]]]]]].
    cbn [length]. rewrite Nat2Z.inj_succ.
    assert (R1 : batch_success rr + batch_failed rr
                 = batch_success r + batch_failed r + 1 /\
                 batch_success r <= batch_success rr /\
                 batch_failed r <= batch_failed rr /\
                 Z.of_nat (length (batch_errors rr))
                 - Z.of_nat (length (batch_errors r))
                 = batch_failed rr - batch_failed r /\
                 (success = true -> batch_failed rr = batch_failed r /\
                                    batch_success rr = batch_success r + 1) /\
                 (success = false -> batch_failed rr = batch_failed r + 1 /\
                                     batch_success rr = batch_success r)).
    { unfold rr. destruct success;
        cbn [batch_success batch_failed batch_errors];
        rewrite ?length_app; cbn [length];
        repeat split; try lia; try discriminate. }
    destruct R1 as [R1 [R2 [R3 [R4 [R5 R6]]]]].
    split; [lia|]. split; [lia|]. split; [lia|]. split; [lia|].
    split; [congruence|]. split.
    + intro Hd. destruct (D1 Hd) as [Hs Hp]. destruct (D Hd) as [Dp Df].
      destruct (R5 Hs) as [R5a _]. split; [congruence | lia].
    + intro Hd. destruct (N1 Hd) as [P1 [W1 Cs]].
      destruct (N Hd) as [P2 [S2 [F2 A2]]].
      split; [rewrite P2, P1, <- app_assoc; reflexivity|].
      assert (Cs' : (stat_success (push_stats p1) - stat_success (push_stats p)
                     = batch_success rr - batch_success r) /\
                    (stat_failed (push_stats p1) - stat_failed (push_stats p)
                     = batch_failed rr - batch_failed r)).
      { destruct Cs as [[Hs [_ [Q1 Q2]]]|[Hs [_ [Q1 Q2]]]].
        - destruct (R5 Hs). lia.
        - destruct (R6 Hs). lia. }
      destruct Cs' as [Q1 Q2].
      split; [lia|]. split; [lia|].
      intro All.
      assert (All1 : forall n, exists t, wire p1 n = Response 200 t)
        by (intro n; rewrite W1; apply All).
      destruct (A2 All1) as [Fz All'].
      split; [|exact All'].
      destruct Cs as [[Hs _]|[Hs [Bad _]]].
      * destruct (R5 Hs). lia.
      * destruct (All O) as [t Et]. exfalso. exact (Bad t Et).
Qed.

(** X27. [push_batch] accounts for every entry: success + failed is the
    number of entries, the list of errors has one item per failure, and
    [stats["total"]] grows by the number of entries.  In a dry run every entry
    counts as a success, nothing is posted and the success and failure
    counters of the pusher stay as they are; otherwise every entry is posted
    once, in order, and the counters grow by the successes and the failures
    of the batch. *)
Theorem push_batch_accounts (log_entries : list dict) (dry_run : bool)
  (p : Pusher) :
  let '(r, p') := push_batch log_entries dry_run p in
  batch_success r + batch_failed r = Z.of_nat (length log_entries) /\
  0 <= batch_success r /\ 0 <= batch_failed r /\
  Z.of_nat (length (batch_errors r)) = batch_failed r /\
  stat_total (push_stats p')
  = stat_total (push_stats p) + Z.of_nat (length log_entries) /\
  (dry_run = true ->
   batch_success r = Z.of_nat (length log_entries) /\
   posted p' = posted p /\ wire p' = wire p /\
   stat_success (push_stats p') = stat_success (push_stats p) /\
   stat_failed (push_stats p') = stat_failed (push_stats p)) /\
  (dry_run = false ->
   posted p' = posted p ++ log_entries /\
   stat_success (push_stats p') = stat_success (push_stats p) + batch_success r /\
   stat_failed (push_stats p') = stat_failed (push_stats p) + batch_failed r).
Proof.
  unfold push_batch.
  pose proof (push_batch_loop_spec log_entries dry_run 0
                (mkBatchResult 0 0 [])
                (count_total (Z.of_nat (length log_entries)) p)) as S.
  destruct (push_batch_loop _ _ _ _ _) as [r p'].
  cbn [batch_success batch_failed batch_errors length count_total push_stats
       stat_total stat_success stat_failed posted wire] in S.
  destruct S as [A [B [C [E [T [D N]]]]]].
  split; [lia|]. split; [lia|]. split; [lia|]. split; [lia|].
  split; [exact T|]. split.
  - intro Hd. destruct (D Hd) as [-> Df].
    cbn [push_stats posted wire stat_success stat_failed].
    repeat split; lia.
  - intro Hd. destruct (N Hd) as [P [S1 [F1 _]]].
    split; [exact P|]. split; lia.
Qed.

(** [push_batch], with what it does to a network that accepts everything. *)
Lemma push_batch_spec (log_entries : list dict) (dry_run : bool)
  (p : Pusher) :
  let '(r, p') := push_batch log_entries dry_run p in
  stat_total (push_stats p')
  = stat_total (push_stats p) + Z.of_nat (length log_entries) /\
  (dry_run = true ->
   posted p' = posted p /\ wire p' = wire p /\
   stat_success (push_stats p') = stat_success (push_stats p) /\
   stat_failed (push_stats p') = stat_failed (push_stats p)) /\
  (dry_run = false ->
   (forall n, exists t, wire p n = Response 200 t) ->
   posted p' = posted p ++ log_entries /\
   stat_success (push_stats p')
   = stat_success (push_stats p) + Z.of_nat (length log_entries) /\
   stat_failed (push_stats p') = stat_failed (push_stats p) /\
   (forall n, exists t, wire p' n = Response 200 t)).
Proof.
  unfold push_batch.
  pose proof (push_batch_loop_spec log_entries dry_run 0
                (mkBatchResult 0 0 [])
                (count_total (Z.of_nat (length log_entries)) p)) as S.
  destruct (push_batch_loop _ _ _ _ _) as [r p'].
  cbn [batch_success batch_failed batch_errors length count_total push_stats
       stat_total stat_success stat_failed posted wire] in S.
  destruct S as [A [B [C [E [T [D N]]]]]].
  split; [exact T|]. split.
  - intro Hd. destruct (D Hd) as [-> Df].
    cbn [push_stats posted wire stat_success stat_failed].
    repeat split; reflexivity.
  - intros Hd All. destruct (N Hd) as [P [S1 [F1 A1]]].
    destruct (A1 All) as [Fz All'].
    split; [exact P|]. split; [lia|]. split; [lia | exact All'].
Qed.

Lemma firstn_add_skipn {A : Type} (i b : nat) (l : list A) :
  firstn (i + b) l = firstn i l ++ firstn b (skipn i l).
Proof.
  revert l. induction i as [|i IH]; intro l; [reflexivity|].
  destruct l as [|x r]; cbn [Nat.add firstn skipn app].
  - now rewrite firstn_nil.
  - now rewrite IH.
Qed.

(** The loop of [push_all] when nothing fails: it runs to the end, and after
    the batches starting at [a * batch_size], ..., the first
    [(a + n) * batch_size] logs are out. *)
Lemma push_all_loop_no_failure (all_logs : list dict) (batch_size : Z)
  (dry_run show_progress : bool) :
  0 < batch_size ->
  forall (n a : nat) (p : Pusher),
  (Z.of_nat (a + n) * batch_size < Z.of_nat (length all_logs) + batch_size) ->
  stat_failed (push_stats p) = 0 ->
  0 <= stat_total (push_stats p) ->
  (dry_run = false -> forall k, exists t, wire p k = Response 200 t) ->
  exists p',
    push_all_loop all_logs batch_size dry_run show_progress
                  (map (fun k => Z.of_nat k * batch_size) (seq a n)) p
    = Ok p' /\
    stat_failed (push_stats p') = 0 /\
    stat_total (push_stats p') - stat_total (push_stats p)
    = Z.of_nat (length (firstn ((a + n) * Z.to_nat batch_size) all_logs))
      - Z.of_nat (length (firstn (a * Z.to_nat batch_size) all_logs)) /\
    (dry_run = true ->
     posted p' = posted p /\ wire p' = wire p /\
     stat_success (push_stats p') = stat_success (push_stats p)) /\
    (dry_run = false ->
     posted p ++ skipn (a * Z.to_nat batch_size)
                       (firstn ((a + n) * Z.to_nat batch_size) all_logs)
     = posted p' /\
     stat_success (push_stats p') - stat_success (push_stats p)
     = stat_total (push_stats p') - stat_total (push_stats p)).
Proof.
  intro B. set (b := Z.to_nat batch_size).
  induction n as [|n IH]; intros a p Hlen Hf Ht Hw.
  - exists p. cbn [seq map push_all_loop]. rewrite Nat.add_0_r.
    split; [reflexivity|]. split; [exact Hf|]. split; [lia|].
    split; [intros _; repeat split|].
    intros _. split; [|lia].
    rewrite skipn_all2; [apply app_nil_r|].
    rewrite length_firstn. lia.
  - cbn [seq map push_all_loop].
    set (i := Z.of_nat a * batch_size).
    assert (Ei : Z.to_nat i = (a * b)%nat) by (unfold i, b; nia).
    assert (Eib : Z.to_nat (i + batch_size) = (a * b + b)%nat)
      by (unfold i, b; nia).
    assert (Hi : Z.of_nat (a * b) < Z.of_nat (length all_logs))
      by (unfold b; nia).
    set (batch := py_slice all_logs (Z.to_nat i) (Z.to_nat (i + batch_size))).
    assert (Eb : batch = firstn b (skipn (a * b) all_logs)).
    { unfold batch, py_slice. rewrite Ei, Eib.
      replace (a * b + b - a * b)%nat with b by lia. reflexivity. }
    assert (Lb : (1 <= length batch)%nat).
    { rewrite Eb, length_firstn, length_skipn. unfold b. lia. }
    pose proof (push_batch_spec batch dry_run p) as S.
    destruct (push_batch batch dry_run p) as [r p1].
    destruct S as [T1 [D1 N1]].
    assert (F1 : stat_failed (push_stats p1) = 0).
    { destruct dry_run.
      - destruct (D1 eq_refl) as [_ [_ [_ F]]]. lia.
      - destruct (N1 eq_refl (Hw eq_refl)) as [_ [_ [F _]]]. lia. }
    assert (Tp : 1 <= stat_total (push_stats p1)) by lia.
    assert (Pr : exists q,
               (if show_progress && ((i / batch_size + 1) mod 10 =? 0)
                then py_div (inject_Z (stat_success (push_stats p1)))
                            (inject_Z (stat_total (push_stats p1)))
                else Ok 0%Q) = Ok q).
    { destruct (show_progress && _); [|eexists; reflexivity].
      rewrite py_div_ok by (apply inject_Z_nonzero; lia).
      eexists; reflexivity. }
    destruct Pr as [q Eq]. rewrite Eq.
    assert (Go : (if 100 <? stat_total (push_stats p1)
                  then match py_div (inject_Z (stat_failed (push_stats p1)))
                                    (inject_Z (stat_total (push_stats p1))) with
                       | Raise e => Raise e
                       | Ok fail_rate =>
                           if Qltb 0.5 fail_rate then Ok p1
                           else push_all_loop all_logs batch_size dry_run
                                  show_progress
                                  (map (fun k => Z.of_nat k * batch_size)
                                       (seq (S a) n)) p1
                       end
                  else push_all_loop all_logs batch_size dry_run show_progress
                         (map (fun k => Z.of_nat k * batch_size)
                              (seq (S a) n)) p1)
                 = push_all_loop all_logs batch_size dry_run show_progress
                     (map (fun k => Z.of_nat k * batch_size) (seq (S a) n)) p1).
    { destruct (100 <? stat_total (push_stats p1)); [|reflexivity].
      rewrite py_div_ok by (apply inject_Z_nonzero; lia).
      rewrite F1.
      replace (Qltb 0.5 (inject_Z 0 / inject_Z (stat_total (push_stats p1))))
        with false; [reflexivity|].
      symmetry. apply Qltb_false.
      assert (Z0 : (inject_Z 0 / inject_Z (stat_total (push_stats p1)) == 0)%Q)
        by (unfold Qdiv; apply Qmult_0_l).
      rewrite Z0. discriminate. }
    rewrite Go.
    destruct (IH (S a) p1) as [p' [E [Ff [Tt [Dd Nn]]]]].
    + replace (S a + n)%nat with (a + S n)%nat by lia. exact Hlen.
    + exact F1.
    + lia.
    + intros Hd k. destruct (N1 Hd (Hw Hd)) as [_ [_ [_ A1]]]. apply A1.
    + replace (S a + n)%nat with (a + S n)%nat in * by lia.
      assert (Split : firstn (S a * b) all_logs
                      = firstn (a * b) all_logs ++ batch).
      { rewrite Eb. replace (S a * b)%nat with (a * b + b)%nat by lia.
        apply firstn_add_skipn. }
      exists p'. split; [exact E|]. split; [exact Ff|].
      split; [|split].
      * rewrite Split in Tt. rewrite length_app in Tt. lia.
      * intro Hd. destruct (D1 Hd) as [P1 [W1 [S1 _]]].
        destruct (Dd Hd) as [P2 [W2 S2]].
        repeat split; congruence.
      * intro Hd. destruct (N1 Hd (Hw Hd)) as [P1 [S1 _]].
        destruct (Nn Hd) as [P2 S2].
        split; [|lia].
        rewrite <- P2, P1, <- app_assoc. f_equal.
        assert (K : skipn (a * b) (firstn ((a + S n) * b) all_logs)
                    = batch ++ skipn (S a * b)
                                     (firstn ((a + S n) * b) all_logs)).
        { replace (S a * b)%nat with (b + a * b)%nat by lia.
          rewrite <- skipn_skipn.
          rewrite <- (firstn_skipn b
                        (skipn (a * b) (firstn ((a + S n) * b) all_logs)))
            at 1.
          f_equal. rewrite Eb.
          rewrite skipn_firstn_comm, firstn_firstn.
          f_equal. nia. }
        rewrite K. reflexivity.
Qed.

(** X28. [push_all] with a positive batch size, on a pusher without failures
    so far: in a dry run it returns with nothing posted, the total grown by
    the number of logs and the success counter as it was; against an API that
    answers 200 to everything it posts every log exactly once, in order, and
    counts each as a success.  With a batch size of 0 it raises
    ZeroDivisionError before pushing anything. *)
Theorem push_all_delivers (batch_size : Z) (all_logs : list dict)
  (dry_run show_progress : bool) (p : Pusher) :
  0 < batch_size ->
  stat_failed (push_stats p) = 0 ->
  0 <= stat_total (push_stats p) ->
  (dry_run = false -> forall k, exists t, wire p k = Response 200 t) ->
  (exists p',
     push_all batch_size all_logs dry_run show_progress p = Ok p' /\
     stat_total (push_stats p')
     = stat_total (push_stats p) + Z.of_nat (length all_logs) /\
     stat_failed (push_stats p') = 0 /\
     (dry_run = true ->
      posted p' = posted p /\
      stat_success (push_stats p') = stat_success (push_stats p)) /\
     (dry_run = false ->
      posted p' = posted p ++ all_logs /\
      stat_success (push_stats p')
      = stat_success (push_stats p) + Z.of_nat (length all_logs))) /\
  push_all 0 all_logs dry_run show_progress p = Raise ZeroDivisionError.
Proof.
  intros B Hf Ht Hw. split; [|reflexivity].
  unfold push_all, py_floordiv.
  replace (batch_size =? 0) with false by (symmetry; apply Z.eqb_neq; lia).
  set (len := Z.of_nat (length all_logs)).
  destruct (Z.eq_dec len 0) as [L0|Ln].
  - assert (El : all_logs = [])
      by (destruct all_logs; [reflexivity | unfold len in L0; cbn in L0; lia]).
    unfold py_range_step.
    replace (batch_size =? 0) with false by (symmetry; apply Z.eqb_neq; lia).
    replace (batch_size <? 0) with false by (symmetry; apply Z.ltb_ge; lia).
    replace (len <=? 0) with true by (symmetry; apply Z.leb_le; lia).
    cbn [orb push_all_loop]. exists p.
    split; [reflexivity|]. split; [lia|]. split; [exact Hf|].
    split; [intros _; split; reflexivity|].
    intros _. rewrite El, app_nil_r. split; [reflexivity | cbn; lia].
  - assert (Lp : 1 <= len) by (unfold len in *; lia).
    unfold py_range_step.
    replace (batch_size =? 0) with false by (symmetry; apply Z.eqb_neq; lia).
    replace (batch_size <? 0) with false by (symmetry; apply Z.ltb_ge; lia).
    replace (len <=? 0) with false by (symmetry; apply Z.leb_gt; lia).
    cbn [orb].
    set (n := Z.to_nat ((len + batch_size - 1) / batch_size)).
    assert (Q1 : batch_size * ((len + batch_size - 1) / batch_size)
                 <= len + batch_size - 1)
      by (apply Z.mul_div_le; lia).
    assert (Q2 : len + batch_size - 1
                 < batch_size * ((len + batch_size - 1) / batch_size)
                   + batch_size).
    { pose proof (Z.mod_pos_bound (len + batch_size - 1) batch_size B) as M.
      pose proof (Z.div_mod (len + batch_size - 1) batch_size) as Dm.
      lia. }
    assert (Q0 : 0 <= (len + batch_size - 1) / batch_size)
      by (apply Z.div_pos; lia).
    destruct (push_all_loop_no_failure all_logs batch_size dry_run
                show_progress B n O p) as [p' [E [Ff [Tt [Dd Nn]]]]];
      [unfold n, len in *; cbn [Nat.add]; nia | exact Hf | exact Ht | exact Hw |].
    cbn [Nat.add Nat.mul firstn length] in Tt, Nn.
    assert (Full : firstn (n * Z.to_nat batch_size) all_logs = all_logs).
    { apply firstn_all2. unfold n, len in *. nia. }
    rewrite Full in Tt, Nn. cbn [skipn] in Nn.
    exists p'. split; [exact E|]. split; [unfold len; lia|].
    split; [exact Ff|]. split.
    + intro Hd. destruct (Dd Hd) as [P [_ S1]]. split; assumption.
    + intro Hd. destruct (Nn Hd) as [P S1].
      split; [symmetry; exact P | unfold len in *; lia].
Qed.

Lemma push_all_delivers_witness :
  exists p',
    push_all 2 (map metrics_dict [record_9000; record_9000; record_9000])
             false true
             (mkPusher (mkPushStats 0 0 0 0) (fun _ => Response 200 "ok") [])
    = Ok p' /\
    posted p' = map metrics_dict [record_9000; record_9000; record_9000].
Proof.
  destruct (push_all_delivers 2
              (map metrics_dict [record_9000; record_9000; record_9000])
              false true
              (mkPusher (mkPushStats 0 0 0 0) (fun _ => Response 200 "ok") []))
    as [[p' [E [_ [_ [_ N]]]]] _].
  - lia.
  - reflexivity.
  - cbn. lia.
  - intros _ k. exists "ok"%string. reflexivity.
  - exists p'. split; [exact E|]. destruct (N eq_refl) as [P _]. exact P.
Defined.


(** ** RealtimeScheduler *)

Lemma py_int_inject_Z (z : Z) : py_int (inject_Z z) = z.
Proof.
  unfold py_int. cbn [inject_Z Qnum Qden]. apply Z.quot_1_r.
Qed.

Lemma py_int_milliseconds (z : Z) : py_int (inject_Z z * 1000) = z * 1000.
Proof.
  unfold py_int. cbn [inject_Z Qnum Qden Qmult Pos.mul]. apply Z.quot_1_r.
Qed.

Lemma py_int_lt_succ (q : Q) :
  (0 <= q)%Q -> (q < inject_Z (py_int q + 1))%Q.
Proof.
  intro H. rewrite (py_int_floor q H). apply Qlt_floor.
Qed.

(** X29. With a positive interval and a time at or after the epoch,
    [_align_to_interval] returns the multiple of the interval at or just
    below the time: it is at most the time, less than one interval before
    it, and aligning it again changes nothing.  [_wait_until_next_interval]
    then sleeps a positive time of at most one interval, which ends exactly
    one interval after the aligned time. *)
Theorem align_to_interval_grid (cfg : Config) (now : Q) :
  0 < interval_seconds cfg ->
  (0 <= now)%Q ->
  exists a : Z,
    _align_to_interval cfg now = Ok (inject_Z a) /\
    0 <= a /\ a mod interval_seconds cfg = 0 /\
    (inject_Z a <= now)%Q /\
    (now < inject_Z (a + interval_seconds cfg))%Q /\
    _align_to_interval cfg (inject_Z a) = Ok (inject_Z a) /\
    exists wait : Q,
      _wait_until_next_interval cfg now = Ok wait /\
      (0 < wait)%Q /\ (wait <= inject_Z (interval_seconds cfg))%Q /\
      (now + wait == inject_Z (a + interval_seconds cfg))%Q.
Proof.
  intros Hi Hn.
  set (i := interval_seconds cfg) in *.
  set (t := py_int now).
  assert (T0 : 0 <= t) by (apply py_int_nonneg; exact Hn).
  assert (Tl : (inject_Z t <= now)%Q) by (apply py_int_le; exact Hn).
  assert (Tu : (now < inject_Z (t + 1))%Q) by (apply py_int_lt_succ; exact Hn).
  assert (D0 : 0 <= t / i) by (apply Z.div_pos; lia).
  assert (Dl : i * (t / i) <= t) by (apply Z.mul_div_le; lia).
  assert (Du : t < i * (t / i) + i).
  { pose proof (Z.mod_pos_bound t i Hi). pose proof (Z.div_mod t i). lia. }
  assert (A : _align_to_interval cfg now = Ok (inject_Z (t / i * i))).
  { unfold _align_to_interval, py_floordiv. fold i. fold t.
    replace (i =? 0) with false by (symmetry; apply Z.eqb_neq; lia).
    reflexivity. }
  assert (Al : (inject_Z (t / i * i) <= now)%Q).
  { apply Qle_trans with (inject_Z t); [|exact Tl].
    rewrite <- Zle_Qle. lia. }
  assert (Au : (now < inject_Z (t / i * i + i))%Q).
  { apply Qlt_le_trans with (inject_Z (t + 1)); [exact Tu|].
    rewrite <- Zle_Qle. lia. }
  exists (t / i * i).
  split; [exact A|]. split; [nia|].
  split; [apply Z.mod_mul; lia|].
  split; [exact Al|]. split; [exact Au|]. split.
  - unfold _align_to_interval, py_floordiv. fold i.
    rewrite py_int_inject_Z.
    replace (i =? 0) with false by (symmetry; apply Z.eqb_neq; lia).
    rewrite Z.div_mul by lia. reflexivity.
  - unfold _wait_until_next_interval. rewrite A. fold i.
    rewrite inject_Z_plus in Au.
    assert (W : (0 < inject_Z (t / i * i) + inject_Z i - now)%Q) by lra.
    apply Qltb_true in W. rewrite W.
    eexists. split; [reflexivity|].
    rewrite inject_Z_plus.
    split; [lra|]. split; [lra | ring].
Qed.

Lemma align_to_interval_grid_witness :
  exists a : Z,
    _align_to_interval three_region_config (50607 # 1)%Q = Ok (inject_Z a) /\
    a = 50400.
Proof.
  destruct (align_to_interval_grid three_region_config (50607 # 1)%Q)
    as [a [A _]].
  - reflexivity.
  - discriminate.
  - exists a. split; [exact A|].
    vm_compute in A. injection A as E. symmetry. exact E.
Defined.

Section SchedulerFacts.

Variable sin_term : Z -> Q.
Variable utc_offset : Z.

(** The three ways [run_once] returns. *)
Lemma run_once_cases (cfg : Config) (now : Q) (dry_run : bool)
  (sch : Scheduler) (s : rng) (ok : bool) (sch' : Scheduler) (s' : rng) :
  run_once sin_term utc_offset cfg now dry_run sch s = Ok ((ok, sch'), s') ->
  exists current_time,
    _align_to_interval cfg now = Ok current_time /\
    let timestamp_ms := py_int (current_time * 1000) in
    (In timestamp_ms (pushed_timestamps (sched_state sch)) /\
     ok = true /\ sch' = sch /\ s' = s) \/
    (~ In timestamp_ms (pushed_timestamps (sched_state sch)) /\
     ok = false /\
     sched_state sch' = sched_state sch /\
     state_file sch' = state_file sch /\
     stat_success (push_stats (sched_pusher sch'))
     = stat_success (push_stats (sched_pusher sch))) \/
    (~ In timestamp_ms (pushed_timestamps (sched_state sch)) /\
     ok = true /\
     sched_state sch'
     = mkSchedulerState
         (pushed_timestamps (sched_state sch) ++ [timestamp_ms])
         (state_start_date (sched_state sch))
         (current_index (sched_state sch) + 1) /\
     state_file sch' = Some (sched_state sch') /\
     (dry_run = false ->
      stat_success (push_stats (sched_pusher sch))
      < stat_success (push_stats (sched_pusher sch')))).
Proof.
  intro H. unfold run_once in H. rand_unfold_in H.
  destruct (_align_to_interval cfg now) as [ct|e]; [|discriminate].
  exists ct. split; [reflexivity|]. cbv zeta.
  set (ts := py_int (ct * 1000)) in *.
  destruct (existsb (Z.eqb ts) (pushed_timestamps (sched_state sch))) eqn:Ex.
  - left. apply existsb_exists in Ex. destruct Ex as [x [I E]].
    apply Z.eqb_eq in E. subst x. inversion H; subst. auto.
  - right.
    assert (NI : ~ In ts (pushed_timestamps (sched_state sch))).
    { intro I. assert (X : existsb (Z.eqb ts)
                             (pushed_timestamps (sched_state sch)) = true).
      { apply existsb_exists. exists ts. split; [exact I | apply Z.eqb_refl]. }
      congruence. }
    match type of H with
    | match ?X with _ => _ end = _ =>
        destruct X as [[curve s1]|e]; [|discriminate]
    end.
    cbn [sched_state sched_pusher state_file] in H.
    destruct (Z.of_nat (length curve) <=? current_index (sched_state sch)).
    + left. inversion H; subst. cbn. auto.
    + destruct (py_index curve (current_index (sched_state sch)))
        as [bandwidth_gbps|e]; [|discriminate].
      destruct (derive cfg bandwidth_gbps (interval_seconds cfg) s1)
        as [[m1 s2]|e]; [|discriminate].
      destruct (inject utc_offset cfg m1 ts s2) as [[m2 s3]|e];
        [|discriminate].
      destruct (distribute cfg (metrics_dict m2) ts s3) as [[logs s4]|e];
        [|discriminate].
      cbn [sched_pusher sched_state state_file] in H.
      unfold push_batch in H.
      pose proof (push_batch_loop_spec logs dry_run 0 (mkBatchResult 0 0 [])
                    (count_total (Z.of_nat (length logs)) (sched_pusher sch)))
        as S.
      destruct (push_batch_loop _ _ _ _ _) as [r p'].
      cbn [batch_success batch_failed batch_errors length count_total
           push_stats stat_total stat_success stat_failed posted wire] in S.
      destruct S as [A [B [C [E [T [D N]]]]]].
      destruct (0 <? batch_success r) eqn:Sx.
      * right. apply Z.ltb_lt in Sx. inversion H; subst.
        cbn [sched_state state_file sched_pusher].
        split; [exact NI|]. split; [reflexivity|]. split; [reflexivity|].
        split; [reflexivity|].
        intro Hd. destruct (N Hd) as [_ [S1 _]]. lia.
      * left. apply Z.ltb_ge in Sx. inversion H; subst.
        cbn [sched_state state_file sched_pusher].
        split; [exact NI|]. split; [reflexivity|]. split; [reflexivity|].
        split; [reflexivity|].
        destruct dry_run.
        -- destruct (D eq_refl) as [-> _]. reflexivity.
        -- destruct (N eq_refl) as [_ [S1 _]]. lia.
Qed.

(** X30. One [run_once] that returns either leaves the scheduler state alone
    or appends the current aligned timestamp, which was not in the list, and
    moves [current_index] on by one, saving the new state.  A timestamp
    already pushed makes it return True with nothing changed and no random
    number drawn; False is returned only with the state and the success
    counter as they were; outside a dry run, True for a new timestamp means
    at least one entry was accepted.  Distinct pushed timestamps stay
    distinct. *)
Theorem run_once_records_new_timestamps (cfg : Config) (now : Q)
  (dry_run : bool) (sch : Scheduler) (s : rng)
  (ok : bool) (sch' : Scheduler) (s' : rng) :
  run_once sin_term utc_offset cfg now dry_run sch s = Ok ((ok, sch'), s') ->
  exists current_time,
    _align_to_interval cfg now = Ok current_time /\
    let timestamp_ms := py_int (current_time * 1000) in
    (In timestamp_ms (pushed_timestamps (sched_state sch)) ->
     ok = true /\ sch' = sch /\ s' = s) /\
    (ok = false ->
     sched_state sch' = sched_state sch /\
     state_file sch' = state_file sch /\
     stat_success (push_stats (sched_pusher sch'))
     = stat_success (push_stats (sched_pusher sch))) /\
    (ok = true ->
     ~ In timestamp_ms (pushed_timestamps (sched_state sch)) ->
     sched_state sch'
     = mkSchedulerState
         (pushed_timestamps (sched_state sch) ++ [timestamp_ms])
         (state_start_date (sched_state sch))
         (current_index (sched_state sch) + 1) /\
     state_file sch' = Some (sched_state sch') /\
     (dry_run = false ->
      stat_success (push_stats (sched_pusher sch))
      < stat_success (push_stats (sched_pusher sch')))) /\
    (NoDup (pushed_timestamps (sched_state sch)) ->
     NoDup (pushed_timestamps (sched_state sch'))).
Proof.
  intro H. destruct (run_once_cases _ _ _ _ _ _ _ _ H) as [ct [A Cs]].
  exists ct. split; [exact A|]. cbv zeta in *.
  destruct Cs as [[I [-> [-> ->]]] | [[NI [-> [St [Sf Su]]]] |
                                      [NI [-> [St [Sf Su]]]]]].
  - split; [auto|]. split; [discriminate|].
    split; [intros _ NI; contradiction | auto].
  - split; [intro I; contradiction|]. split; [auto|].
    split; [discriminate|]. rewrite St. auto.
  - split; [intro I; contradiction|]. split; [discriminate|].
    split; [auto|]. rewrite St. cbn [pushed_timestamps].
    intro Nd. apply NoDup_app; [exact Nd | apply NoDup_cons; [intros []|apply NoDup_nil] |].
    intros x Ix [<-|[]]. contradiction.
Qed.

End SchedulerFacts.

Lemma run_once_records_new_timestamps_witness :
  match run_once sin_term_double 0 boundary_config (50607 # 1)%Q true
                 fresh_scheduler boundary_rng with
  | Ok ((ok, sch'), _) =>
      ok = true /\
      pushed_timestamps (sched_state sch') = [43200000] /\
      current_index (sched_state sch') = 1
  | Raise _ => False
  end.
Proof.
  destruct (run_once sin_term_double 0 boundary_config (50607 # 1)%Q true
                     fresh_scheduler boundary_rng)
    as [[[ok sch'] s']|e] eqn:E.
  - destruct (run_once_records_new_timestamps _ _ _ _ _ _ _ _ _ _ E)
      as [ct [A [_ [Hf [Ht _]]]]].
    vm_compute in A. injection A as <-.
    destruct ok.
    + destruct (Ht eq_refl) as [St _]; [intros []|].
      rewrite St. cbn. repeat split; reflexivity.
    + exfalso. destruct (Hf eq_refl) as [St _].
      vm_compute in E. injection E as _ Es _. rewrite <- Es in St.
      discriminate St.
  - vm_compute in E. discriminate E.
Defined.
